(** * mcp-polygon: the tool layer of [server.py], embedded and verified

    The development follows [src/server.py].  Python data is modelled as the
    program has it:

    - a [str] is a Rocq [string] holding the UTF-8 encoding of the text
      ([str.upper] and [str.lower] are modelled on the letters a-z / A-Z;
      the case mapping of letters beyond ASCII is outside the model, and
      so is the escape [repr] gives a code point beyond ASCII that is not
      printable, such as U+00A0);
    - an [int] is a [Z], and [str] of it raises beyond 4300 digits, as
      CPython 3.11 does; a [float] is carried by the text [repr] gives it
      (a bijection on floats), and is turned into a binary64 value of
      [SpecFloat] where the program computes with it;
    - a [dict] is an association list in insertion order with unique keys,
      updated the way Python updates a dict;
    - an exception is a value of [exn]; a computation that may raise, read
      the environment and call the upstream service lives in the monad [M],
      which also records every outbound request. *)

From Stdlib Require Import ZArith List String Ascii Bool Lia.
From Stdlib Require Import DecimalString.
From Stdlib Require DecimalPos DecimalFacts.
From Stdlib Require Import SpecFloat.
Import ListNotations.
Local Open Scope string_scope.
Local Open Scope Z_scope.
Set Warnings "-register-all".

(* ================================================================== *)
(** * Text *)
(* ================================================================== *)

Module Text.

Definition code (c : ascii) : Z := Z.of_N (N_of_ascii c).
Definition chr (n : Z) : ascii := ascii_of_N (Z.to_N n).

Definition upper_char (c : ascii) : ascii :=
  let n := code c in
  if (97 <=? n) && (n <=? 122) then chr (n - 32) else c.

Definition lower_char (c : ascii) : ascii :=
  let n := code c in
  if (65 <=? n) && (n <=? 90) then chr (n + 32) else c.

Fixpoint map_string (f : ascii -> ascii) (s : string) : string :=
  match s with
  | EmptyString => EmptyString
  | String c r => String (f c) (map_string f r)
  end.

(** [s.upper()] and [s.lower()]. *)
Definition upper : string -> string := map_string upper_char.
Definition lower : string -> string := map_string lower_char.

(** [str(n)] for an [int]. *)
Definition of_Z (n : Z) : string := NilZero.string_of_int (Z.to_int n).

(** Decimal digits of a natural number, left-padded with zeros to [width]
    (the [%02d] of [strftime] fields). *)
Fixpoint zeros (n : nat) : string :=
  match n with
  | O => EmptyString
  | S k => String "0" (zeros k)
  end.

Definition zero_pad (width : nat) (s : string) : string :=
  zeros (width - String.length s) ++ s.

Definition digits (width : nat) (n : Z) : string := zero_pad width (of_Z n).

Definition hex_digit (n : Z) : ascii :=
  if n <? 10 then chr (48 + n) else chr (87 + n).

(** Two lower-case hexadecimal digits of a character code. *)
Definition hex2 (c : ascii) : string :=
  let n := code c in
  String (hex_digit (n / 16)) (String (hex_digit (n mod 16)) EmptyString).

(** Four lower-case hexadecimal digits of a code point below 65536. *)
Definition hex4 (n : Z) : string :=
  String (hex_digit (n / 4096)) (String (hex_digit ((n / 256) mod 16))
    (String (hex_digit ((n / 16) mod 16)) (String (hex_digit (n mod 16)) EmptyString))).

Fixpoint contains_char (c : ascii) (s : string) : bool :=
  match s with
  | EmptyString => false
  | String d r => Ascii.eqb c d || contains_char c r
  end.

(** [needle in hay] on two strings. *)
Fixpoint is_substring (needle hay : string) : bool :=
  prefix needle hay ||
  match hay with
  | EmptyString => false
  | String _ r => is_substring needle r
  end.

(** [sep.join(parts)]. *)
Definition join (sep : string) (parts : list string) : string :=
  String.concat sep parts.

(** [s.startswith(p)]. *)
Definition startswith (p s : string) : bool := prefix p s.

End Text.

(* ================================================================== *)
(** * Python dicts *)
(* ================================================================== *)

Module Dict.
Section Dict.
Context {V : Type}.

(** Entries in insertion order. *)
Definition t := list (string * V).

Fixpoint get (k : string) (d : t) : option V :=
  match d with
  | [] => None
  | (k', v) :: r => if String.eqb k k' then Some v else get k r
  end.

(** [k in d]. *)
Definition mem (k : string) (d : t) : bool :=
  match get k d with Some _ => true | None => false end.

(** [d[k] = v]: an existing key keeps its place and takes the new value,
    a new key goes to the end. *)
Fixpoint set (k : string) (v : V) (d : t) : t :=
  match d with
  | [] => [(k, v)]
  | (k', v') :: r =>
      if String.eqb k k' then (k', v) :: r else (k', v') :: set k v r
  end.

Definition keys (d : t) : list string := map fst d.

(** The dict display [{k1: v1, ...}], built entry by entry. *)
Definition of_list (l : list (string * V)) : t :=
  fold_left (fun d kv => set (fst kv) (snd kv) d) l [].

(** [dict(d)]: a copy, same entries in the same order. *)
Definition copy (d : t) : t := d.

(** The key inserted last, the one [popitem] would give. *)
Definition last_key (d : t) : option string :=
  match rev d with
  | [] => None
  | (k, _) :: _ => Some k
  end.

Definition count_key (k : string) (d : t) : nat :=
  List.length (filter (fun kv => String.eqb k (fst kv)) d).
End Dict.
Arguments t : clear implicits.
End Dict.

(* ================================================================== *)
(** * Python floats *)
(* ================================================================== *)

(** A [float] is an IEEE binary64 number.  The values of this module are
    those of [SpecFloat] at precision 53; the text form is the one [repr]
    prints ([1.5], [1e+16], [inf], [nan]). *)
Module PyFloat.

Definition prec : Z := 53.
Definition emax : Z := 1024.

Definition float := spec_float.

(** The integer [n] rounded to the nearest float. *)
Definition of_Z (n : Z) : float := binary_normalize prec emax n 0 false.

(** [a / b] for two [int]s, [b > 0]: the quotient rounded once. *)
Definition div_Z (a b : Z) : float :=
  match a, b with
  | Zpos p, Zpos q => SFdiv prec emax (S754_finite false p 0) (S754_finite false q 0)
  | Zneg p, Zpos q => SFdiv prec emax (S754_finite true p 0) (S754_finite false q 0)
  | _, _ => S754_zero false
  end.

Definition div (x y : float) : float := SFdiv prec emax x y.
Definition mul (x y : float) : float := SFmul prec emax x y.

Definition is_zero (x : float) : bool :=
  match x with S754_zero _ => true | _ => false end.

Definition is_nan (x : float) : bool :=
  match x with S754_nan => true | _ => false end.

(** ** Reading the text of a float *)

Definition digit_of (c : ascii) : option Z :=
  let n := Text.code c in
  if (48 <=? n) && (n <=? 57) then Some (n - 48) else None.

(** Reads a run of decimal digits: the number read so far, how many digits
    were read, and the text left. *)
Fixpoint read_digits (s : string) (acc : Z) (count : Z) : Z * Z * string :=
  match s with
  | EmptyString => (acc, count, s)
  | String c r =>
      match digit_of c with
      | Some d => read_digits r (10 * acc + d) (count + 1)
      | None => (acc, count, s)
      end
  end.

Definition read_sign (s : string) : bool * string :=
  match s with
  | String "-" r => (true, r)
  | String "+" r => (false, r)
  | _ => (false, s)
  end.

(** The decimal number [(-1)^sign * digits * 10^exponent] written by [s]. *)
Definition read_decimal (s : string) : option (bool * Z * Z) :=
  let '(sign, s1) := read_sign s in
  let '(ip, n1, s2) := read_digits s1 0 0 in
  let '(m, n2, s3) :=
    match s2 with
    | String "." r => read_digits r ip 0
    | _ => (ip, 0, s2)
    end in
  if (n1 + n2 =? 0) then None else
  match s3 with
  | EmptyString => Some (sign, m, - n2)
  | String "e" r =>
      let '(esign, r1) := read_sign r in
      let '(e, n3, r2) := read_digits r1 0 0 in
      if (n3 =? 0) then None else
      match r2 with
      | EmptyString => Some (sign, m, (if esign then - e else e) - n2)
      | _ => None
      end
  | _ => None
  end.

(** The float nearest to [(-1)^sign * m * 10^e]. *)
Definition of_decimal (sign : bool) (m e : Z) : float :=
  match m with
  | Zpos p =>
      if 0 <=? e then binary_normalize prec emax ((if sign then -1 else 1) * m * 10 ^ e) 0 sign
      else match 10 ^ (- e) with
           | Zpos q => SFdiv prec emax (S754_finite sign p 0) (S754_finite false q 0)
           | _ => S754_nan
           end
  | _ => S754_zero sign
  end.

(** [float(s)] on the text [repr] prints; text that is no float reads as
    not-a-number. *)
Definition of_repr (s : string) : float :=
  if String.eqb s "inf" then S754_infinity false
  else if String.eqb s "-inf" then S754_infinity true
  else if String.eqb s "nan" then S754_nan
  else match read_decimal s with
       | Some (sign, m, e) => of_decimal sign m e
       | None => S754_nan
       end.

(** ** Integer parts *)

(** [m * 2^e] rounded toward zero, for [m >= 0]. *)
Definition trunc_mag (m : Z) (e : Z) : Z :=
  if 0 <=? e then m * 2 ^ e else m / 2 ^ (- e).

(** The whole part and the rest of a finite float, as [modf] splits it:
    both carry the sign of the number. *)
Definition modf (x : float) : Z * float :=
  match x with
  | S754_finite s m e =>
      let i := trunc_mag (Zpos m) e in
      let frac :=
        if 0 <=? e then S754_zero s
        else match (Zpos m) mod 2 ^ (- e) with
             | Zpos r => S754_finite s r e
             | _ => S754_zero s
             end in
      ((if s then - i else i), frac)
  | _ => (0, x)
  end.

(** A finite float rounded to the nearest integer, ties to even. *)
Definition round_half_even (x : float) : Z :=
  match x with
  | S754_finite s m e =>
      let mag :=
        if 0 <=? e then Zpos m * 2 ^ e
        else
          let d := 2 ^ (- e) in
          let q := Zpos m / d in
          let r := Zpos m mod d in
          match Z.compare (2 * r) d with
          | Lt => q
          | Gt => q + 1
          | Eq => if Z.even q then q else q + 1
          end in
      if s then - mag else mag
  | _ => 0
  end.

(** [x < 0]. *)
Definition is_negative (x : float) : bool :=
  match x with
  | S754_finite true _ _ | S754_infinity true => true
  | _ => false
  end.

End PyFloat.

(* ================================================================== *)
(** * Exceptions and results *)
(* ================================================================== *)

(** The exception classes the program can meet; all of them derive from
    [Exception], so an [except Exception] clause catches every one. *)
Inductive exn_class :=
| RuntimeError | TypeError | AttributeError | ValueError | KeyError | IndexError
| OverflowError | OSError
| HTTPError | ConnectionError | Timeout | JSONDecodeError
| ToolError.

Record exn := Exn { exn_cls : exn_class; exn_msg : string }.

(** [str(e)]. *)
Definition str_exn (e : exn) : string := exn_msg e.

(** What evaluating an expression gives: a value, or a raised exception. *)
Inductive outcome (A : Type) :=
| Returned (a : A)
| Raised (e : exn).
Arguments Returned {A} a.
Arguments Raised {A} e.

Definition obind {A B} (o : outcome A) (f : A -> outcome B) : outcome B :=
  match o with
  | Returned a => f a
  | Raised e => Raised e
  end.

Definition raise_ {A} (c : exn_class) (msg : string) : outcome A :=
  Raised (Exn c msg).

Declare Scope outcome_scope.
Delimit Scope outcome_scope with outcome.
Notation "x <~ c ;; k" := (obind c (fun x => k))
  (at level 61, c at next level, right associativity) : outcome_scope.

(* ================================================================== *)
(** * JSON values *)
(* ================================================================== *)

(** What [response.json()] returns and [json.dumps] prints. *)
Inductive json :=
| JNull
| JBool (b : bool)
| JInt (n : Z)
| JFloat (repr : string)
| JStr (s : string)
| JList (items : list json)
| JDict (entries : list (string * json)).

Module Json.

(** [type(v).__name__], as error messages quote it. *)
Definition type_name (v : json) : string :=
  match v with
  | JNull => "NoneType"
  | JBool _ => "bool"
  | JInt _ => "int"
  | JFloat _ => "float"
  | JStr _ => "str"
  | JList _ => "list"
  | JDict _ => "dict"
  end.

(** [bool(v)], the test of [if v:] and of [v or default]. *)
Definition truthy (v : json) : bool :=
  match v with
  | JNull => false
  | JBool b => b
  | JInt n => negb (n =? 0)
  | JFloat r => negb (PyFloat.is_zero (PyFloat.of_repr r))
  | JStr s => negb (String.eqb s "")
  | JList l => match l with [] => false | _ => true end
  | JDict d => match d with [] => false | _ => true end
  end.

(** ** [json.dumps(v, indent=2)] *)

Definition dq : string := String (Text.chr 34) EmptyString.

(** The escape of one code point ([ensure_ascii] is on): a code point
    beyond the basic plane is written as a surrogate pair. *)
Definition escape_code (n : Z) : string :=
  if n =? 34 then "\" ++ dq
  else if n =? 92 then "\\"
  else if n =? 10 then "\n"
  else if n =? 13 then "\r"
  else if n =? 9 then "\t"
  else if n =? 8 then "\b"
  else if n =? 12 then "\f"
  else if (32 <=? n) && (n <=? 126) then String (Text.chr n) EmptyString
  else if n <? 65536 then "\u" ++ Text.hex4 n
  else "\u" ++ Text.hex4 (55296 + (n - 65536) / 1024)
       ++ "\u" ++ Text.hex4 (56320 + (n - 65536) mod 1024).

(** Is the byte a UTF-8 continuation byte? *)
Definition is_cont (c : ascii) : bool :=
  let n := Text.code c in (128 <=? n) && (n <? 192).

Definition cont (c : ascii) : Z := Text.code c mod 64.

(** The text read code point by code point, each one escaped. *)
Fixpoint escape (s : string) : string :=
  match s with
  | EmptyString => EmptyString
  | String b r =>
      let n := Text.code b in
      match r with
      | String c1 r1 =>
          if (192 <=? n) && (n <? 224) && is_cont c1
          then escape_code ((n mod 32) * 64 + cont c1) ++ escape r1
          else match r1 with
          | String c2 r2 =>
              if (224 <=? n) && (n <? 240) && is_cont c1 && is_cont c2
              then escape_code ((n mod 16) * 4096 + cont c1 * 64 + cont c2) ++ escape r2
              else match r2 with
              | String c3 r3 =>
                  if (240 <=? n) && (n <? 248) && is_cont c1 && is_cont c2 && is_cont c3
                  then escape_code ((n mod 8) * 262144 + cont c1 * 4096 + cont c2 * 64 + cont c3)
                       ++ escape r3
                  else escape_code n ++ escape r
              | EmptyString => escape_code n ++ escape r
              end
          | EmptyString => escape_code n ++ escape r
          end
      | EmptyString => escape_code n
      end
  end.

Definition quote (s : string) : string := dq ++ escape s ++ dq.

Definition float_text (r : string) : string :=
  if String.eqb r "nan" then "NaN"
  else if String.eqb r "inf" then "Infinity"
  else if String.eqb r "-inf" then "-Infinity"
  else r.

Fixpoint spaces (n : nat) : string :=
  match n with O => EmptyString | S k => " " ++ spaces k end.

Definition LF : string := String (Text.chr 10) EmptyString.

(** A line break followed by the indentation of nesting depth [level]. *)
Definition newline (level : nat) : string := LF ++ spaces (2 * level).

Fixpoint dumps_at (level : nat) (v : json) : string :=
  match v with
  | JNull => "null"
  | JBool true => "true"
  | JBool false => "false"
  | JInt n => Text.of_Z n
  | JFloat r => float_text r
  | JStr s => quote s
  | JList [] => "[]"
  | JList l =>
      "[" ++ newline (S level)
          ++ Text.join ("," ++ newline (S level)) (map (dumps_at (S level)) l)
          ++ newline level ++ "]"
  | JDict [] => "{}"
  | JDict d =>
      "{" ++ newline (S level)
          ++ Text.join ("," ++ newline (S level))
               (map (fun kv => quote (fst kv) ++ ": " ++ dumps_at (S level) (snd kv)) d)
          ++ newline level ++ "}"
  end.

Definition dumps (v : json) : string := dumps_at 0 v.

(** ** [repr(v)] and [str(v)] *)

(** One byte of the text inside the quotes: the quote, the backslash and
    the control characters of ASCII are escaped, every other byte is
    written as it is (a code point beyond ASCII is taken to be
    printable). *)
Definition repr_char (q : ascii) (c : ascii) : string :=
  let n := Text.code c in
  if Ascii.eqb c q then "\" ++ String c EmptyString
  else if n =? 92 then "\\"
  else if n =? 10 then "\n"
  else if n =? 13 then "\r"
  else if n =? 9 then "\t"
  else if (n <? 32) || (n =? 127) then "\x" ++ Text.hex2 c
  else String c EmptyString.

Fixpoint repr_body (q : ascii) (s : string) : string :=
  match s with
  | EmptyString => EmptyString
  | String c r => repr_char q c ++ repr_body q r
  end.

(** [repr(s)] for a string: single quotes, unless the text has a single
    quote and no double quote. *)
Definition repr_str (s : string) : string :=
  let q : ascii :=
    if Text.contains_char "'" s && negb (Text.contains_char (Text.chr 34) s)
    then Text.chr 34 else "'"%char in
  String q (repr_body q s) ++ String q EmptyString.

Fixpoint repr (v : json) : string :=
  match v with
  | JNull => "None"
  | JBool true => "True"
  | JBool false => "False"
  | JInt n => Text.of_Z n
  | JFloat r => r
  | JStr s => repr_str s
  | JList l => "[" ++ Text.join ", " (map repr l) ++ "]"
  | JDict d =>
      "{" ++ Text.join ", " (map (fun kv => repr_str (fst kv) ++ ": " ++ repr (snd kv)) d) ++ "}"
  end.

(** [str(v)], what an f-string interpolates. *)
Definition str (v : json) : string :=
  match v with
  | JStr s => s
  | _ => repr v
  end.

(** [d.get(k)] on a dict. *)
Definition get (k : string) (d : list (string * json)) : json :=
  match Dict.get k d with Some v => v | None => JNull end.

End Json.

(* ================================================================== *)
(** * Dates and times *)
(* ================================================================== *)

(** A [datetime.date] and a [datetime.datetime] as a caller builds them,
    by their fields. *)
Record date := Date { d_year : Z; d_month : Z; d_day : Z }.

Record datetime := Datetime_ {
  dt_year : Z; dt_month : Z; dt_day : Z;
  dt_hour : Z; dt_minute : Z; dt_second : Z; dt_microsecond : Z }.

(** A datetime the program itself makes ([fromtimestamp] and [now] with
    [tz=timezone.utc], and what [timedelta] arithmetic gives from them) is
    kept as the instant it denotes: seconds and microseconds since the
    epoch.  Its calendar fields are computed from the instant. *)
Module Datetime.

Record t := At { seconds : Z; microsecond : Z }.

(** The day of the proleptic Gregorian calendar that lies [z] days after
    1970-01-01. *)
Definition civil_from_days (z : Z) : Z * Z * Z :=
  let z' := z + 719468 in
  let era := z' / 146097 in
  let doe := z' - era * 146097 in
  let yoe := (doe - doe / 1460 + doe / 36524 - doe / 146096) / 365 in
  let doy := doe - (365 * yoe + yoe / 4 - yoe / 100) in
  let mp := (5 * doy + 2) / 153 in
  let d := doy - (153 * mp + 2) / 5 + 1 in
  let m := if mp <? 10 then mp + 3 else mp - 9 in
  let y := yoe + era * 400 in
  ((if m <=? 2 then y + 1 else y), m, d).

Definition year (dt : t) : Z := fst (fst (civil_from_days (seconds dt / 86400))).
Definition month (dt : t) : Z := snd (fst (civil_from_days (seconds dt / 86400))).
Definition day (dt : t) : Z := snd (civil_from_days (seconds dt / 86400)).
Definition hour (dt : t) : Z := (seconds dt mod 86400) / 3600.
Definition minute (dt : t) : Z := ((seconds dt mod 86400) mod 3600) / 60.
Definition second (dt : t) : Z := (seconds dt mod 86400) mod 60.

Definition MINYEAR : Z := 1.
Definition MAXYEAR : Z := 9999.

Definition year_ok (y : Z) : bool := (MINYEAR <=? y) && (y <=? MAXYEAR).

(** A year as the C [int] that reports it (two's complement, 32 bits). *)
Definition c_int (y : Z) : Z := (y + 2 ^ 31) mod 2 ^ 32 - 2 ^ 31.

(** The datetime of a count of seconds that fits [time_t]: the C library
    refuses a year beyond its [int], [datetime] a year outside 1..9999. *)
Definition of_time_t (secs us : Z) : outcome t :=
  if (secs <? -67768040609740800) || (67768036191676799 <? secs)
  then raise_ OSError "[Errno 75] Value too large for defined data type"
  else
    let dt := At secs us in
    if year_ok (year dt) then Returned dt
    else raise_ ValueError ("year " ++ Text.of_Z (c_int (year dt)) ++ " is out of range").

Definition time_t_overflow {A} : outcome A :=
  raise_ OverflowError "timestamp out of range for platform time_t".

(** [datetime.fromtimestamp(n, tz=timezone.utc)] for an [int]. *)
Definition fromtimestamp_int (n : Z) : outcome t :=
  if (n <? - 2 ^ 63) || (2 ^ 63 <=? n) then time_t_overflow
  else of_time_t n 0.

(** [datetime.fromtimestamp(x, tz=timezone.utc)] for a [float]: the
    fraction is scaled to microseconds and rounded half to even, which may
    carry into the seconds. *)
Definition fromtimestamp_float (x : PyFloat.float) : outcome t :=
  match x with
  | S754_nan => raise_ ValueError "Invalid value NaN (not a number)"
  | S754_infinity _ => time_t_overflow
  | _ =>
      let '(intpart, frac) := PyFloat.modf x in
      let us := PyFloat.round_half_even (PyFloat.mul frac (PyFloat.of_Z 1000000)) in
      let '(secs, us') :=
        if 1000000 <=? us then (intpart + 1, us - 1000000)
        else if us <? 0 then (intpart - 1, us + 1000000)
        else (intpart, us) in
      if (secs <? - 2 ^ 63) || (2 ^ 63 <? secs) then time_t_overflow
      else of_time_t secs us'
  end.

(** [dt + timedelta(seconds=n)]. *)
Definition add_seconds (dt : t) (n : Z) : outcome t :=
  let r := At (seconds dt + n) (microsecond dt) in
  if year_ok (year r) then Returned r
  else raise_ OverflowError "date value out of range".

(** [dt + timedelta(hours=h)] and [dt + timedelta(days=d)]. *)
Definition add_hours (dt : t) (h : Z) : outcome t := add_seconds dt (h * 3600).
Definition add_days (dt : t) (d : Z) : outcome t := add_seconds dt (d * 86400).

(** [strftime] fields: [%Y] is the plain decimal year (the C library does
    not pad it), [%m %d %H %M %S] are two digits. *)
Definition fmt_Ymd (y m d : Z) : string :=
  Text.of_Z y ++ "-" ++ Text.digits 2 m ++ "-" ++ Text.digits 2 d.

Definition fmt_HMS (h mi s : Z) : string :=
  Text.digits 2 h ++ ":" ++ Text.digits 2 mi ++ ":" ++ Text.digits 2 s.

(** [dt.strftime("%Y-%m-%d")]. *)
Definition strftime_Ymd (dt : t) : string := fmt_Ymd (year dt) (month dt) (day dt).

(** [dt.strftime("%Y-%m-%d %H:%M:%S <zone>")]. *)
Definition strftime_Ymd_HMS (zone : string) (dt : t) : string :=
  strftime_Ymd dt ++ " " ++ fmt_HMS (hour dt) (minute dt) (second dt) ++ " " ++ zone.

(** [d.strftime("%Y-%m-%d")] for a [date] or [datetime] argument. *)
Definition date_strftime_Ymd (d : date) : string :=
  fmt_Ymd (d_year d) (d_month d) (d_day d).
Definition datetime_strftime_Ymd (d : datetime) : string :=
  fmt_Ymd (dt_year d) (dt_month d) (dt_day d).

(** The instant as a [datetime] object of its fields. *)
Definition fields (dt : t) : datetime :=
  Datetime_ (year dt) (month dt) (day dt) (hour dt) (minute dt) (second dt)
    (microsecond dt).

(** [str(d)]: the ISO form, the year padded to four digits. *)
Definition date_str (d : date) : string :=
  Text.digits 4 (d_year d) ++ "-" ++ Text.digits 2 (d_month d) ++ "-" ++ Text.digits 2 (d_day d).

(** [str(d)] for a [datetime] argument without time zone. *)
Definition datetime_str (d : datetime) : string :=
  Text.digits 4 (dt_year d) ++ "-" ++ Text.digits 2 (dt_month d) ++ "-"
  ++ Text.digits 2 (dt_day d) ++ " " ++ fmt_HMS (dt_hour d) (dt_minute d) (dt_second d)
  ++ (if dt_microsecond d =? 0 then "" else "." ++ Text.digits 6 (dt_microsecond d)).

End Datetime.

(* ================================================================== *)
(** * Argument values *)
(* ================================================================== *)

(** The objects a caller passes to a tool: the parameters are annotated
    [str], [int], [float], [bool], [datetime], [date] and [Optional]. *)
Inductive pyval :=
| PNone
| PBool (b : bool)
| PInt (n : Z)
| PFloat (repr : string)
| PStr (s : string)
| PDate (d : date)
| PDatetime (dt : datetime).

Module Py.

Definition type_name (v : pyval) : string :=
  match v with
  | PNone => "NoneType"
  | PBool _ => "bool"
  | PInt _ => "int"
  | PFloat _ => "float"
  | PStr _ => "str"
  | PDate _ => "datetime.date"
  | PDatetime _ => "datetime.datetime"
  end.

(** [bool(v)], the test of [if v:]. *)
Definition truthy (v : pyval) : bool :=
  match v with
  | PNone => false
  | PBool b => b
  | PInt n => negb (n =? 0)
  | PFloat r => negb (PyFloat.is_zero (PyFloat.of_repr r))
  | PStr s => negb (String.eqb s "")
  | PDate _ | PDatetime _ => true
  end.

(** [v is not None]. *)
Definition is_not_None (v : pyval) : bool :=
  match v with PNone => false | _ => true end.

(** The most digits [str] writes for an [int]
    ([sys.get_int_max_str_digits()]). *)
Definition max_str_digits : Z := 4300.

(** [str(n)] for an [int]: the decimal digits, or [ValueError] when there
    are more than 4300 of them (the sign is not counted). *)
Definition int_str (n : Z) : outcome string :=
  if max_str_digits <? Z.of_nat (String.length (Text.of_Z (Z.abs n)))
  then raise_ ValueError
         "Exceeds the limit (4300 digits) for integer string conversion; use sys.set_int_max_str_digits() to increase the limit"
  else Returned (Text.of_Z n).

(** [str(v)], what an f-string interpolates. *)
Definition str (v : pyval) : outcome string :=
  match v with
  | PNone => Returned "None"
  | PBool true => Returned "True"
  | PBool false => Returned "False"
  | PInt n => int_str n
  | PFloat r => Returned r
  | PStr s => Returned s
  | PDate d => Returned (Datetime.date_str d)
  | PDatetime dt => Returned (Datetime.datetime_str dt)
  end.

(** [v.upper()]. *)
Definition upper (v : pyval) : outcome string :=
  match v with
  | PStr s => Returned (Text.upper s)
  | _ => raise_ AttributeError
           ("'" ++ type_name v ++ "' object has no attribute 'upper'")
  end.

(** [isinstance(v, (datetime, date))]. *)
Definition isinstance_date (v : pyval) : bool :=
  match v with
  | PDate _ | PDatetime _ => true
  | _ => false
  end.

(** [v.strftime("%Y-%m-%d")] where [isinstance_date v] holds. *)
Definition strftime_Ymd (v : pyval) : string :=
  match v with
  | PDate d => Datetime.date_strftime_Ymd d
  | PDatetime dt => Datetime.datetime_strftime_Ymd dt
  | _ => ""
  end.

(** The value as [json.dumps] meets it inside a document. *)
Definition to_json (v : pyval) : outcome json :=
  match v with
  | PNone => Returned JNull
  | PBool b => Returned (JBool b)
  | PInt n => Returned (JInt n)
  | PFloat r => Returned (JFloat r)
  | PStr s => Returned (JStr s)
  | PDate _ => raise_ TypeError "Object of type date is not JSON serializable"
  | PDatetime _ => raise_ TypeError "Object of type datetime is not JSON serializable"
  end.

End Py.

(* ================================================================== *)
(** * The world of a tool call *)
(* ================================================================== *)

(** The query parameters of a request. *)
Definition params := Dict.t pyval.

(** What [response.json()] finds in the body: the parsed value, or text
    that is no JSON.  (A parsed value has no [int] of more than 4300
    digits: [json.loads] raises on such a literal.) *)
Inductive body :=
| Body_json (v : json)
| Body_invalid (msg : string).

Record response := Response {
  status_code : Z;
  reason : string;
  url : string;
  content : body }.

(** What [requests.get] does: it returns a response, or raises (no
    connection, timeout). *)
Inductive reply :=
| Reply (r : response)
| Failed (e : exn).

(** One outbound request: URL, query parameters, timeout in seconds. *)
Record sent := Sent { sent_url : string; sent_params : params; sent_timeout : Z }.

(** What a call reads from outside: the environment variable, the clock
    (seconds since the epoch) and the upstream service. *)
Record world := World {
  POLYGON_API_KEY : option string;
  now : Z;
  requests_get : string -> params -> Z -> reply }.

(** A computation in a world: its result and the requests it sent, oldest
    first. *)
Definition M (A : Type) : Type := world -> outcome A * list sent.

Definition ret {A} (a : A) : M A := fun _ => (Returned a, []).

Definition bind {A B} (m : M A) (f : A -> M B) : M B :=
  fun w =>
    match m w with
    | (Returned a, l) => let '(r, l') := f a w in (r, (l ++ l')%list)
    | (Raised e, l) => (Raised e, l)
    end.

Definition lift {A} (o : outcome A) : M A := fun _ => (o, []).

(** [raise cls(msg)]. *)
Definition raise {A} (c : exn_class) (msg : string) : M A := lift (raise_ c msg).

(** [try: m  except Exception as e: h e]. *)
Definition try_except {A} (m : M A) (h : exn -> M A) : M A :=
  fun w =>
    match m w with
    | (Returned a, l) => (Returned a, l)
    | (Raised e, l) => let '(r, l') := h e w in (r, (l ++ l')%list)
    end.

Declare Scope M_scope.
Delimit Scope M_scope with M.
Notation "x <- c ;; k" := (bind c (fun x => k))
  (at level 61, c at next level, right associativity) : M_scope.
Notation "c ;;; k" := (bind c (fun _ => k))
  (at level 61, right associativity) : M_scope.

Definition result_of {A} (r : outcome A * list sent) : outcome A := fst r.
Definition requests_of {A} (r : outcome A * list sent) : list sent := snd r.

(** ** Internal helpers for Polygon.io *)

Local Open Scope M_scope.

Definition _require_polygon_api_key : M string :=
  fun w =>
    match POLYGON_API_KEY w with
    | Some api_key =>
        if negb (String.eqb api_key "") then (Returned api_key, [])
        else (raise_ RuntimeError "POLYGON_API_KEY environment variable is not set", [])
    | None => (raise_ RuntimeError "POLYGON_API_KEY environment variable is not set", [])
    end.

(** [requests.get(url, params=params, timeout=timeout)]. *)
Definition http_get (url : string) (p : params) (timeout : Z) : M response :=
  fun w =>
    (match requests_get w url p timeout with
     | Reply r => Returned r
     | Failed e => Raised e
     end, [Sent url p timeout]).

(** [response.raise_for_status()]. *)
Definition raise_for_status (r : response) : outcome unit :=
  let tail := ": " ++ reason r ++ " for url: " ++ url r in
  if (400 <=? status_code r) && (status_code r <? 500)
  then raise_ HTTPError (Text.of_Z (status_code r) ++ " Client Error" ++ tail)
  else if (500 <=? status_code r) && (status_code r <? 600)
  then raise_ HTTPError (Text.of_Z (status_code r) ++ " Server Error" ++ tail)
  else Returned tt.

(** [response.json()]. *)
Definition response_json (r : response) : outcome json :=
  match content r with
  | Body_json v => Returned v
  | Body_invalid msg => raise_ JSONDecodeError msg
  end.

Definition base_url : string := "https://api.polygon.io".

Definition _polygon_get (path : string) (p : option params) : M json :=
  api_key <- _require_polygon_api_key ;;
  let url := base_url ++ path in
  let p := Dict.copy (match p with
                      | Some d => match d with [] => [] | _ => d end
                      | None => []
                      end) in
  let p := Dict.set "apiKey" (PStr api_key) p in
  response <- http_get url p 20 ;;
  lift (raise_for_status response) ;;;
  lift (response_json response).

Definition _iso_date (dt : Datetime.t) : string := Datetime.strftime_Ymd dt.

(** [datetime.now(timezone.utc)]. *)
Definition datetime_now : M Datetime.t :=
  fun w => (Returned (Datetime.At (now w) 0), []).

(* ================================================================== *)
(** * Operations of the program on JSON values *)
(* ================================================================== *)

Module Op.
Local Open Scope outcome_scope.

(** Maps [f] over a list from left to right; the first exception ends it. *)
Fixpoint for_each {A B} (f : A -> outcome B) (l : list A) : outcome (list B) :=
  match l with
  | [] => Returned []
  | a :: r => b <~ f a ;; bs <~ for_each f r ;; Returned (b :: bs)
  end.

(** The receiver of [data.get(...)]: only a dict has the method. *)
Definition as_dict (v : json) : outcome (list (string * json)) :=
  match v with
  | JDict d => Returned d
  | _ => raise_ AttributeError
           ("'" ++ Json.type_name v ++ "' object has no attribute 'get'")
  end.

Definition is_str (k : string) (v : json) : bool :=
  match v with JStr s => String.eqb k s | _ => false end.

(** [k in c] for a string [k]. *)
Definition contains (k : string) (c : json) : outcome bool :=
  match c with
  | JDict d => Returned (Dict.mem k d)
  | JList l => Returned (existsb (is_str k) l)
  | JStr s => Returned (Text.is_substring k s)
  | _ => raise_ TypeError
           ("argument of type '" ++ Json.type_name c ++ "' is not iterable")
  end.

(** [c[k]] for a string [k]. *)
Definition subscript (c : json) (k : string) : outcome json :=
  match c with
  | JDict d =>
      match Dict.get k d with
      | Some v => Returned v
      | None => raise_ KeyError (Json.repr_str k)
      end
  | JList _ => raise_ TypeError "list indices must be integers or slices, not str"
  | JStr _ => raise_ TypeError "string indices must be integers, not 'str'"
  | _ => raise_ TypeError
           ("'" ++ Json.type_name c ++ "' object is not subscriptable")
  end.

(** [c[k] = v] for a string [k]. *)
Definition setitem (c : json) (k : string) (v : json) : outcome json :=
  match c with
  | JDict d => Returned (JDict (Dict.set k v d))
  | JList _ => raise_ TypeError "list indices must be integers or slices, not str"
  | _ => raise_ TypeError
           ("'" ++ Json.type_name c ++ "' object does not support item assignment")
  end.

Fixpoint chars (s : string) : list json :=
  match s with
  | EmptyString => []
  | String c r => JStr (String c EmptyString) :: chars r
  end.

(** The items [for x in c] visits: the elements of a list, the keys of a
    dict, the characters of a string. *)
Definition iterate (c : json) : outcome (list json) :=
  match c with
  | JList l => Returned l
  | JDict d => Returned (map JStr (Dict.keys d))
  | JStr s => Returned (chars s)
  | _ => raise_ TypeError ("'" ++ Json.type_name c ++ "' object is not iterable")
  end.

(** [c[0]]. *)
Definition first (c : json) : outcome json :=
  match c with
  | JList (x :: _) => Returned x
  | JList [] => raise_ IndexError "list index out of range"
  | JStr (String ch _) => Returned (JStr (String ch EmptyString))
  | JStr EmptyString => raise_ IndexError "string index out of range"
  | JDict _ => raise_ KeyError "0"
  | _ => raise_ TypeError
           ("'" ++ Json.type_name c ++ "' object is not subscriptable")
  end.

(** [v / 1000]: true division, in floating point. *)
Definition div_1000 (v : json) : outcome PyFloat.float :=
  let of_int (n : Z) :=
    match PyFloat.div_Z n 1000 with
    | S754_infinity _ =>
        raise_ OverflowError "integer division result too large for a float"
    | q => Returned q
    end in
  match v with
  | JInt n => of_int n
  | JBool b => of_int (if b then 1 else 0)
  | JFloat r => Returned (PyFloat.div (PyFloat.of_repr r) (PyFloat.of_Z 1000))
  | _ => raise_ TypeError
           ("unsupported operand type(s) for /: '" ++ Json.type_name v ++ "' and 'int'")
  end.

(** [datetime.fromtimestamp(v / 1000, tz=timezone.utc)]. *)
Definition fromtimestamp_ms (v : json) : outcome Datetime.t :=
  x <~ div_1000 v ;; Datetime.fromtimestamp_float x.

(** [datetime.fromtimestamp(v, tz=timezone.utc)] for an argument. *)
Definition fromtimestamp (v : pyval) : outcome Datetime.t :=
  match v with
  | PInt n => Datetime.fromtimestamp_int n
  | PBool b => Datetime.fromtimestamp_int (if b then 1 else 0)
  | PFloat r => Datetime.fromtimestamp_float (PyFloat.of_repr r)
  | _ => raise_ TypeError
           ("'" ++ Py.type_name v ++ "' object cannot be interpreted as an integer")
  end.

End Op.

(* ================================================================== *)
(** * The tools *)
(* ================================================================== *)

(** A parameter with a default in the [def] line is an [option]: [None]
    is the call that leaves the argument out, and the function then takes
    the default of its signature. *)
Definition default (d : pyval) (given : option pyval) : pyval :=
  match given with Some v => v | None => d end.

(** A request as a tool builds it: the path and the query parameters it
    hands to [_polygon_get] ([None] where it passes no mapping). *)
Definition request : Type := string * option params.

(** [try: ... except Exception as e: return f"Error: {str(e)}"]. *)
Definition or_error (m : M string) : M string :=
  try_except m (fun e => ret ("Error: " ++ str_exn e)).

(** The tail of most tools: fetch, then print the parsed body. *)
Definition fetch_and_dump (r : outcome request) : M string :=
  req <- lift r ;;
  data <- _polygon_get (fst req) (snd req) ;;
  ret (Json.dumps data).

Local Open Scope outcome_scope.

(** ** stock_price *)

Definition stock_price_request (stock_ticker : pyval) (start_dt end_dt : Datetime.t)
  : outcome request :=
  t <~ Py.upper stock_ticker ;;
  Returned ("/v2/aggs/ticker/" ++ t ++ "/range/1/day/"
              ++ _iso_date start_dt ++ "/" ++ _iso_date end_dt,
            Some [("adjusted", PStr "true"); ("sort", PStr "asc"); ("limit", PInt 5000)]).

(** One entry of [closes], for a [point] that is a dict. *)
Definition close_of_point (point : list (string * json)) : outcome json :=
  let t := match Dict.get "t" point with Some v => v | None => JInt 0 end in
  dt <~ Op.fromtimestamp_ms t ;;
  Returned (JDict [("date", JStr (Datetime.strftime_Ymd dt));
                   ("close", Json.get "c" point)]).

(** The comprehension over [results]: the items that are dicts, in order. *)
Fixpoint closes_of (items : list json) : outcome (list json) :=
  match items with
  | [] => Returned []
  | JDict point :: r =>
      c <~ close_of_point point ;; cs <~ closes_of r ;; Returned (c :: cs)
  | _ :: r => closes_of r
  end.

(** The tool also prints [closes] to the standard output; the model
    keeps the value it returns and the request it sends. *)
Definition stock_price (stock_ticker : pyval) : M string :=
  (end_dt <- datetime_now ;;
   start_dt <- lift (Datetime.add_days end_dt (-30)) ;;
   req <- lift (stock_price_request stock_ticker start_dt end_dt) ;;
   data <- _polygon_get (fst req) (snd req) ;;
   d <- lift (Op.as_dict data) ;;
   let results :=
     let r := match Dict.get "results" d with Some v => v | None => JList [] end in
     if Json.truthy r then r else JList [] in
   items <- lift (Op.iterate results) ;;
   closes <- lift (closes_of items) ;;
   name <- lift (Py.str stock_ticker) ;;
   ret ("Stock price over the last month for " ++ name ++ ": "
          ++ Json.repr (JList closes)))%M.

(** ** stock_info *)

Definition stock_info_request (stock_ticker : pyval) : outcome request :=
  t <~ Py.upper stock_ticker ;;
  Returned ("/v3/reference/tickers/" ++ t, None).

Definition stock_info (stock_ticker : pyval) : M string :=
  (req <- lift (stock_info_request stock_ticker) ;;
   data <- _polygon_get (fst req) (snd req) ;;
   d <- lift (Op.as_dict data) ;;
   let info := match Dict.get "results" d with Some v => v | None => JDict [] end in
   name <- lift (Py.str stock_ticker) ;;
   ret ("Background information for " ++ name ++ ": " ++ Json.str info))%M.

(** ** income_statement *)

Definition income_statement_request (stock_ticker : pyval) : outcome request :=
  t <~ Py.upper stock_ticker ;;
  Returned ("/vX/reference/financials",
            Some [("ticker", PStr t); ("timeframe", PStr "quarterly");
                  ("limit", PInt 1); ("order", PStr "desc")]).

Definition income_statement (stock_ticker : pyval) : M string :=
  (req <- lift (income_statement_request stock_ticker) ;;
   fin <- _polygon_get (fst req) (snd req) ;;
   d <- lift (Op.as_dict fin) ;;
   let results :=
     let r := Json.get "results" d in
     if Json.truthy r then r else JList [] in
   latest <- lift (if Json.truthy results then Op.first results
                   else Returned (JDict [])) ;;
   name <- lift (Py.str stock_ticker) ;;
   ret ("Income statement for " ++ name ++ ": " ++ Json.str latest))%M.

(** ** get_aggregates *)

(** The two date arguments, as the tool normalises them: a [datetime] or
    [date] is formatted, anything else is left as it is. *)
Definition date_text (v : pyval) : pyval :=
  if Py.isinstance_date v then PStr (Py.strftime_Ymd v) else v.

(** The path of the aggregates, an f-string: its fields are evaluated
    and written from left to right. *)
Definition aggregates_path (ticker multiplier timespan from_date to_date : pyval)
  : outcome string :=
  t <~ Py.upper ticker ;;
  m <~ Py.str multiplier ;;
  s <~ Py.str timespan ;;
  f <~ Py.str from_date ;;
  u <~ Py.str to_date ;;
  Returned ("/v2/aggs/ticker/" ++ t ++ "/range/" ++ m ++ "/" ++ s ++ "/" ++ f ++ "/" ++ u).

(** [if flag is not None: params[k] = str(flag).lower()]. *)
Definition set_flag (k : string) (flag : pyval) (p : params) : outcome params :=
  if Py.is_not_None flag
  then s <~ Py.str flag ;; Returned (Dict.set k (PStr (Text.lower s)) p)
  else Returned p.

Definition get_aggregates_request
    (ticker multiplier timespan from_date to_date : pyval)
    (adjusted sort limit : option pyval) : outcome request :=
  let adjusted := default PNone adjusted in
  let sort := default PNone sort in
  let limit := default PNone limit in
  let from_date := date_text from_date in
  let to_date := date_text to_date in
  path <~ aggregates_path ticker multiplier timespan from_date to_date ;;
  let p : params := [] in
  p <~ set_flag "adjusted" adjusted p ;;
  let p := if Py.truthy sort then Dict.set "sort" sort p else p in
  let p := if Py.truthy limit then Dict.set "limit" limit p else p in
  Returned (path, Some p).

Definition get_aggregates
    (ticker multiplier timespan from_date to_date : pyval)
    (adjusted sort limit : option pyval) : M string :=
  or_error (fetch_and_dump
    (get_aggregates_request ticker multiplier timespan from_date to_date
       adjusted sort limit)).

(** ** get_previous_close *)

Definition get_previous_close_request (ticker : pyval) (adjusted : option pyval)
  : outcome request :=
  let adjusted := default PNone adjusted in
  t <~ Py.upper ticker ;;
  let path := "/v2/aggs/ticker/" ++ t ++ "/prev" in
  let p : params := [] in
  p <~ set_flag "adjusted" adjusted p ;;
  Returned (path, Some p).

Definition get_previous_close (ticker : pyval) (adjusted : option pyval) : M string :=
  or_error (fetch_and_dump (get_previous_close_request ticker adjusted)).

(** ** get_last_trade, get_last_quote *)

Definition get_last_trade_request (ticker : pyval) : outcome request :=
  t <~ Py.upper ticker ;; Returned ("/v2/last/trade/" ++ t, None).

Definition get_last_trade (ticker : pyval) : M string :=
  or_error (fetch_and_dump (get_last_trade_request ticker)).

Definition get_last_quote_request (ticker : pyval) : outcome request :=
  t <~ Py.upper ticker ;; Returned ("/v2/last/quote/" ++ t, None).

Definition get_last_quote (ticker : pyval) : M string :=
  or_error (fetch_and_dump (get_last_quote_request ticker)).

(** ** get_snapshot_ticker *)

(** The path is an f-string: [market_type] is written, twice, before
    [ticker.upper()] is evaluated. *)
Definition get_snapshot_ticker_request (market_type ticker : pyval) : outcome request :=
  locale <~ Py.str market_type ;;
  market <~ Py.str market_type ;;
  t <~ Py.upper ticker ;;
  Returned ("/v2/snapshot/locale/" ++ locale ++ "/markets/" ++ market ++ "/tickers/" ++ t,
            None).

Definition get_snapshot_ticker (market_type ticker : pyval) : M string :=
  or_error (fetch_and_dump (get_snapshot_ticker_request market_type ticker)).

(** ** get_market_status *)

Definition get_market_status_request : outcome request :=
  Returned ("/v1/marketstatus/now", None).

Definition get_market_status : M string :=
  or_error (fetch_and_dump get_market_status_request).

(** ** search_tickers *)

Definition search_tickers_request
    (search type market active limit sort order : option pyval) : outcome request :=
  let search := default PNone search in
  let type := default PNone type in
  let market := default PNone market in
  let active := default PNone active in
  let limit := default PNone limit in
  let sort := default PNone sort in
  let order := default PNone order in
  let path := "/v3/reference/tickers" in
  let p : params := [] in
  let p := if Py.truthy search then Dict.set "search" search p else p in
  let p := if Py.truthy type then Dict.set "type" type p else p in
  let p := if Py.truthy market then Dict.set "market" market p else p in
  p <~ set_flag "active" active p ;;
  let p := if Py.truthy limit then Dict.set "limit" limit p else p in
  let p := if Py.truthy sort then Dict.set "sort" sort p else p in
  let p := if Py.truthy order then Dict.set "order" order p else p in
  Returned (path, Some p).

Definition search_tickers
    (search type market active limit sort order : option pyval) : M string :=
  or_error (fetch_and_dump
    (search_tickers_request search type market active limit sort order)).

(** [if ticker: params["ticker"] = ticker.upper()]. *)
Definition set_ticker (ticker : pyval) (p : params) : outcome params :=
  if Py.truthy ticker
  then t <~ Py.upper ticker ;; Returned (Dict.set "ticker" (PStr t) p)
  else Returned p.

(** ** get_ticker_news *)

Definition get_ticker_news_request
    (ticker published_utc limit sort order : option pyval) : outcome request :=
  let ticker := default PNone ticker in
  let published_utc := default PNone published_utc in
  let limit := default PNone limit in
  let sort := default PNone sort in
  let order := default PNone order in
  let path := "/v2/reference/news" in
  let p : params := [] in
  p <~ set_ticker ticker p ;;
  let p := if Py.truthy published_utc then Dict.set "published_utc" published_utc p else p in
  let p := if Py.truthy limit then Dict.set "limit" limit p else p in
  let p := if Py.truthy sort then Dict.set "sort" sort p else p in
  let p := if Py.truthy order then Dict.set "order" order p else p in
  Returned (path, Some p).

Definition get_ticker_news
    (ticker published_utc limit sort order : option pyval) : M string :=
  or_error (fetch_and_dump
    (get_ticker_news_request ticker published_utc limit sort order)).

(** ** get_dividends *)

Definition get_dividends_request
    (ticker ex_dividend_date frequency dividend_type limit : option pyval)
  : outcome request :=
  let ticker := default PNone ticker in
  let ex_dividend_date := default PNone ex_dividend_date in
  let frequency := default PNone frequency in
  let dividend_type := default PNone dividend_type in
  let limit := default PNone limit in
  let path := "/v3/reference/dividends" in
  let p : params := [] in
  p <~ set_ticker ticker p ;;
  let p := if Py.truthy ex_dividend_date
           then Dict.set "ex_dividend_date" ex_dividend_date p else p in
  let p := if Py.truthy frequency then Dict.set "frequency" frequency p else p in
  let p := if Py.truthy dividend_type then Dict.set "dividend_type" dividend_type p else p in
  let p := if Py.truthy limit then Dict.set "limit" limit p else p in
  Returned (path, Some p).

Definition get_dividends
    (ticker ex_dividend_date frequency dividend_type limit : option pyval) : M string :=
  or_error (fetch_and_dump
    (get_dividends_request ticker ex_dividend_date frequency dividend_type limit)).

(** ** get_splits *)

Definition get_splits_request
    (ticker execution_date reverse_split limit : option pyval) : outcome request :=
  let ticker := default PNone ticker in
  let execution_date := default PNone execution_date in
  let reverse_split := default PNone reverse_split in
  let limit := default PNone limit in
  let path := "/v3/reference/splits" in
  let p : params := [] in
  p <~ set_ticker ticker p ;;
  let p := if Py.truthy execution_date
           then Dict.set "execution_date" execution_date p else p in
  p <~ set_flag "reverse_split" reverse_split p ;;
  let p := if Py.truthy limit then Dict.set "limit" limit p else p in
  Returned (path, Some p).

Definition get_splits
    (ticker execution_date reverse_split limit : option pyval) : M string :=
  or_error (fetch_and_dump
    (get_splits_request ticker execution_date reverse_split limit)).

(** ** get_treasury_yields *)

Definition get_treasury_yields_request
    (date limit sort order : option pyval) : outcome request :=
  let date := default PNone date in
  let limit := default PNone limit in
  let sort := default PNone sort in
  let order := default PNone order in
  let path := "/v1/indicators/treasury-yield" in
  let p : params := [] in
  let p := if Py.truthy date then Dict.set "date" date p else p in
  let p := if Py.truthy limit then Dict.set "limit" limit p else p in
  let p := if Py.truthy sort then Dict.set "sort" sort p else p in
  let p := if Py.truthy order then Dict.set "order" order p else p in
  Returned (path, Some p).

Definition get_treasury_yields (date limit sort order : option pyval) : M string :=
  or_error (fetch_and_dump (get_treasury_yields_request date limit sort order)).

(** ** Market hours and time zones *)

Definition strs (l : list string) : json := JList (map JStr l).

Definition market_hours : json :=
  JDict [
    ("pre_market", JDict [("start", JStr "04:00"); ("end", JStr "09:30");
                          ("timezone", JStr "ET")]);
    ("regular_market", JDict [("start", JStr "09:30"); ("end", JStr "16:00");
                              ("timezone", JStr "ET")]);
    ("after_hours", JDict [("start", JStr "16:00"); ("end", JStr "20:00");
                           ("timezone", JStr "ET")]);
    ("important_notes", strs [
       "All Polygon timestamps are in UTC (Unix timestamps)";
       "Convert UTC to ET for market hour alignment";
       "Pre-market: 4:00 AM - 9:30 AM ET";
       "Regular market: 9:30 AM - 4:00 PM ET";
       "After-hours: 4:00 PM - 8:00 PM ET"])].

Definition get_market_hours_info : M string :=
  ret (Json.dumps market_hours).

(** Helper function to determine market session based on ET time. *)
Definition _determine_market_session (hour minute : Z) : string :=
  let time_minutes := hour * 60 + minute in
  if (240 <=? time_minutes) && (time_minutes <? 570) then "pre_market"
  else if (570 <=? time_minutes) && (time_minutes <? 960) then "regular_market"
  else if (960 <=? time_minutes) && (time_minutes <? 1200) then "after_hours"
  else "market_closed".

(** EST (UTC-5), as [timedelta(hours=-5)]. *)
Definition et_offset_hours : Z := -5.

Definition convert_utc_to_et_result (utc_timestamp : pyval) : outcome json :=
  utc_dt <~ Op.fromtimestamp utc_timestamp ;;
  et_dt <~ Datetime.add_hours utc_dt et_offset_hours ;;
  ts <~ Py.to_json utc_timestamp ;;
  Returned (JDict [
    ("utc_timestamp", ts);
    ("utc_datetime", JStr (Datetime.strftime_Ymd_HMS "UTC" utc_dt));
    ("et_datetime", JStr (Datetime.strftime_Ymd_HMS "ET" et_dt));
    ("market_session", JStr (_determine_market_session (Datetime.hour et_dt) (Datetime.minute et_dt)))]).

Definition convert_utc_to_et (utc_timestamp : pyval) : M string :=
  or_error (result <- lift (convert_utc_to_et_result utc_timestamp) ;;
            ret (Json.dumps result))%M.

(** ** get_exchange_info *)

Definition exchange (name : string) (symbols : list string) : json :=
  JDict [("name", JStr name); ("symbols", strs symbols)].

Definition exchanges : json :=
  JDict [
    ("major_exchanges", JList [
       exchange "New York Stock Exchange"
         ["NYSE"; "NYSE American"; "NYSE Arca"; "NYSE Chicago"; "NYSE National"];
       exchange "Nasdaq" ["OMX"; "BX"; "PSX"; "Philadelphia"];
       exchange "Cboe Global Markets" ["BZX"; "BYX"; "EDGX"; "EDGA"];
       exchange "MIAX Exchange Group" ["Pearl"; "Emerald"; "Equities"];
       exchange "Members Exchange" ["MEMX"];
       exchange "Investors Exchange" ["IEX"];
       exchange "Long-Term Stock Exchange" ["LTSE"]]);
    ("additional_sources", JList [
       JDict [("name", JStr "FINRA Trading Facilities");
              ("description", JStr "Provides trade reporting but not quotes");
              ("facilities", strs ["FINRA NYSE TRF"; "FINRA Nasdaq TRF Carteret";
                                   "FINRA Nasdaq TRF Chicago"])];
       JDict [("name", JStr "OTC Reporting Facility");
              ("description", JStr "Captures OTC trades but not quotes")]]);
    ("total_coverage", JStr "19 major stock exchanges + dark pools + FINRA + OTC");
    ("data_quality", JStr "Direct exchange feeds + SIP consolidation for accuracy")].

Definition get_exchange_info : M string :=
  ret (Json.dumps exchanges).

(** ** get_intraday_aggregates *)

Definition get_intraday_aggregates_request
    (ticker multiplier timespan from_date to_date : pyval)
    (adjusted sort limit include_otc : option pyval) : outcome request :=
  let adjusted := default PNone adjusted in
  let sort := default PNone sort in
  let limit := default PNone limit in
  let include_otc := default (PBool false) include_otc in
  let from_date := date_text from_date in
  let to_date := date_text to_date in
  path <~ aggregates_path ticker multiplier timespan from_date to_date ;;
  let p : params := [] in
  p <~ set_flag "adjusted" adjusted p ;;
  let p := if Py.truthy sort then Dict.set "sort" sort p else p in
  let p := if Py.truthy limit then Dict.set "limit" limit p else p in
  let p := if Py.truthy include_otc then Dict.set "include_otc" (PStr "true") p else p in
  Returned (path, Some p).

(** The body of the loop over the bars: a bar that has a timestamp gets
    its session and its Eastern time. *)
Definition add_session (result : json) : outcome json :=
  has_t <~ Op.contains "t" result ;;
  if has_t then
    t <~ Op.subscript result "t" ;;
    utc_time <~ Op.fromtimestamp_ms t ;;
    et_time <~ Datetime.add_hours utc_time (-5) ;;
    result <~ Op.setitem result "market_session"
                (JStr (_determine_market_session (Datetime.hour et_time) (Datetime.minute et_time))) ;;
    Op.setitem result "et_time" (JStr (Datetime.strftime_Ymd_HMS "ET" et_time))
  else Returned result.

(** Add market session information to the response.  The loop changes
    the bars of the parsed body in place; here the body is rebuilt with
    the changed bars at their place. *)
Definition add_sessions (data : json) : outcome json :=
  has_results <~ Op.contains "results" data ;;
  if has_results then
    results <~ Op.subscript data "results" ;;
    if Json.truthy results then
      items <~ Op.iterate results ;;
      items' <~ Op.for_each add_session items ;;
      match results with
      | JList _ => Op.setitem data "results" (JList items')
      | _ => Returned data
      end
    else Returned data
  else Returned data.

Definition get_intraday_aggregates
    (ticker multiplier timespan from_date to_date : pyval)
    (adjusted sort limit include_otc : option pyval) : M string :=
  or_error
    (req <- lift (get_intraday_aggregates_request ticker multiplier timespan
                    from_date to_date adjusted sort limit include_otc) ;;
     data <- _polygon_get (fst req) (snd req) ;;
     data <- lift (add_sessions data) ;;
     ret (Json.dumps data))%M.

(** ** get_sip_info *)

Definition sip_info : json :=
  JDict [
    ("what_are_sips", JStr "Securities Information Processors (SIPs) consolidate trade and quote data from all exchanges into a single feed");
    ("sip_functions", strs [
       "Provide National Best Bid and Offer (NBBO)";
       "Consolidate last sale data";
       "Ensure equal access to market data";
       "Maintain transparent and fair trading environment"]);
    ("major_sips", JList [
       JDict [("name", JStr "Consolidated Tape Association (CTA)");
              ("coverage", JStr "NYSE-listed and regional exchange securities");
              ("tapes", strs ["Tape A"; "Tape B"])];
       JDict [("name", JStr "Unlisted Trading Privileges (UTP)");
              ("coverage", JStr "All Nasdaq-listed securities");
              ("tapes", strs ["Tape C"])]]);
    ("data_flow", strs [
       "Exchanges → SIPs → Polygon.io → Users";
       "Direct exchange feeds + SIP consolidation";
       "Alternative Trading Systems (ATS) report to FINRA within 10 seconds"]);
    ("importance", JStr "SIPs are vital infrastructure ensuring all market participants have equal access to trade and quote data")].

Definition get_sip_info : M string :=
  ret (Json.dumps sip_info).

(** ** get_market_data_coverage *)

Definition coverage_info : json :=
  JDict [
    ("infrastructure", JDict [
       ("primary_facility", JStr "Equinix Data Center, New Jersey");
       ("redundancy", JStr "ORD11 data center, Chicago");
       ("co_location", JStr "Strategically co-located with exchanges");
       ("benefits", strs ["Reduced latency"; "Enhanced reliability";
                          "Direct physical connections"])]);
    ("data_sources", JDict [
       ("exchanges", JStr "All 19 major U.S. stock exchanges");
       ("dark_pools", JStr "Additional dark pool data");
       ("finra", JStr "FINRA trading facilities");
       ("otc", JStr "OTC markets");
       ("ats", JStr "Alternative Trading Systems")]);
    ("data_quality", JDict [
       ("direct_feeds", JStr "Direct relationships with each exchange");
       ("licensing", JStr "Compliance with all licensing requirements");
       ("sip_integration", JStr "Combines direct exchange access with regulated SIP consolidation");
       ("coverage", JStr "Every trade, quote, and market event as it occurs")]);
    ("regulatory_compliance", JDict [
       ("personal_use", JStr "Full U.S. feed available for non-industry professionals");
       ("business_clients", JStr "Tailored plans with specific exchange licensing");
       ("monitoring", JStr "Close compliance monitoring for appropriate usage")]);
    ("market_hours", JDict [
       ("pre_market", JStr "4:00 AM - 9:30 AM ET");
       ("regular_market", JStr "9:30 AM - 4:00 PM ET");
       ("after_hours", JStr "4:00 PM - 8:00 PM ET");
       ("timestamp_format", JStr "Unix timestamps (UTC)")])].

Definition get_market_data_coverage : M string :=
  ret (Json.dumps coverage_info).

(** ** get_ticker_exchange_info *)

Definition get_ticker_exchange_info_request (ticker : pyval) : outcome request :=
  t <~ Py.upper ticker ;; Returned ("/v3/reference/tickers/" ++ t, None).

Definition polygon_coverage : json :=
  JDict [
    ("data_available", JStr "Real-time trades, quotes, and market events");
    ("exchange_feed", JStr "Direct feed from primary exchange");
    ("sip_integration", JStr "Included in consolidated SIP feeds");
    ("market_sessions", strs ["pre_market"; "regular_market"; "after_hours"])].

(** The document built from the [results] of the ticker lookup. *)
Definition exchange_coverage (ticker : pyval) (ticker_info : json) : outcome json :=
  t <~ Py.upper ticker ;;
  info <~ Op.as_dict ticker_info ;;
  Returned (JDict [
    ("ticker", JStr t);
    ("primary_exchange", Json.get "primary_exchange" info);
    ("market", Json.get "market" info);
    ("locale", Json.get "locale" info);
    ("type", Json.get "type" info);
    ("active", Json.get "active" info);
    ("currency_name", Json.get "currency_name" info);
    ("cik", Json.get "cik" info);
    ("composite_figi", Json.get "composite_figi" info);
    ("share_class_figi", Json.get "share_class_figi" info);
    ("polygon_coverage", polygon_coverage)]).

Definition no_data_found (ticker : pyval) : outcome json :=
  t <~ Py.str ticker ;;
  Returned (JDict [("error", JStr ("No data found for ticker " ++ t))]).

(** What the tool makes of the fetched [data]. *)
Definition ticker_exchange_document (ticker : pyval) (data : json) : outcome json :=
  has_results <~ Op.contains "results" data ;;
  if has_results then
    results <~ Op.subscript data "results" ;;
    if Json.truthy results then exchange_coverage ticker results
    else no_data_found ticker
  else no_data_found ticker.

Definition get_ticker_exchange_info (ticker : pyval) : M string :=
  or_error
    (req <- lift (get_ticker_exchange_info_request ticker) ;;
     data <- _polygon_get (fst req) (snd req) ;;
     doc <- lift (ticker_exchange_document ticker data) ;;
     ret (Json.dumps doc))%M.

(** ** get_earnings, get_analyst_ratings *)

Definition dated_listing_request (path : string)
    (ticker date limit sort order : option pyval) : outcome request :=
  let ticker := default PNone ticker in
  let date := default PNone date in
  let limit := default PNone limit in
  let sort := default PNone sort in
  let order := default PNone order in
  let p : params := [] in
  p <~ set_ticker ticker p ;;
  let p := if Py.truthy date then Dict.set "date" date p else p in
  let p := if Py.truthy limit then Dict.set "limit" limit p else p in
  let p := if Py.truthy sort then Dict.set "sort" sort p else p in
  let p := if Py.truthy order then Dict.set "order" order p else p in
  Returned (path, Some p).

Definition get_earnings_request := dated_listing_request "/v3/reference/earnings".

Definition get_earnings (ticker date limit sort order : option pyval) : M string :=
  or_error (fetch_and_dump (get_earnings_request ticker date limit sort order)).

Definition get_analyst_ratings_request := dated_listing_request "/v2/reference/analysts".

Definition get_analyst_ratings (ticker date limit sort order : option pyval) : M string :=
  or_error (fetch_and_dump (get_analyst_ratings_request ticker date limit sort order)).

(** ** get_short_interest *)

Definition get_short_interest_request
    (ticker settlement_date limit sort order : option pyval) : outcome request :=
  let ticker := default PNone ticker in
  let settlement_date := default PNone settlement_date in
  let limit := default PNone limit in
  let sort := default PNone sort in
  let order := default PNone order in
  let path := "/v2/reference/short-interest" in
  let p : params := [] in
  p <~ set_ticker ticker p ;;
  let p := if Py.truthy settlement_date
           then Dict.set "settlement_date" settlement_date p else p in
  let p := if Py.truthy limit then Dict.set "limit" limit p else p in
  let p := if Py.truthy sort then Dict.set "sort" sort p else p in
  let p := if Py.truthy order then Dict.set "order" order p else p in
  Returned (path, Some p).

Definition get_short_interest
    (ticker settlement_date limit sort order : option pyval) : M string :=
  or_error (fetch_and_dump
    (get_short_interest_request ticker settlement_date limit sort order)).

(** ** get_options_contracts *)

Definition get_options_contracts_request (underlying_asset : pyval)
    (contract_type strike_price expiration_date limit : option pyval)
  : outcome request :=
  let contract_type := default PNone contract_type in
  let strike_price := default PNone strike_price in
  let expiration_date := default PNone expiration_date in
  let limit := default PNone limit in
  let path := "/v3/reference/options/contracts" in
  u <~ Py.upper underlying_asset ;;
  let p : params := [("underlying_asset", PStr u)] in
  let p := if Py.truthy contract_type then Dict.set "contract_type" contract_type p else p in
  let p := if Py.truthy strike_price then Dict.set "strike_price" strike_price p else p in
  let p := if Py.truthy expiration_date
           then Dict.set "expiration_date" expiration_date p else p in
  let p := if Py.truthy limit then Dict.set "limit" limit p else p in
  Returned (path, Some p).

Definition get_options_contracts (underlying_asset : pyval)
    (contract_type strike_price expiration_date limit : option pyval) : M string :=
  or_error (fetch_and_dump
    (get_options_contracts_request underlying_asset contract_type strike_price
       expiration_date limit)).

(** ** get_options_snapshot *)

Definition get_options_snapshot_request (underlying_asset : pyval)
    (strike_price expiration_date contract_type : option pyval) : outcome request :=
  let strike_price := default PNone strike_price in
  let expiration_date := default PNone expiration_date in
  let contract_type := default PNone contract_type in
  u <~ Py.upper underlying_asset ;;
  let path := "/v3/snapshot/options/" ++ u in
  let p : params := [] in
  let p := if Py.truthy strike_price then Dict.set "strike_price" strike_price p else p in
  let p := if Py.truthy expiration_date
           then Dict.set "expiration_date" expiration_date p else p in
  let p := if Py.truthy contract_type then Dict.set "contract_type" contract_type p else p in
  Returned (path, Some p).

Definition get_options_snapshot (underlying_asset : pyval)
    (strike_price expiration_date contract_type : option pyval) : M string :=
  or_error (fetch_and_dump
    (get_options_snapshot_request underlying_asset strike_price expiration_date
       contract_type)).

(** ** get_balance_sheet, get_cash_flow *)

Definition financials_request (ticker : pyval) (timeframe limit order : option pyval)
  : outcome request :=
  let timeframe := default (PStr "quarterly") timeframe in
  let limit := default PNone limit in
  let order := default (PStr "desc") order in
  let path := "/vX/reference/financials" in
  t <~ Py.upper ticker ;;
  let p : params := [("ticker", PStr t); ("timeframe", timeframe); ("order", order)] in
  let p := if Py.truthy limit then Dict.set "limit" limit p else p in
  Returned (path, Some p).

Definition get_balance_sheet_request := financials_request.

Definition get_balance_sheet (ticker : pyval) (timeframe limit order : option pyval)
  : M string :=
  or_error (fetch_and_dump (get_balance_sheet_request ticker timeframe limit order)).

Definition get_cash_flow_request := financials_request.

Definition get_cash_flow (ticker : pyval) (timeframe limit order : option pyval)
  : M string :=
  or_error (fetch_and_dump (get_cash_flow_request ticker timeframe limit order)).

(** ** get_market_gainers_losers *)

Definition get_market_gainers_losers_request (direction : pyval)
    (include_otc limit : option pyval) : outcome request :=
  let include_otc := default (PBool false) include_otc in
  let limit := default PNone limit in
  d <~ Py.str direction ;;
  let path := "/v2/snapshot/locale/us/markets/stocks/" ++ d in
  let p : params := [] in
  let p := if Py.truthy include_otc then Dict.set "include_otc" (PStr "true") p else p in
  let p := if Py.truthy limit then Dict.set "limit" limit p else p in
  Returned (path, Some p).

Definition get_market_gainers_losers (direction : pyval)
    (include_otc limit : option pyval) : M string :=
  or_error (fetch_and_dump
    (get_market_gainers_losers_request direction include_otc limit)).

(** ** get_market_holidays *)

Definition get_market_holidays_request : outcome request :=
  Returned ("/v1/marketstatus/upcoming", None).

Definition get_market_holidays : M string :=
  or_error (fetch_and_dump get_market_holidays_request).

(** ** get_inflation_data *)

Definition get_inflation_data_request (date limit sort : option pyval)
  : outcome request :=
  let date := default PNone date in
  let limit := default PNone limit in
  let sort := default PNone sort in
  let path := "/v1/indicators/inflation" in
  let p : params := [] in
  let p := if Py.truthy date then Dict.set "date" date p else p in
  let p := if Py.truthy limit then Dict.set "limit" limit p else p in
  let p := if Py.truthy sort then Dict.set "sort" sort p else p in
  Returned (path, Some p).

Definition get_inflation_data (date limit sort : option pyval) : M string :=
  or_error (fetch_and_dump (get_inflation_data_request date limit sort)).

(* ================================================================== *)
(** * The registry and the dispatch of a call *)
(* ================================================================== *)

(** The functions decorated with [@mcp.tool()], in the order of the file;
    each is registered under its own name. *)
Module Tool.
Inductive t :=
| stock_price | stock_info | income_statement
| get_aggregates | get_previous_close | get_last_trade | get_last_quote
| get_snapshot_ticker | get_market_status | search_tickers | get_ticker_news
| get_dividends | get_splits | get_treasury_yields
| get_market_hours_info | convert_utc_to_et | get_exchange_info
| get_intraday_aggregates | get_sip_info | get_market_data_coverage
| get_ticker_exchange_info | get_earnings | get_analyst_ratings
| get_short_interest | get_options_contracts | get_options_snapshot
| get_balance_sheet | get_cash_flow | get_market_gainers_losers
| get_market_holidays | get_inflation_data.

Definition name (x : t) : string :=
  match x with
  | stock_price => "stock_price"
  | stock_info => "stock_info"
  | income_statement => "income_statement"
  | get_aggregates => "get_aggregates"
  | get_previous_close => "get_previous_close"
  | get_last_trade => "get_last_trade"
  | get_last_quote => "get_last_quote"
  | get_snapshot_ticker => "get_snapshot_ticker"
  | get_market_status => "get_market_status"
  | search_tickers => "search_tickers"
  | get_ticker_news => "get_ticker_news"
  | get_dividends => "get_dividends"
  | get_splits => "get_splits"
  | get_treasury_yields => "get_treasury_yields"
  | get_market_hours_info => "get_market_hours_info"
  | convert_utc_to_et => "convert_utc_to_et"
  | get_exchange_info => "get_exchange_info"
  | get_intraday_aggregates => "get_intraday_aggregates"
  | get_sip_info => "get_sip_info"
  | get_market_data_coverage => "get_market_data_coverage"
  | get_ticker_exchange_info => "get_ticker_exchange_info"
  | get_earnings => "get_earnings"
  | get_analyst_ratings => "get_analyst_ratings"
  | get_short_interest => "get_short_interest"
  | get_options_contracts => "get_options_contracts"
  | get_options_snapshot => "get_options_snapshot"
  | get_balance_sheet => "get_balance_sheet"
  | get_cash_flow => "get_cash_flow"
  | get_market_gainers_losers => "get_market_gainers_losers"
  | get_market_holidays => "get_market_holidays"
  | get_inflation_data => "get_inflation_data"
  end.

(** Every tool of the module, in the order of definition. *)
Definition all : list t :=
  [stock_price; stock_info; income_statement;
   get_aggregates; get_previous_close; get_last_trade; get_last_quote;
   get_snapshot_ticker; get_market_status; search_tickers; get_ticker_news;
   get_dividends; get_splits; get_treasury_yields;
   get_market_hours_info; convert_utc_to_et; get_exchange_info;
   get_intraday_aggregates; get_sip_info; get_market_data_coverage;
   get_ticker_exchange_info; get_earnings; get_analyst_ratings;
   get_short_interest; get_options_contracts; get_options_snapshot;
   get_balance_sheet; get_cash_flow; get_market_gainers_losers;
   get_market_holidays; get_inflation_data].

Definition of_name (s : string) : option t :=
  find (fun x => String.eqb s (name x)) all.

(** A parameter of a [def] line: its name, and whether the call must give
    it (it has no default). *)
Definition param : Type := string * bool.
Definition required (n : string) : param := (n, true).
Definition optional (n : string) : param := (n, false).

Definition signature (x : t) : list param :=
  match x with
  | stock_price | stock_info | income_statement => [required "stock_ticker"]
  | get_aggregates =>
      [required "ticker"; required "multiplier"; required "timespan";
       required "from_date"; required "to_date";
       optional "adjusted"; optional "sort"; optional "limit"]
  | get_previous_close => [required "ticker"; optional "adjusted"]
  | get_last_trade | get_last_quote | get_ticker_exchange_info => [required "ticker"]
  | get_snapshot_ticker => [required "market_type"; required "ticker"]
  | get_market_status | get_market_holidays | get_market_hours_info
  | get_exchange_info | get_sip_info | get_market_data_coverage => []
  | search_tickers =>
      [optional "search"; optional "type"; optional "market"; optional "active";
       optional "limit"; optional "sort"; optional "order"]
  | get_ticker_news =>
      [optional "ticker"; optional "published_utc"; optional "limit";
       optional "sort"; optional "order"]
  | get_dividends =>
      [optional "ticker"; optional "ex_dividend_date"; optional "frequency";
       optional "dividend_type"; optional "limit"]
  | get_splits =>
      [optional "ticker"; optional "execution_date"; optional "reverse_split";
       optional "limit"]
  | get_treasury_yields =>
      [optional "date"; optional "limit"; optional "sort"; optional "order"]
  | convert_utc_to_et => [required "utc_timestamp"]
  | get_intraday_aggregates =>
      [required "ticker"; required "multiplier"; required "timespan";
       required "from_date"; required "to_date";
       optional "adjusted"; optional "sort"; optional "limit"; optional "include_otc"]
  | get_earnings | get_analyst_ratings =>
      [optional "ticker"; optional "date"; optional "limit"; optional "sort";
       optional "order"]
  | get_short_interest =>
      [optional "ticker"; optional "settlement_date"; optional "limit";
       optional "sort"; optional "order"]
  | get_options_contracts =>
      [required "underlying_asset"; optional "contract_type"; optional "strike_price";
       optional "expiration_date"; optional "limit"]
  | get_options_snapshot =>
      [required "underlying_asset"; optional "strike_price";
       optional "expiration_date"; optional "contract_type"]
  | get_balance_sheet | get_cash_flow =>
      [required "ticker"; optional "timeframe"; optional "limit"; optional "order"]
  | get_market_gainers_losers =>
      [required "direction"; optional "include_otc"; optional "limit"]
  | get_inflation_data => [optional "date"; optional "limit"; optional "sort"]
  end.

Definition param_names (x : t) : list string := map fst (signature x).

Definition required_names (x : t) : list string :=
  map fst (filter snd (signature x)).

Definition optional_names (x : t) : list string :=
  map fst (filter (fun p => negb (snd p)) (signature x)).

End Tool.

(** The arguments of a call, by keyword. *)
Definition kwargs := Dict.t pyval.

Module Call.

Definition mem (k : string) (l : list string) : bool :=
  existsb (String.eqb k) l.

Definition quoted (n : string) : string := "'" ++ n ++ "'".

(** The list of names in the message of a missing-argument error. *)
Fixpoint and_last (l : list string) : string :=
  match l with
  | [] => ""
  | [z] => "and " ++ quoted z
  | y :: r => quoted y ++ ", " ++ and_last r
  end.

Definition name_list (l : list string) : string :=
  match l with
  | [] => ""
  | [a] => quoted a
  | [a; b] => quoted a ++ " and " ++ quoted b
  | _ => and_last l
  end.

(** What the call of a function does with keyword arguments before the
    body runs: a keyword that is no parameter, or a parameter without
    default that is not given, raises [TypeError]. *)
Definition check_args (x : Tool.t) (kw : kwargs) : outcome unit :=
  match filter (fun k => negb (mem k (Tool.param_names x))) (Dict.keys kw) with
  | k :: _ =>
      raise_ TypeError
        (Tool.name x ++ "() got an unexpected keyword argument " ++ quoted k)
  | [] =>
      match filter (fun n => negb (Dict.mem n kw)) (Tool.required_names x) with
      | [] => Returned tt
      | missing =>
          let n := Z.of_nat (List.length missing) in
          raise_ TypeError
            (Tool.name x ++ "() missing " ++ Text.of_Z n
               ++ " required positional argument" ++ (if n =? 1 then "" else "s")
               ++ ": " ++ name_list missing)
      end
  end.

(** An argument the signature requires (present once [check_args] has
    passed), and one it does not. *)
Definition req (kw : kwargs) (k : string) : pyval :=
  match Dict.get k kw with Some v => v | None => PNone end.
Definition opt (kw : kwargs) (k : string) : option pyval := Dict.get k kw.

(** The body of the tool, its parameters bound from the keywords. *)
Definition body (x : Tool.t) (kw : kwargs) : M string :=
  let r := req kw in
  let o := opt kw in
  match x with
  | Tool.stock_price => stock_price (r "stock_ticker")
  | Tool.stock_info => stock_info (r "stock_ticker")
  | Tool.income_statement => income_statement (r "stock_ticker")
  | Tool.get_aggregates =>
      get_aggregates (r "ticker") (r "multiplier") (r "timespan") (r "from_date")
        (r "to_date") (o "adjusted") (o "sort") (o "limit")
  | Tool.get_previous_close => get_previous_close (r "ticker") (o "adjusted")
  | Tool.get_last_trade => get_last_trade (r "ticker")
  | Tool.get_last_quote => get_last_quote (r "ticker")
  | Tool.get_snapshot_ticker => get_snapshot_ticker (r "market_type") (r "ticker")
  | Tool.get_market_status => get_market_status
  | Tool.search_tickers =>
      search_tickers (o "search") (o "type") (o "market") (o "active") (o "limit")
        (o "sort") (o "order")
  | Tool.get_ticker_news =>
      get_ticker_news (o "ticker") (o "published_utc") (o "limit") (o "sort") (o "order")
  | Tool.get_dividends =>
      get_dividends (o "ticker") (o "ex_dividend_date") (o "frequency")
        (o "dividend_type") (o "limit")
  | Tool.get_splits =>
      get_splits (o "ticker") (o "execution_date") (o "reverse_split") (o "limit")
  | Tool.get_treasury_yields =>
      get_treasury_yields (o "date") (o "limit") (o "sort") (o "order")
  | Tool.get_market_hours_info => get_market_hours_info
  | Tool.convert_utc_to_et => convert_utc_to_et (r "utc_timestamp")
  | Tool.get_exchange_info => get_exchange_info
  | Tool.get_intraday_aggregates =>
      get_intraday_aggregates (r "ticker") (r "multiplier") (r "timespan")
        (r "from_date") (r "to_date") (o "adjusted") (o "sort") (o "limit")
        (o "include_otc")
  | Tool.get_sip_info => get_sip_info
  | Tool.get_market_data_coverage => get_market_data_coverage
  | Tool.get_ticker_exchange_info => get_ticker_exchange_info (r "ticker")
  | Tool.get_earnings =>
      get_earnings (o "ticker") (o "date") (o "limit") (o "sort") (o "order")
  | Tool.get_analyst_ratings =>
      get_analyst_ratings (o "ticker") (o "date") (o "limit") (o "sort") (o "order")
  | Tool.get_short_interest =>
      get_short_interest (o "ticker") (o "settlement_date") (o "limit") (o "sort")
        (o "order")
  | Tool.get_options_contracts =>
      get_options_contracts (r "underlying_asset") (o "contract_type")
        (o "strike_price") (o "expiration_date") (o "limit")
  | Tool.get_options_snapshot =>
      get_options_snapshot (r "underlying_asset") (o "strike_price")
        (o "expiration_date") (o "contract_type")
  | Tool.get_balance_sheet =>
      get_balance_sheet (r "ticker") (o "timeframe") (o "limit") (o "order")
  | Tool.get_cash_flow =>
      get_cash_flow (r "ticker") (o "timeframe") (o "limit") (o "order")
  | Tool.get_market_gainers_losers =>
      get_market_gainers_losers (r "direction") (o "include_otc") (o "limit")
  | Tool.get_market_holidays => get_market_holidays
  | Tool.get_inflation_data => get_inflation_data (o "date") (o "limit") (o "sort")
  end.

(** The request the tool builds from its arguments, for the tools that
    call upstream; [stock_price] reads the clock for its date range. *)
Definition request (x : Tool.t) (kw : kwargs) (w : world) : option (outcome request) :=
  let r := req kw in
  let o := opt kw in
  match x with
  | Tool.stock_price =>
      Some (let end_dt := Datetime.At (now w) 0 in
            start_dt <~ Datetime.add_days end_dt (-30) ;;
            stock_price_request (r "stock_ticker") start_dt end_dt)%outcome
  | Tool.stock_info => Some (stock_info_request (r "stock_ticker"))
  | Tool.income_statement => Some (income_statement_request (r "stock_ticker"))
  | Tool.get_aggregates =>
      Some (get_aggregates_request (r "ticker") (r "multiplier") (r "timespan")
              (r "from_date") (r "to_date") (o "adjusted") (o "sort") (o "limit"))
  | Tool.get_previous_close =>
      Some (get_previous_close_request (r "ticker") (o "adjusted"))
  | Tool.get_last_trade => Some (get_last_trade_request (r "ticker"))
  | Tool.get_last_quote => Some (get_last_quote_request (r "ticker"))
  | Tool.get_snapshot_ticker =>
      Some (get_snapshot_ticker_request (r "market_type") (r "ticker"))
  | Tool.get_market_status => Some get_market_status_request
  | Tool.search_tickers =>
      Some (search_tickers_request (o "search") (o "type") (o "market") (o "active")
              (o "limit") (o "sort") (o "order"))
  | Tool.get_ticker_news =>
      Some (get_ticker_news_request (o "ticker") (o "published_utc") (o "limit")
              (o "sort") (o "order"))
  | Tool.get_dividends =>
      Some (get_dividends_request (o "ticker") (o "ex_dividend_date") (o "frequency")
              (o "dividend_type") (o "limit"))
  | Tool.get_splits =>
      Some (get_splits_request (o "ticker") (o "execution_date") (o "reverse_split")
              (o "limit"))
  | Tool.get_treasury_yields =>
      Some (get_treasury_yields_request (o "date") (o "limit") (o "sort") (o "order"))
  | Tool.get_intraday_aggregates =>
      Some (get_intraday_aggregates_request (r "ticker") (r "multiplier")
              (r "timespan") (r "from_date") (r "to_date") (o "adjusted") (o "sort")
              (o "limit") (o "include_otc"))
  | Tool.get_ticker_exchange_info =>
      Some (get_ticker_exchange_info_request (r "ticker"))
  | Tool.get_earnings =>
      Some (get_earnings_request (o "ticker") (o "date") (o "limit") (o "sort")
              (o "order"))
  | Tool.get_analyst_ratings =>
      Some (get_analyst_ratings_request (o "ticker") (o "date") (o "limit") (o "sort")
              (o "order"))
  | Tool.get_short_interest =>
      Some (get_short_interest_request (o "ticker") (o "settlement_date") (o "limit")
              (o "sort") (o "order"))
  | Tool.get_options_contracts =>
      Some (get_options_contracts_request (r "underlying_asset") (o "contract_type")
              (o "strike_price") (o "expiration_date") (o "limit"))
  | Tool.get_options_snapshot =>
      Some (get_options_snapshot_request (r "underlying_asset") (o "strike_price")
              (o "expiration_date") (o "contract_type"))
  | Tool.get_balance_sheet =>
      Some (get_balance_sheet_request (r "ticker") (o "timeframe") (o "limit")
              (o "order"))
  | Tool.get_cash_flow =>
      Some (get_cash_flow_request (r "ticker") (o "timeframe") (o "limit") (o "order"))
  | Tool.get_market_gainers_losers =>
      Some (get_market_gainers_losers_request (r "direction") (o "include_otc")
              (o "limit"))
  | Tool.get_market_holidays => Some get_market_holidays_request
  | Tool.get_inflation_data =>
      Some (get_inflation_data_request (o "date") (o "limit") (o "sort"))
  | Tool.get_market_hours_info | Tool.convert_utc_to_et | Tool.get_exchange_info
  | Tool.get_sip_info | Tool.get_market_data_coverage => None
  end.

(** The query mapping of a built request ([None] while there is none). *)
Definition query (x : Tool.t) (kw : kwargs) (w : world) : option params :=
  match request x kw w with
  | Some (Returned (_, Some p)) => Some p
  | Some (Returned (_, None)) => Some []
  | _ => None
  end.

(** The path of a built request. *)
Definition path (x : Tool.t) (kw : kwargs) (w : world) : option string :=
  match request x kw w with
  | Some (Returned (p, _)) => Some p
  | _ => None
  end.

(** The call of a tool with keyword arguments. *)
Definition invoke (x : Tool.t) (kw : kwargs) : M string :=
  (lift (check_args x kw) ;;; body x kw)%M.

End Call.

(* ================================================================== *)
(** * Loading the module *)
(* ================================================================== *)

(** The statements at the top level of [server.py] that touch the
    registry, in the order of the file: a decorated [def] registers its
    tool, and the [if __name__ == "__main__":] block starts the server.
    [mcp.run] does not return while the server serves. *)
Module Loader.

Inductive stmt :=
| Register (x : Tool.t)
| Run_if_main.

Definition server_py : list stmt :=
  [Register Tool.stock_price; Register Tool.stock_info;
   Register Tool.income_statement; Register Tool.get_aggregates;
   Register Tool.get_previous_close; Register Tool.get_last_trade;
   Register Tool.get_last_quote; Register Tool.get_snapshot_ticker;
   Register Tool.get_market_status; Register Tool.search_tickers;
   Register Tool.get_ticker_news; Register Tool.get_dividends;
   Register Tool.get_splits; Register Tool.get_treasury_yields;
   Run_if_main;
   Register Tool.get_market_hours_info; Register Tool.convert_utc_to_et;
   Register Tool.get_exchange_info; Register Tool.get_intraday_aggregates;
   Register Tool.get_sip_info; Register Tool.get_market_data_coverage;
   Register Tool.get_ticker_exchange_info; Register Tool.get_earnings;
   Register Tool.get_analyst_ratings; Register Tool.get_short_interest;
   Register Tool.get_options_contracts; Register Tool.get_options_snapshot;
   Register Tool.get_balance_sheet; Register Tool.get_cash_flow;
   Register Tool.get_market_gainers_losers; Register Tool.get_market_holidays;
   Register Tool.get_inflation_data].

(** What happens while the module loads. *)
Inductive event :=
| Registered (x : Tool.t)
| Served (registry : list Tool.t).

(** The interpreter between two statements: the registry so far and the
    events so far, oldest first. *)
Record state := State { registry : list Tool.t; trace : list event }.

Definition initial : state := State [] [].

(** One statement; [is_main] tells whether the file runs as the program
    ([__name__ == "__main__"]) or is imported. *)
Definition exec (is_main : bool) (st : state) (s : stmt) : state :=
  match s with
  | Register x => State (registry st ++ [x]) (trace st ++ [Registered x])
  | Run_if_main =>
      if is_main then State (registry st) (trace st ++ [Served (registry st)])
      else st
  end.

Definition load (is_main : bool) (prog : list stmt) : state :=
  fold_left (exec is_main) prog initial.

(** The registries the server served with, in order. *)
Definition served (tr : list event) : list (list Tool.t) :=
  flat_map (fun e => match e with Served r => [r] | Registered _ => [] end) tr.

(** The tools registered only after the server had started to serve. *)
Fixpoint registered_after_serving (tr : list event) : list Tool.t :=
  match tr with
  | [] => []
  | Served _ :: r =>
      flat_map (fun e => match e with Registered x => [x] | Served _ => [] end) r
  | Registered _ :: r => registered_after_serving r
  end.

Definition tool_eqb (a b : Tool.t) : bool := String.eqb (Tool.name a) (Tool.name b).

(** A call that arrives while the server serves with [registry]. *)
Definition dispatch (registry : list Tool.t) (name : string) (kw : kwargs) : M string :=
  match Tool.of_name name with
  | Some x =>
      if existsb (tool_eqb x) registry then Call.invoke x kw
      else raise ToolError ("Unknown tool: " ++ name)
  | None => raise ToolError ("Unknown tool: " ++ name)
  end.

End Loader.

(* ================================================================== *)
(** * [int(s)] *)
(* ================================================================== *)

(** [int(s)] for a [str], in base ten, on ASCII text: white space around
    the number, a sign, digits with single underscores between them.
    (The digits and spaces beyond ASCII that [int] also reads are outside
    the model.) *)
Module Int.

(** The white space [int] skips at both ends. *)
Definition is_space (c : ascii) : bool :=
  let n := Text.code c in ((9 <=? n) && (n <=? 13)) || (n =? 32).

Fixpoint lstrip (s : string) : string :=
  match s with
  | String c r => if is_space c then lstrip r else s
  | EmptyString => s
  end.

Definition all_space (s : string) : bool :=
  match lstrip s with EmptyString => true | _ => false end.

(** The run of digits and underscores: the number read, how many digits
    it has, and the text left; [None] when two underscores meet or the run
    ends in one.  [after_underscore] tells whether the character before
    was an underscore. *)
Fixpoint scan (s : string) (after_underscore : bool) (acc digits : Z)
  : option (Z * Z * string) :=
  match s with
  | String c r =>
      match PyFloat.digit_of c with
      | Some d => scan r false (acc * 10 + d) (digits + 1)
      | None =>
          if Ascii.eqb c "_" then
            if after_underscore then None else scan r true acc digits
          else if after_underscore then None else Some (acc, digits, s)
      end
  | EmptyString => if after_underscore then None else Some (acc, digits, s)
  end.

(** The message quotes at most 200 characters of [repr(s)]. *)
Definition invalid_literal {A} (s : string) : outcome A :=
  raise_ ValueError
    ("invalid literal for int() with base 10: " ++ substring 0 200 (Json.repr_str s)).

(** The limit on the digits of a decimal literal. *)
Definition max_str_digits : Z := 4300.

Definition too_many_digits {A} (digits : Z) : outcome A :=
  raise_ ValueError
    ("Exceeds the limit (" ++ Text.of_Z max_str_digits
       ++ " digits) for integer string conversion: value has " ++ Text.of_Z digits
       ++ " digits; use sys.set_int_max_str_digits() to increase the limit").

Definition of_str (s : string) : outcome Z :=
  let '(negative, t) := PyFloat.read_sign (lstrip s) in
  match t with
  | String "_" _ => invalid_literal s
  | _ =>
      match scan t false 0 0 with
      | None => invalid_literal s
      | Some (n, digits, rest) =>
          if max_str_digits <? digits then too_many_digits digits
          else if digits =? 0 then invalid_literal s
          else if all_space rest then Returned (if negative then - n else n)
          else invalid_literal s
      end
  end.

End Int.

(* ================================================================== *)
(** * The main block of [server.py] *)
(* ================================================================== *)

Module Main.

(** The environment variables the main block and the health check
    read. *)
Record env := Env { MCP_HTTP_TRANSPORT : option string; PORT : option string }.

(** [int(os.environ.get("PORT", 8000))]. *)
Definition port (e : env) : outcome Z :=
  match PORT e with
  | Some s => Int.of_str s
  | None => Returned 8000
  end.

(** The transport [mcp.run] is called with. *)
Inductive transport :=
| Stdio
| Http (port : Z).

(** What the block prints, and the transport it starts the server
    with.  (No letter beyond ASCII has a lower-case form in ASCII, so the
    test of the flag is the one on ASCII letters.  The port, read by
    [int], has at most 4300 digits, so the f-string writes it.) *)
Definition start (e : env) : outcome (string * transport) :=
  let flag := match MCP_HTTP_TRANSPORT e with Some s => s | None => "false" end in
  if String.eqb (Text.lower flag) "true" then
    (p <~ port e ;;
     Returned ("Starting MCP server with HTTP transport on port " ++ Text.of_Z p, Http p))%outcome
  else Returned ("Starting MCP server with stdio transport", Stdio).

End Main.

(* ================================================================== *)
(** * The health check script *)
(* ================================================================== *)

(** [scripts/health_check.py].  An exception of [requests.get] is kept
    under the class whose handler takes it: an exception that is a
    [ConnectionError] (a connect timeout is one) under [ConnectionError],
    any other [Timeout] under [Timeout].  The standard output is taken to
    accept the lines the script prints. *)
Module Health.

(** What the script reads from outside: the environment, and the server
    behind a URL ([requests.get(url, timeout=t)]). *)
Record world := World { env : Main.env; get : string -> Z -> reply }.

(** What [check_health] does: the value it returns, the line it prints,
    and the requests it sent (URL and timeout). *)
Record report := Report {
  healthy : bool;
  printed : string;
  requested : list (string * Z) }.

Definition failed (e : exn) : string := "❌ Health check failed: " ++ str_exn e.

(** Check if the server is healthy.  (The f-string of the URL writes the
    port, which has at most 4300 digits.) *)
Definition check_health (w : world) : report :=
  match Main.port (env w) with
  | Raised e => Report false (failed e) []
  | Returned port =>
      let url := "http://localhost:" ++ Text.of_Z port ++ "/health" in
      match get w url 5 with
      | Reply response =>
          if status_code response =? 200
          then Report true "✅ Server is healthy" [(url, 5)]
          else Report false
                 ("❌ Server returned status code: " ++ Text.of_Z (status_code response))
                 [(url, 5)]
      | Failed e =>
          Report false
            match exn_cls e with
            | ConnectionError => "❌ Cannot connect to server"
            | Timeout => "❌ Health check timed out"
            | _ => failed e
            end
            [(url, 5)]
      end
  end.

(** The exit status of the script (it first sleeps two seconds). *)
Definition main (w : world) : Z :=
  if healthy (check_health w) then 0 else 1.

End Health.

(* ================================================================== *)
(** * Worlds used in the statements *)
(* ================================================================== *)

(** The credential is configured. *)
Definition has_key (w : world) (key : string) : Prop :=
  POLYGON_API_KEY w = Some key /\ key <> "".

(** The upstream stub answers every request with a status that is no
    error and the parsed body [b]. *)
Definition answers (w : world) (b : json) : Prop :=
  forall u p t, exists r,
    requests_get w u p t = Reply r /\
    raise_for_status r = Returned tt /\
    content r = Body_json b.

(** A stub that answers every request with [status] and body [b]. *)
Definition stub (key : option string) (status : Z) (b : body) : world :=
  World key 1704067200
    (fun u _ _ => Reply (Response status
                           (if status =? 200 then "OK" else "Internal Server Error")
                           u b)).

(** The tools whose body is wrapped in [try ... except Exception]. *)
Definition guarded (x : Tool.t) : bool :=
  match x with
  | Tool.stock_price | Tool.stock_info | Tool.income_statement => false
  | _ => true
  end.

(** [params or {}] and the copy of it. *)
Definition or_empty (p : option params) : params :=
  match p with Some d => d | None => [] end.

(** A computation that sends nothing, in any world. *)
Definition silent {A} (m : M A) : Prop := forall w, requests_of (m w) = [].


(* ================================================================== *)
(** * Parameters and query keys *)
(* ================================================================== *)

(** The keys a builder puts into the query on its own account: fixed
    entries, and parameters whose default it sends. *)
Definition builder_keys (x : Tool.t) : list string :=
  match x with
  | Tool.stock_price => ["adjusted"; "sort"; "limit"]
  | Tool.income_statement => ["ticker"; "timeframe"; "limit"; "order"]
  | Tool.get_balance_sheet | Tool.get_cash_flow => ["timeframe"; "order"]
  | _ => []
  end.

(** The optional parameters whose default is not [None] or [False] but a
    text the builder sends: [timeframe = "quarterly"], [order = "desc"]. *)
Definition sent_by_default (x : Tool.t) : list (string * pyval) :=
  match x with
  | Tool.get_balance_sheet | Tool.get_cash_flow =>
      [("timeframe", PStr "quarterly"); ("order", PStr "desc")]
  | _ => []
  end.

(** The optional parameters a builder tests with [is not None]. *)
Definition tested_for_None (x : Tool.t) : list string :=
  match x with
  | Tool.get_aggregates | Tool.get_previous_close | Tool.get_intraday_aggregates =>
      ["adjusted"]
  | Tool.search_tickers => ["active"]
  | Tool.get_splits => ["reverse_split"]
  | _ => []
  end.

(** The optional parameters a builder tests by truthiness ([if p:]): all
    the others, but the two that [get_balance_sheet] and [get_cash_flow]
    send untested. *)
Definition tested_for_truth (x : Tool.t) : list string :=
  filter (fun k => negb (Call.mem k (tested_for_None x))
                   && negb (Call.mem k (map fst (sent_by_default x))))
         (Tool.optional_names x).

(** No key occurs twice in the list. *)
Fixpoint distinct (l : list string) : bool :=
  match l with
  | [] => true
  | k :: r => negb (Call.mem k r) && distinct r
  end.

(* ================================================================== *)
(** * Date arguments *)
(* ================================================================== *)

Definition is_digit (c : ascii) : bool :=
  let n := Text.code c in (48 <=? n) && (n <=? 57).

(** The text has the form YYYY-MM-DD: ten characters, digits around two
    hyphens. *)
Definition is_YYYY_MM_DD (s : string) : bool :=
  match s with
  | String y1 (String y2 (String y3 (String y4 (String h1
      (String m1 (String m2 (String h2 (String d1 (String d2 EmptyString))))))))) =>
      is_digit y1 && is_digit y2 && is_digit y3 && is_digit y4
      && Ascii.eqb h1 "-" && is_digit m1 && is_digit m2
      && Ascii.eqb h2 "-" && is_digit d1 && is_digit d2
  | _ => false
  end.

(** Year, month and day of a date or datetime argument. *)
Definition ymd_of (v : pyval) : Z * Z * Z :=
  match v with
  | PDate d => (d_year d, d_month d, d_day d)
  | PDatetime d => (dt_year d, dt_month d, dt_day d)
  | _ => (0, 0, 0)
  end.

(** A calendar day whose year has four digits. *)
Definition four_digit_day (ymd : Z * Z * Z) : Prop :=
  let '(y, m, d) := ymd in
  1000 <= y <= 9999 /\ 1 <= m <= 12 /\ 1 <= d <= 31.

(** The tools whose date arguments accept more than a string, and these
    arguments. *)
Definition takes_dates (x : Tool.t) : bool :=
  match x with
  | Tool.get_aggregates | Tool.get_intraday_aggregates => true
  | _ => false
  end.

Definition date_parameters : list string := ["from_date"; "to_date"].

Definition all_digits_of_length (n : nat) (s : string) : bool :=
  Nat.eqb (String.length s) n
  && forallb is_digit (list_ascii_of_string s).

(* ================================================================== *)
(** * What a tool returns *)
(* ================================================================== *)

(** The tools whose body is: build the request, fetch, print the parsed
    body. *)
Definition passes_through (x : Tool.t) : bool :=
  match x with
  | Tool.get_aggregates | Tool.get_previous_close | Tool.get_last_trade
  | Tool.get_last_quote | Tool.get_snapshot_ticker | Tool.get_market_status
  | Tool.search_tickers | Tool.get_ticker_news | Tool.get_dividends
  | Tool.get_splits | Tool.get_treasury_yields | Tool.get_earnings
  | Tool.get_analyst_ratings | Tool.get_short_interest
  | Tool.get_options_contracts | Tool.get_options_snapshot
  | Tool.get_balance_sheet | Tool.get_cash_flow
  | Tool.get_market_gainers_losers | Tool.get_market_holidays
  | Tool.get_inflation_data => true
  | _ => false
  end.

(** What such a tool does to the body before it prints it: nothing, or
    the session augmentation. *)
Definition body_pass (x : Tool.t) : option (json -> outcome json) :=
  if passes_through x then Some Returned
  else match x with
       | Tool.get_intraday_aggregates => Some add_sessions
       | _ => None
       end.

(** The text a guarded tool returns for the outcome of its work. *)
Definition printed (o : outcome json) : string :=
  match o with
  | Returned v => Json.dumps v
  | Raised e => "Error: " ++ str_exn e
  end.

(** The parameters on which a tool calls [.upper()]. *)
Definition uppercased (x : Tool.t) : list string :=
  match x with
  | Tool.stock_price | Tool.stock_info | Tool.income_statement => ["stock_ticker"]
  | Tool.get_options_contracts | Tool.get_options_snapshot => ["underlying_asset"]
  | Tool.get_market_status | Tool.get_market_holidays | Tool.search_tickers
  | Tool.get_treasury_yields | Tool.get_market_gainers_losers
  | Tool.get_inflation_data | Tool.get_market_hours_info | Tool.convert_utc_to_et
  | Tool.get_exchange_info | Tool.get_sip_info | Tool.get_market_data_coverage => []
  | _ => ["ticker"]
  end.

(** The argument under [k] is a string, or is left out where the
    signature allows it. *)
Definition text_argument (x : Tool.t) (kw : kwargs) (k : string) : bool :=
  match Dict.get k kw with
  | Some (PStr _) => true
  | Some _ => false
  | None => negb (Call.mem k (Tool.required_names x))
  end.

Definition text_arguments (x : Tool.t) (kw : kwargs) : bool :=
  forallb (text_argument x kw) (uppercased x).

(** [str(v)] returns: [v] is no [int] of more than 4300 digits. *)
Definition printable (v : pyval) : bool :=
  match Py.str v with Returned _ => true | Raised _ => false end.

(** The parameters whose value a builder writes with an f-string or with
    [str()], into the path or into a flag of the query. *)
Definition formatted (x : Tool.t) : list string :=
  match x with
  | Tool.get_aggregates | Tool.get_intraday_aggregates =>
      ["multiplier"; "timespan"; "from_date"; "to_date"; "adjusted"]
  | Tool.get_previous_close => ["adjusted"]
  | Tool.get_snapshot_ticker => ["market_type"]
  | Tool.search_tickers => ["active"]
  | Tool.get_splits => ["reverse_split"]
  | Tool.get_market_gainers_losers => ["direction"]
  | _ => []
  end.

(** Those of them that are written before [.upper()] is called on the
    ticker. *)
Definition formatted_before_upper (x : Tool.t) : list string :=
  match x with
  | Tool.get_snapshot_ticker => ["market_type"]
  | _ => []
  end.

(** Every argument the builder writes can be written. *)
Definition printable_arguments (x : Tool.t) (kw : kwargs) : bool :=
  forallb (fun k => printable (Call.req kw k)) (formatted x).

(* ================================================================== *)
(** * The session augmentation *)
(* ================================================================== *)

(** The field [k] of a JSON object ([None] for a missing key and for a
    value that is no object). *)
Definition field (k : string) (v : json) : option json :=
  match v with
  | JDict d => Dict.get k d
  | _ => None
  end.

(** The session name and the Eastern time text of an instant. *)
Definition session_of (et : Datetime.t) : json :=
  JStr (_determine_market_session (Datetime.hour et) (Datetime.minute et)).
Definition et_text (et : Datetime.t) : json :=
  JStr (Datetime.strftime_Ymd_HMS "ET" et).

(** A bar and what the augmentation makes of it: every field but
    [market_session] and [et_time] keeps its value; a bar with a timestamp
    [t] gets the two keys, computed five hours behind the UTC instant of
    [t]; a bar without one is unchanged. *)
Definition bar_augmented (bar bar' : json) : Prop :=
  (forall k, k <> "market_session" -> k <> "et_time" -> field k bar' = field k bar) /\
  (forall t, field "t" bar = Some t ->
     exists utc et,
       Op.fromtimestamp_ms t = Returned utc /\
       Datetime.seconds et = Datetime.seconds utc - 5 * 3600 /\
       Datetime.microsecond et = Datetime.microsecond utc /\
       field "market_session" bar' = Some (session_of et) /\
       field "et_time" bar' = Some (et_text et)) /\
  (field "t" bar = None -> bar' = bar).

(** A bar the augmentation can work on: an object without [t], or one
    whose [t] is the timestamp of an instant that [datetime] holds, as it
    holds the instant five hours earlier. *)
Definition bar_accepted (bar : json) : Prop :=
  exists b, bar = JDict b /\
    (Dict.get "t" b = None \/
     exists t utc et,
       Dict.get "t" b = Some t /\
       Op.fromtimestamp_ms t = Returned utc /\
       Datetime.add_hours utc (-5) = Returned et).
(* ================================================================== *)
(** * Failures of the upstream service *)
(* ================================================================== *)

(** The credential [_require_polygon_api_key] accepts: the variable is
    set and not empty. *)
Definition credential (w : world) : option string :=
  match POLYGON_API_KEY w with
  | Some key => if String.eqb key "" then None else Some key
  | None => None
  end.

(** The exception a reply makes [_polygon_get] raise, if any: the one
    [requests.get] raised, the one of [raise_for_status], or the one of
    [response.json()]. *)
Definition fetch_error (rp : reply) : option exn :=
  match rp with
  | Failed e => Some e
  | Reply r =>
      match raise_for_status r with
      | Raised e => Some e
      | Returned _ =>
          match response_json r with
          | Raised e => Some e
          | Returned _ => None
          end
      end
  end.

(** What [v.upper()] raises on a value that is no string. *)
Definition no_upper (v : pyval) : exn :=
  Exn AttributeError ("'" ++ Py.type_name v ++ "' object has no attribute 'upper'").

(** The prefix of the snapshot paths of [get_market_gainers_losers]. *)
Definition us_stocks_snapshots : string := "/v2/snapshot/locale/us/markets/stocks/".

(** The fields [get_ticker_exchange_info] copies from the upstream
    record. *)
Definition copied_fields : list string :=
  ["primary_exchange"; "market"; "locale"; "type"; "active"; "currency_name";
   "cik"; "composite_figi"; "share_class_figi"].

(* ================================================================== *)
(** * The years of the calendar *)
(* ================================================================== *)

(** [f] holds on the [n] integers from [lo] on. *)
Fixpoint all_from (f : Z -> bool) (lo : Z) (n : nat) : bool :=
  match n with
  | O => true
  | S n' => f lo && all_from f (lo + 1) n'
  end.

(** Year, month and day of a day of the 400-year era, the year counted
    from the first year of the era, as [civil_from_days] computes them; an
    era begins on 1 March. *)
Definition civil_of_era_day (doe : Z) : Z * Z * Z :=
  let yoe := (doe - doe / 1460 + doe / 36524 - doe / 146096) / 365 in
  let doy := doe - (365 * yoe + yoe / 4 - yoe / 100) in
  let mp := (5 * doy + 2) / 153 in
  let d := doy - (153 * mp + 2) / 5 + 1 in
  let m := if mp <? 10 then mp + 3 else mp - 9 in
  ((if m <=? 2 then yoe + 1 else yoe), m, d).

(** The year of an era lies in 0..400: it is 0 on the first 306 days
    (March to December), reaches 200 on day 72989, and is 400 on the last
    60 days (January and February); months and days are those of a
    calendar. *)
Definition era_day_ok (doe : Z) : bool :=
  let '(y, m, d) := civil_of_era_day doe in
  (0 <=? y) && (y <=? 400)
  && Bool.eqb (1 <=? y) (306 <=? doe)
  && Bool.eqb (200 <=? y) (72989 <=? doe)
  && Bool.eqb (y <=? 399) (doe <=? 146036)
  && (1 <=? m) && (m <=? 12) && (1 <=? d) && (d <=? 31).

(* ================================================================== *)
(** * The documented market hours *)
(* ================================================================== *)

(** The minute of the day a text HH:MM names. *)
Definition clock_minutes (s : string) : option Z :=
  match s with
  | String h1 (String h2 (String ":" (String m1 (String m2 EmptyString)))) =>
      match PyFloat.digit_of h1, PyFloat.digit_of h2,
            PyFloat.digit_of m1, PyFloat.digit_of m2 with
      | Some a, Some b, Some c, Some d => Some ((a * 10 + b) * 60 + (c * 10 + d))
      | _, _, _, _ => None
      end
  | _ => None
  end.

(** The hours [get_market_hours_info] documents for a session: [start]
    and [end], in minutes of the day. *)
Definition documented_hours (name : string) : option (Z * Z) :=
  match field name market_hours with
  | Some (JDict d) =>
      match Dict.get "start" d, Dict.get "end" d with
      | Some (JStr a), Some (JStr b) =>
          match clock_minutes a, clock_minutes b with
          | Some lo, Some hi => Some (lo, hi)
          | _, _ => None
          end
      | _, _ => None
      end
  | _ => None
  end.

(* ================================================================== *)
(** * The health check *)
(* ================================================================== *)

(** The URL the health check asks for. *)
Definition health_url (port : Z) : string :=
  "http://localhost:" ++ Text.of_Z port ++ "/health".

(* ================================================================== *)
(** * Integers as text *)
(* ================================================================== *)

(** What [str] raises on an [int] of more than 4300 digits. *)
Definition int_too_long : exn :=
  Exn ValueError
    "Exceeds the limit (4300 digits) for integer string conversion; use sys.set_int_max_str_digits() to increase the limit".

(** The number of decimal digits of an [int], its sign apart. *)
Definition digits_of (n : Z) : Z := Z.of_nat (String.length (Text.of_Z (Z.abs n))).

(** A decimal number whose first digit is not zero. *)
Definition leading (d : Decimal.uint) : bool :=
  match d with
  | Decimal.Nil | Decimal.D0 _ => false
  | _ => true
  end.
(* ================================================================== *)
(** * Basic facts *)
(* ================================================================== *)

Section DictFacts.
Context {V : Type}.
Implicit Types (d : Dict.t V) (k : string) (v : V).

Lemma get_set_same k v d : Dict.get k (Dict.set k v d) = Some v.
Proof.
  induction d as [| [k' v'] r IH]; simpl.
  - now rewrite String.eqb_refl.
  - destruct (String.eqb k k') eqn:E; simpl; rewrite E; auto.
Qed.

Lemma get_set_other k k' v d :
  k <> k' -> Dict.get k' (Dict.set k v d) = Dict.get k' d.
Proof.
  intros N. induction d as [| [k0 v0] r IH]; simpl.
  - destruct (String.eqb_spec k' k); congruence.
  - destruct (String.eqb_spec k k0); simpl.
    + subst k0. destruct (String.eqb_spec k' k); congruence.
    + now rewrite IH.
Qed.

Lemma get_None_not_in k d : Dict.get k d = None <-> ~ In k (Dict.keys d).
Proof.
  induction d as [| [k' v'] r IH]; simpl.
  - tauto.
  - destruct (String.eqb_spec k k'); split; intros H.
    + discriminate.
    + exfalso. apply H. now left.
    + intros [E | I]; [congruence | now apply IH in I].
    + apply IH. tauto.
Qed.

(** A new key goes to the end. *)
Lemma set_absent k v d : Dict.get k d = None -> Dict.set k v d = (d ++ [(k, v)])%list.
Proof.
  induction d as [| [k' v'] r IH]; simpl; auto.
  destruct (String.eqb k k'); [discriminate |].
  intros H. now rewrite IH.
Qed.

Lemma keys_set_present k v d : Dict.get k d <> None -> Dict.keys (Dict.set k v d) = Dict.keys d.
Proof.
  induction d as [| [k' v'] r IH]; simpl; [congruence |].
  destruct (String.eqb k k') eqn:E; simpl; auto.
  intros H. now rewrite IH.
Qed.

Lemma keys_set k v d :
  Dict.keys (Dict.set k v d) =
  if Dict.mem k d then Dict.keys d else (Dict.keys d ++ [k])%list.
Proof.
  unfold Dict.mem. destruct (Dict.get k d) eqn:E.
  - apply keys_set_present. congruence.
  - rewrite set_absent by assumption. unfold Dict.keys. now rewrite map_app.
Qed.

Lemma count_key_app k d d' :
  Dict.count_key k (d ++ d')%list = (Dict.count_key k d + Dict.count_key k d')%nat.
Proof. unfold Dict.count_key. now rewrite filter_app, length_app. Qed.

Lemma count_key_absent k d : Dict.get k d = None -> Dict.count_key k d = 0%nat.
Proof.
  unfold Dict.count_key.
  induction d as [| [k' v'] r IH]; simpl; auto.
  destruct (String.eqb k k'); [discriminate | auto].
Qed.

(** Assignment keeps the number of entries under every key that was
    there, and makes it one for a new key. *)
Lemma count_key_set k v d :
  Dict.count_key k (Dict.set k v d) = Nat.max 1 (Dict.count_key k d).
Proof.
  induction d as [| [k' v'] r IH]; simpl.
  - unfold Dict.count_key. simpl. now rewrite String.eqb_refl.
  - destruct (String.eqb k k') eqn:E.
    + unfold Dict.count_key. simpl. rewrite E. simpl. lia.
    + unfold Dict.count_key in *. simpl. rewrite E. exact IH.
Qed.

Lemma last_key_app_one d k v : Dict.last_key (d ++ [(k, v)])%list = Some k.
Proof. unfold Dict.last_key. now rewrite rev_app_distr. Qed.
End DictFacts.

(** [try ... except Exception] around a computation always returns. *)
Lemma or_error_returns (m : M string) (w : world) :
  exists s, result_of (or_error m w) = Returned s.
Proof.
  unfold or_error, try_except, result_of.
  destruct (m w) as [[s | e] l]; simpl; eauto.
Qed.

(** What it returns for a computation that raises. *)
Lemma or_error_raised (m : M string) (w : world) e l :
  m w = (Raised e, l) ->
  or_error m w = (Returned ("Error: " ++ str_exn e), l).
Proof.
  intros H. unfold or_error, try_except. rewrite H. simpl.
  now rewrite app_nil_r.
Qed.

Lemma or_error_returned (m : M string) (w : world) s l :
  m w = (Returned s, l) -> or_error m w = (Returned s, l).
Proof. intros H. unfold or_error, try_except. now rewrite H. Qed.


(** The body of a guarded tool is a [try ... except Exception], or prints
    a constant. *)
Lemma body_guarded (x : Tool.t) (kw : kwargs) :
  guarded x = true ->
  (exists m, Call.body x kw = or_error m) \/ (exists s, Call.body x kw = ret s).
Proof.
  intros G.
  destruct x; try discriminate G;
    first [ left; eexists; reflexivity | right; eexists; reflexivity ].
Qed.

(** A guarded tool returns a string whatever the world does, once its
    arguments are bound. *)
Lemma guarded_tool_returns (x : Tool.t) (kw : kwargs) (w : world) :
  guarded x = true ->
  Call.check_args x kw = Returned tt ->
  exists s, result_of (Call.invoke x kw w) = Returned s.
Proof.
  intros G C. unfold Call.invoke, bind, lift, result_of. rewrite C.
  destruct (body_guarded x kw G) as [[m E] | [s E]]; rewrite E.
  - destruct (or_error_returns m w) as [s Hs]. unfold result_of in Hs.
    destruct (or_error m w) as [o l]. simpl in *. subst o. eauto.
  - simpl. eauto.
Qed.

(* ================================================================== *)
(** * Bound arguments and the tests of a builder *)
(* ================================================================== *)

Lemma truthy_given kw k :
  Py.truthy (default PNone (Call.opt kw k)) = true -> Dict.mem k kw = true.
Proof. unfold Call.opt, Dict.mem. destruct (Dict.get k kw); [reflexivity | discriminate]. Qed.

Lemma truthy_given_bool kw k :
  Py.truthy (default (PBool false) (Call.opt kw k)) = true -> Dict.mem k kw = true.
Proof. unfold Call.opt, Dict.mem. destruct (Dict.get k kw); [reflexivity | discriminate]. Qed.

Lemma not_None_given kw k :
  Py.is_not_None (default PNone (Call.opt kw k)) = true -> Dict.mem k kw = true.
Proof. unfold Call.opt, Dict.mem. destruct (Dict.get k kw); [reflexivity | discriminate]. Qed.

Lemma upper_given kw k u :
  Py.upper (Call.req kw k) = Returned u -> Dict.mem k kw = true.
Proof. unfold Call.req, Dict.mem. destruct (Dict.get k kw); [reflexivity | discriminate]. Qed.

Lemma mem_In k l : Call.mem k l = true -> In k l.
Proof.
  unfold Call.mem. rewrite existsb_exists. intros (y & I & E).
  apply String.eqb_eq in E. now subst.
Qed.

Lemma In_mem k l : In k l -> Call.mem k l = true.
Proof.
  intros I. unfold Call.mem. rewrite existsb_exists. exists k.
  split; [exact I | apply String.eqb_refl].
Qed.

(** Case analysis on the tests a builder makes, in hypothesis [H]. *)
Ltac explore H :=
  repeat (cbv beta iota in H;
          match type of H with
          | context [if ?c then _ else _] =>
              lazymatch c with
              | true => fail
              | false => fail
              | _ => destruct c eqn:?
              end
          | context [Py.upper ?v] => destruct (Py.upper v) eqn:?
          | context [Py.str ?v] => destruct (Py.str v) eqn:?
          | context [Datetime.add_days ?a ?b] => destruct (Datetime.add_days a b) eqn:?
          end);
  cbv beta iota delta [obind fst snd] in H.

Ltac unfold_builders H :=
  unfold stock_price_request, stock_info_request, income_statement_request,
    get_aggregates_request, get_previous_close_request, get_last_trade_request,
    get_last_quote_request, get_snapshot_ticker_request, get_market_status_request,
    search_tickers_request, get_ticker_news_request, get_dividends_request,
    get_splits_request, get_treasury_yields_request, get_intraday_aggregates_request,
    get_ticker_exchange_info_request, get_earnings_request, get_analyst_ratings_request,
    dated_listing_request, get_short_interest_request, get_options_contracts_request,
    get_options_snapshot_request, get_balance_sheet_request, get_cash_flow_request,
    financials_request, get_market_gainers_losers_request, get_market_holidays_request,
    get_inflation_data_request, aggregates_path, set_ticker, set_flag in H;
  cbv zeta in H.

(** A test that passed tells that the caller gave the argument. *)
Ltac given :=
  match goal with
  | H : Py.truthy (default PNone (Call.opt ?kw ?k)) = true |- Dict.mem ?k ?kw = true =>
      exact (truthy_given kw k H)
  | H : Py.truthy (default (PBool false) (Call.opt ?kw ?k)) = true
    |- Dict.mem ?k ?kw = true => exact (truthy_given_bool kw k H)
  | H : Py.is_not_None (default PNone (Call.opt ?kw ?k)) = true
    |- Dict.mem ?k ?kw = true => exact (not_None_given kw k H)
  | H : Py.upper (Call.req ?kw ?k) = Returned _ |- Dict.mem ?k ?kw = true =>
      exact (upper_given kw k _ H)
  end.

Lemma opt_set_same kw k v : Call.opt (Dict.set k v kw) k = Some v.
Proof. apply get_set_same. Qed.

Lemma opt_set_other kw k k' v : k <> k' -> Call.opt (Dict.set k v kw) k' = Call.opt kw k'.
Proof. apply get_set_other. Qed.

Lemma req_set_same kw k v : Call.req (Dict.set k v kw) k = v.
Proof. unfold Call.req. now rewrite get_set_same. Qed.

Lemma req_set_other kw k k' v : k <> k' -> Call.req (Dict.set k v kw) k' = Call.req kw k'.
Proof. intros N. unfold Call.req. now rewrite get_set_other. Qed.

(** Arguments looked up in a keyword mapping that was just extended. *)
Ltac rebind :=
  repeat first [ rewrite opt_set_same
               | rewrite req_set_same
               | rewrite opt_set_other by discriminate
               | rewrite req_set_other by discriminate ].

Ltac unfold_builders_goal :=
  unfold stock_price_request, stock_info_request, income_statement_request,
    get_aggregates_request, get_previous_close_request, get_last_trade_request,
    get_last_quote_request, get_snapshot_ticker_request, get_market_status_request,
    search_tickers_request, get_ticker_news_request, get_dividends_request,
    get_splits_request, get_treasury_yields_request, get_intraday_aggregates_request,
    get_ticker_exchange_info_request, get_earnings_request, get_analyst_ratings_request,
    dated_listing_request, get_short_interest_request, get_options_contracts_request,
    get_options_snapshot_request, get_balance_sheet_request, get_cash_flow_request,
    financials_request, get_market_gainers_losers_request, get_market_holidays_request,
    get_inflation_data_request, aggregates_path, set_ticker, set_flag.

(** Case analysis on the tests of a builder, in the goal. *)
Ltac cases_of_goal :=
  repeat (cbv beta iota;
          match goal with
          | |- context [if ?c then _ else _] =>
              lazymatch c with
              | true => fail
              | false => fail
              | _ => destruct c
              end
          end).


(* ================================================================== *)
(** * Values of the library model *)
(* ================================================================== *)

(** Some values of the model of [float], [datetime], [json] and [str],
    as CPython 3.11 computes them. *)

Example float_of_one_tenth :
  PyFloat.of_repr "0.1" = S754_finite false 7205759403792794 (-56).
Proof. reflexivity. Qed.

Example int_true_division :
  PyFloat.div_Z 1704067200123 1000 = S754_finite false 7147375873744699 (-22).
Proof. reflexivity. Qed.

Example fromtimestamp_rounds_half_even :
  Datetime.fromtimestamp_float (PyFloat.of_repr "0.9999995") = Returned (Datetime.At 1 0) /\
  Datetime.fromtimestamp_float (PyFloat.of_repr "2.5e-06") = Returned (Datetime.At 0 2) /\
  Datetime.fromtimestamp_float (PyFloat.of_repr "-0.5")
    = Returned (Datetime.At (-1) 500000).
Proof. repeat split. Qed.

Example fromtimestamp_range :
  Datetime.fromtimestamp_int 253402300799 = Returned (Datetime.At 253402300799 0) /\
  Datetime.strftime_Ymd_HMS "UTC" (Datetime.At 253402300799 0) = "9999-12-31 23:59:59 UTC" /\
  Datetime.fromtimestamp_int 253402300800
    = Raised (Exn ValueError "year 10000 is out of range") /\
  Datetime.fromtimestamp_int (-62135596801)
    = Raised (Exn ValueError "year 0 is out of range") /\
  Datetime.add_hours (Datetime.At (-62135596800) 0) (-5)
    = Raised (Exn OverflowError "date value out of range").
Proof. repeat split. Qed.

Example leap_day :
  Datetime.strftime_Ymd_HMS "ET" (Datetime.At 1709251199 0) = "2024-02-29 23:59:59 ET" /\
  Datetime.strftime_Ymd (Datetime.At 951782400 0) = "2000-02-29".
Proof. repeat split. Qed.

Example dumps_nested :
  Json.dumps (JList [JInt 1; JDict []; JList [JNull; JBool true; JFloat "1.5"]])
  = "[" ++ Json.LF ++ "  1," ++ Json.LF ++ "  {}," ++ Json.LF
    ++ "  [" ++ Json.LF ++ "    null," ++ Json.LF ++ "    true," ++ Json.LF
    ++ "    1.5" ++ Json.LF ++ "  ]" ++ Json.LF ++ "]".
Proof. reflexivity. Qed.

Example dumps_escapes_beyond_ascii :
  Json.dumps (JStr "Exchanges → SIPs") = Json.dq ++ "Exchanges \u2192 SIPs" ++ Json.dq.
Proof. reflexivity. Qed.

Example repr_of_a_document :
  Json.repr (JDict [("date", JStr "2024-01-02"); ("close", JNull); ("n", JList [JInt 3])])
  = "{'date': '2024-01-02', 'close': None, 'n': [3]}".
Proof. reflexivity. Qed.

(** Ticker normalisation: [stock_price("nvda")] asks for NVDA. *)
Example stock_price_path_is_upper_case :
  Call.path Tool.stock_price [("stock_ticker", PStr "nvda")]
    (stub None 200 (Body_json JNull))
  = Some "/v2/aggs/ticker/NVDA/range/1/day/2023-12-02/2024-01-01".
Proof. reflexivity. Qed.

(* ================================================================== *)
(** * The market-session classifier *)
(* ================================================================== *)

(** C5.  The classifier maps the minute of the day [m = hour * 60 + minute]
    to pre_market for [m] in [240, 570), regular_market for [m] in
    [570, 960), after_hours for [m] in [960, 1200) and market_closed
    otherwise; 5:00 is pre-market, 10:00 regular, 17:00 after hours, 22:00
    closed, and the boundary 9:30 is regular. *)
Theorem determine_market_session_intervals (hour minute : Z) :
  let m := hour * 60 + minute in
  (240 <= m < 570 -> _determine_market_session hour minute = "pre_market") /\
  (570 <= m < 960 -> _determine_market_session hour minute = "regular_market") /\
  (960 <= m < 1200 -> _determine_market_session hour minute = "after_hours") /\
  (m < 240 \/ 1200 <= m -> _determine_market_session hour minute = "market_closed") /\
  _determine_market_session 5 0 = "pre_market" /\
  _determine_market_session 10 0 = "regular_market" /\
  _determine_market_session 17 0 = "after_hours" /\
  _determine_market_session 22 0 = "market_closed" /\
  _determine_market_session 9 30 = "regular_market".
Proof.
  intros m. unfold _determine_market_session. fold m.
  repeat split; try reflexivity; intros H;
    repeat match goal with
    | |- context [?a <=? ?b] => destruct (Z.leb_spec a b); simpl
    | |- context [?a <? ?b] => destruct (Z.ltb_spec a b); simpl
    end; try reflexivity; lia.
Qed.

(** The boundary case, through the interval statement: 9:30 is minute 570. *)
Lemma determine_market_session_at_open :
  _determine_market_session 9 30 = "regular_market".
Proof.
  apply (proj1 (proj2 (determine_market_session_intervals 9 30))).
  simpl. lia.
Defined.

(* ================================================================== *)
(** * Start of the server *)
(* ================================================================== *)

(** C2, evaluated on the file run as the program.  The server starts to
    serve with the fourteen tools defined above the
    [if __name__ == "__main__":] block; the seventeen tools defined below
    it are registered only after [mcp.run] has returned, and a call of one
    of them that arrives while the server serves finds no such tool.
    Imported as a module, the file registers every tool and serves
    nothing. *)
Theorem main_serves_before_all_tools_are_registered :
  Loader.served (Loader.trace (Loader.load true Loader.server_py))
    = [firstn 14 Tool.all] /\
  Loader.registered_after_serving (Loader.trace (Loader.load true Loader.server_py))
    = skipn 14 Tool.all /\
  In Tool.get_market_hours_info (skipn 14 Tool.all) /\
  (forall kw w,
     Loader.dispatch (firstn 14 Tool.all) "get_market_hours_info" kw w
       = (Raised (Exn ToolError "Unknown tool: get_market_hours_info"), [])) /\
  Loader.registry (Loader.load true Loader.server_py) = Tool.all /\
  Loader.registry (Loader.load false Loader.server_py) = Tool.all /\
  Loader.served (Loader.trace (Loader.load false Loader.server_py)) = [].
Proof.
  repeat split; try reflexivity.
  simpl. tauto.
Qed.

(* ================================================================== *)
(** * Failures of a call *)
(* ================================================================== *)

(** C1, evaluated on [stock_price] with an upstream that answers 500, and
    with no credential: the exception leaves the tool.  [get_last_trade],
    whose body is guarded, returns the error text in the same worlds. *)
Theorem stock_price_raises_on_failure :
  result_of (Call.invoke Tool.stock_price [("stock_ticker", PStr "NVDA")]
               (stub (Some "KEY") 500 (Body_json JNull)))
    = Raised (Exn HTTPError
        "500 Server Error: Internal Server Error for url: https://api.polygon.io/v2/aggs/ticker/NVDA/range/1/day/2023-12-02/2024-01-01") /\
  result_of (Call.invoke Tool.stock_price [("stock_ticker", PStr "NVDA")]
               (stub None 200 (Body_json JNull)))
    = Raised (Exn RuntimeError "POLYGON_API_KEY environment variable is not set") /\
  result_of (Call.invoke Tool.get_last_trade [("ticker", PStr "NVDA")]
               (stub (Some "KEY") 500 (Body_json JNull)))
    = Returned "Error: 500 Server Error: Internal Server Error for url: https://api.polygon.io/v2/last/trade/NVDA" /\
  result_of (Call.invoke Tool.get_last_trade [("ticker", PStr "NVDA")]
               (stub None 200 (Body_json JNull)))
    = Returned "Error: POLYGON_API_KEY environment variable is not set".
Proof. repeat split; vm_compute; reflexivity. Qed.

(* ================================================================== *)
(** * The fetch *)
(* ================================================================== *)


(** With a credential and an upstream that answers, [_polygon_get] sends
    one request, the credential set on the builder's mapping, and returns
    the parsed body. *)
Lemma polygon_get_answered (w : world) (key : string) (b : json)
      (path : string) (p : option params) :
  has_key w key -> answers w b ->
  _polygon_get path p w =
    (Returned b,
     [Sent (base_url ++ path) (Dict.set "apiKey" (PStr key) (or_empty p)) 20]).
Proof.
  intros [K NE] A.
  unfold _polygon_get, bind, _require_polygon_api_key, http_get, lift. rewrite K.
  destruct (String.eqb_spec key ""); [contradiction |]. cbn [negb].
  assert (E : Dict.copy match p with
                        | Some d => match d with [] => [] | _ => d end
                        | None => []
                        end = or_empty p).
  { destruct p as [[|]|]; reflexivity. }
  rewrite E.
  destruct (A (base_url ++ path) (Dict.set "apiKey" (PStr key) (or_empty p)) 20)
    as (r & R & S & C).
  rewrite R, S. unfold response_json. rewrite C. reflexivity.
Qed.

(** Without a credential nothing is sent. *)
Lemma polygon_get_without_key (w : world) (path : string) (p : option params) :
  POLYGON_API_KEY w = None ->
  _polygon_get path p w =
    (Raised (Exn RuntimeError "POLYGON_API_KEY environment variable is not set"), []).
Proof.
  intros K. unfold _polygon_get, bind, _require_polygon_api_key. now rewrite K.
Qed.

Lemma stub_has_key key status b :
  key <> "" -> has_key (stub (Some key) status b) key.
Proof. intros N. split; [reflexivity | exact N]. Qed.

Lemma stub_answers key b : answers (stub key 200 (Body_json b)) b.
Proof. intros u p t. eexists. repeat split. Qed.

(* ================================================================== *)
(** * get_ticker_exchange_info without results *)
(* ================================================================== *)

(** C10.  When the body of the upstream response has no [results] entry,
    or one that is empty (falsy), [get_ticker_exchange_info] returns the
    pretty-printed object whose only entry is [error] with the text
    No data found for ticker <ticker>; that text does not start with the
    Error: prefix of the failure path. *)
Theorem ticker_exchange_info_without_results
    (ticker : string) (d : list (string * json)) (w : world) (key : string) :
  has_key w key ->
  answers w (JDict d) ->
  Json.truthy (Json.get "results" d) = false ->
  let result := Json.dumps (JDict [("error", JStr ("No data found for ticker " ++ ticker))]) in
  result_of (Call.invoke Tool.get_ticker_exchange_info [("ticker", PStr ticker)] w)
    = Returned result /\
  Text.startswith "Error: " result = false.
Proof.
  intros K A F result. split; [| reflexivity].
  unfold Call.invoke, bind, lift. simpl.
  unfold get_ticker_exchange_info.
  erewrite or_error_returned; [reflexivity |].
  unfold bind, lift. simpl.
  rewrite (polygon_get_answered w key (JDict d) _ None K A). simpl.
  unfold ticker_exchange_document, Op.contains, Op.subscript, Dict.mem.
  unfold Json.get in F. simpl.
  destruct (Dict.get "results" d) as [v |]; simpl.
  - rewrite F. reflexivity.
  - reflexivity.
Qed.

(** The statement on a body that only reports a status. *)
Lemma ticker_exchange_info_without_results_example :
  result_of (Call.invoke Tool.get_ticker_exchange_info [("ticker", PStr "nvda")]
               (stub (Some "KEY") 200 (Body_json (JDict [("status", JStr "NOT_FOUND")]))))
    = Returned (Json.dumps (JDict [("error", JStr "No data found for ticker nvda")])) /\
  Text.startswith "Error: "
    (Json.dumps (JDict [("error", JStr "No data found for ticker nvda")])) = false.
Proof.
  apply (ticker_exchange_info_without_results "nvda" [("status", JStr "NOT_FOUND")]
           (stub (Some "KEY") 200 (Body_json (JDict [("status", JStr "NOT_FOUND")])))
           "KEY").
  - apply stub_has_key. discriminate.
  - apply stub_answers.
  - reflexivity.
Defined.

(* ================================================================== *)
(** * The credential of an outbound request *)
(* ================================================================== *)

Lemma count_key_cons {V} (k k' : string) (v : V) (d : Dict.t V) :
  Dict.count_key k ((k', v) :: d) =
  ((if String.eqb k k' then 1 else 0) + Dict.count_key k d)%nat.
Proof. unfold Dict.count_key. simpl. now destruct (String.eqb k k'). Qed.

Lemma count_key_le_1 {V} (k : string) (d : Dict.t V) :
  NoDup (Dict.keys d) -> (Dict.count_key k d <= 1)%nat.
Proof.
  induction d as [| [k' v'] r IH]; intros N.
  - unfold Dict.count_key. simpl. lia.
  - simpl in N. inversion N as [| ? ? NI N']; subst.
    rewrite count_key_cons.
    destruct (String.eqb_spec k k').
    + subst k'.
      rewrite (count_key_absent k r (proj2 (get_None_not_in k r) NI)). lia.
    + specialize (IH N'). lia.
Qed.

(** The requests [_polygon_get] sends: none without a credential, else one,
    to the base URL, with the credential assigned on the given mapping. *)
Lemma polygon_get_requests (path : string) (p : option params) (w : world) (s : sent) :
  In s (requests_of (_polygon_get path p w)) ->
  exists key,
    POLYGON_API_KEY w = Some key /\
    s = Sent (base_url ++ path) (Dict.set "apiKey" (PStr key) (or_empty p)) 20.
Proof.
  unfold _polygon_get, bind, _require_polygon_api_key, http_get, requests_of.
  destruct (POLYGON_API_KEY w) as [key |]; [| simpl; tauto].
  destruct (String.eqb key ""); cbn [negb]; [simpl; tauto |].
  assert (E : Dict.copy match p with
                        | Some d => match d with [] => [] | _ => d end
                        | None => []
                        end = or_empty p).
  { destruct p as [[|]|]; reflexivity. }
  rewrite E. cbn [app].
  destruct (requests_get w _ _ _) as [r | e]; cbn [lift fst snd].
  - destruct (raise_for_status r) as [[] | e]; cbn [app snd].
    + destruct (response_json r); cbn [app snd In];
        intros [<- | []]; eauto.
    + intros [<- | []]; eauto.
  - cbn [snd app In]. intros [<- | []]; eauto.
Qed.

(** The credential in a request of [_polygon_get]. *)
Lemma credential_assigned
    (path : string) (p : option params) (w : world) (s : sent) :
  In s (requests_of (_polygon_get path p w)) ->
  NoDup (Dict.keys (or_empty p)) ->
  exists key,
    POLYGON_API_KEY w = Some key /\
    Dict.get "apiKey" (sent_params s) = Some (PStr key) /\
    Dict.count_key "apiKey" (sent_params s) = 1%nat /\
    (forall k, k <> "apiKey" -> Dict.get k (sent_params s) = Dict.get k (or_empty p)) /\
    (Dict.get "apiKey" (or_empty p) = None ->
     Dict.last_key (sent_params s) = Some "apiKey").
Proof.
  intros I N.
  destruct (polygon_get_requests path p w s I) as (key & K & ->).
  exists key. cbn [sent_params]. repeat split.
  - exact K.
  - apply get_set_same.
  - rewrite count_key_set. pose proof (count_key_le_1 "apiKey" _ N). lia.
  - intros k D. apply get_set_other. congruence.
  - intros A. rewrite set_absent by exact A. apply last_key_app_one.
Qed.

(** C7, as amended.  In every request [_polygon_get] sends, whatever
    mapping the builder supplied, the query has exactly one [apiKey] entry
    and its value is the credential; every other entry is the builder's.
    The entry is the last one whenever the builder's mapping has no
    [apiKey] entry of its own. *)
Theorem polygon_get_sets_credential_once
    (path : string) (p : option params) (w : world) (s : sent) :
  In s (requests_of (_polygon_get path p w)) ->
  NoDup (Dict.keys (or_empty p)) ->
  exists key,
    POLYGON_API_KEY w = Some key /\
    Dict.get "apiKey" (sent_params s) = Some (PStr key) /\
    Dict.count_key "apiKey" (sent_params s) = 1%nat /\
    (forall k, k <> "apiKey" -> Dict.get k (sent_params s) = Dict.get k (or_empty p)) /\
    (Dict.get "apiKey" (or_empty p) = None ->
     Dict.last_key (sent_params s) = Some "apiKey").
Proof. exact (credential_assigned path p w s). Qed.

(** The statement on the request of [get_market_status]. *)
Lemma polygon_get_sets_credential_once_example :
  exists key,
    Some "KEY" = Some key /\
    Dict.get "apiKey" [("limit", PInt 5); ("apiKey", PStr "KEY")] = Some (PStr key) /\
    Dict.count_key "apiKey" [("limit", PInt 5); ("apiKey", PStr "KEY")] = 1%nat /\
    (forall k, k <> "apiKey" ->
       Dict.get k [("limit", PInt 5); ("apiKey", PStr "KEY")]
         = Dict.get k [("limit", PInt 5)]) /\
    (Dict.get "apiKey" [("limit", PInt 5)] = None ->
     Dict.last_key [("limit", PInt 5); ("apiKey", PStr "KEY")] = Some "apiKey").
Proof.
  apply (polygon_get_sets_credential_once "/v1/marketstatus/now"
           (Some [("limit", PInt 5)]) (stub (Some "KEY") 200 (Body_json JNull))
           (Sent "https://api.polygon.io/v1/marketstatus/now"
                 [("limit", PInt 5); ("apiKey", PStr "KEY")] 20)).
  - simpl. left. reflexivity.
  - simpl. repeat constructor. simpl. tauto.
Defined.

(** C7 as stated fails where the builder's mapping already has an [apiKey]
    entry: the assignment replaces the value in place, and the key inserted
    last is still the builder's last key. *)
Lemma api_key_keeps_its_place_when_present :
  map sent_params
    (requests_of (_polygon_get "/v1/marketstatus/now"
                    (Some [("apiKey", PStr "old"); ("limit", PInt 5)])
                    (stub (Some "KEY") 200 (Body_json JNull))))
    = [[("apiKey", PStr "KEY"); ("limit", PInt 5)]] /\
  Dict.last_key [("apiKey", PStr "KEY"); ("limit", PInt 5)] = Some "limit".
Proof. split; reflexivity. Qed.

(* ================================================================== *)
(** * From a call to its request *)
(* ================================================================== *)

Lemma requests_or_error (m : M string) (w : world) :
  requests_of (or_error m w) = requests_of (m w).
Proof.
  unfold or_error, try_except, requests_of.
  destruct (m w) as [[a | e] l]; simpl; auto using app_nil_r.
Qed.


Ltac silence :=
  intros; unfold silent, requests_of, bind, lift, ret; intros;
  repeat match goal with
         | |- context [match ?o with Returned _ => _ | Raised _ => _ end] =>
             destruct o; cbn [fst snd app]
         end;
  reflexivity.

(** A tool fetches once, then works on the body without sending. *)
Lemma fetch_then_requests (r : outcome request) (k : json -> M string)
      (w : world) (s : sent) :
  (forall data, silent (k data)) ->
  In s (requests_of ((req <- lift r ;;
                      data <- _polygon_get (fst req) (snd req) ;;
                      k data)%M w)) ->
  exists path p,
    r = Returned (path, p) /\ In s (requests_of (_polygon_get path p w)).
Proof.
  intros P. unfold bind at 1. unfold lift at 1.
  destruct r as [[path p] | e]; [| simpl; tauto].
  cbn [fst snd]. unfold bind.
  destruct (_polygon_get path p w) as [[data | e] l] eqn:G.
  - specialize (P data w). unfold requests_of in *.
    destruct (k data w) as [o l']. simpl in P. subst l'. simpl.
    rewrite app_nil_r. intros I. exists path, p. split; [reflexivity |].
    now rewrite G.
  - unfold requests_of. simpl. intros I. exists path, p. split; [reflexivity |].
    now rewrite G.
Qed.

Lemma requests_bind {A B} (m : M A) (f : A -> M B) (w : world) :
  requests_of (bind m f w) =
  (requests_of (m w) ++
   match result_of (m w) with
   | Returned a => requests_of (f a w)
   | Raised _ => []
   end)%list.
Proof.
  unfold bind, requests_of, result_of.
  destruct (m w) as [[a | e] l]; simpl.
  - now destruct (f a w).
  - now rewrite app_nil_r.
Qed.

Ltac fetched I :=
  apply fetch_then_requests in I; [| silence];
  let path := fresh "path" in
  let p := fresh "p" in
  let R := fresh "R" in
  destruct I as (path & p & R & I); exists path, p; now rewrite R.

Ltac nothing_sent I :=
  revert I;
  match goal with
  | |- In _ (requests_of (?m ?w)) -> _ =>
      let H := fresh "H" in
      assert (H : silent m) by silence;
      rewrite (H w); simpl; tauto
  end.

(** Every request a call sends is the one request its tool built, passed
    through [_polygon_get]. *)
Lemma invoke_requests (x : Tool.t) (kw : kwargs) (w : world) (s : sent) :
  In s (requests_of (Call.invoke x kw w)) ->
  exists path p,
    Call.request x kw w = Some (Returned (path, p)) /\
    In s (requests_of (_polygon_get path p w)).
Proof.
  unfold Call.invoke. rewrite requests_bind. unfold lift at 1 2.
  unfold requests_of at 1, result_of. cbn [fst snd app].
  destruct (Call.check_args x kw) as [[] | e]; [| simpl; tauto].
  intros I.
  destruct x; cbn [Call.body Call.request] in *;
    unfold stock_info, income_statement,
      get_aggregates, get_previous_close, get_last_trade,
      get_last_quote, get_snapshot_ticker, get_market_status,
      search_tickers, get_ticker_news, get_dividends, get_splits,
      get_treasury_yields, get_earnings, get_analyst_ratings,
      get_short_interest, get_options_contracts, get_options_snapshot,
      get_balance_sheet, get_cash_flow, get_market_gainers_losers,
      get_market_holidays, get_inflation_data,
      get_intraday_aggregates, get_ticker_exchange_info,
      convert_utc_to_et, fetch_and_dump in I;
    try rewrite requests_or_error in I.
  1: { (* stock_price reads the clock first *)
    unfold stock_price, datetime_now in I. rewrite requests_bind in I.
    unfold requests_of at 1, result_of in I. cbn [fst snd app] in I.
    rewrite requests_bind in I. unfold lift at 1 2 in I.
    unfold requests_of at 1, result_of in I. cbn [fst snd app] in I.
    destruct (Datetime.add_days _ _) as [start_dt | e]; [| simpl in I; tauto].
    cbn [obind]. fetched I. }
  all: try solve [fetched I].
  all: nothing_sent I.
Qed.

(* ================================================================== *)
(** * The query a tool builds *)
(* ================================================================== *)

(** No leakage: a key of the built query is a parameter of the tool that
    the caller gave, or a key the tool's own builder sets. *)
Lemma query_keys_own (x : Tool.t) (kw : kwargs) (w : world) (p : params) (k : string) :
  Call.query x kw w = Some p ->
  In k (Dict.keys p) ->
  (In k (Tool.param_names x) /\ Dict.mem k kw = true) \/ In k (builder_keys x).
Proof.
  unfold Call.query.
  destruct x; cbn [Call.request]; intros H; unfold_builders H; explore H;
    try discriminate H; injection H as <-.
  all: cbn [Dict.keys Dict.set map fst In String.eqb Ascii.eqb Bool.eqb];
    intros I;
    repeat match type of I with
           | _ \/ _ => destruct I as [I | I]
           | False => contradiction
           | _ = _ => subst k
           end.
  all: try solve [right; apply mem_In; reflexivity].
  all: left; (split; [apply mem_In; reflexivity | given]).
Qed.

Lemma builder_key_of_optional (x : Tool.t) (k : string) :
  In k (Tool.optional_names x) -> In k (builder_keys x) ->
  Call.mem k (map fst (sent_by_default x)) = true.
Proof.
  intros O B. apply In_mem.
  destruct x; simpl in *; tauto.
Qed.

Lemma get_not_mem {V} (k : string) (d : Dict.t V) :
  Call.mem k (map fst d) = false -> Dict.get k d = None.
Proof.
  intros M. apply get_None_not_in. intros I.
  apply In_mem in I. unfold Dict.keys in I. congruence.
Qed.

(** An optional parameter that the call leaves out has the entry of its
    default in the query, or none. *)
Lemma omitted_parameter (x : Tool.t) (kw : kwargs) (w : world) (p : params) (k : string) :
  Call.query x kw w = Some p ->
  In k (Tool.optional_names x) -> Dict.get k kw = None ->
  Dict.get k p = Dict.get k (sent_by_default x).
Proof.
  intros Q O N.
  destruct (Call.mem k (map fst (sent_by_default x))) eqn:D.
  - revert Q.
    destruct x; try discriminate D; simpl in O;
      (destruct O as [<- | [<- | [<- | []]]]; try discriminate D);
      unfold Call.query; cbn [Call.request]; intros H; unfold_builders H;
      unfold Call.opt in H; rewrite N in H;
      explore H; try discriminate H; injection H as <-; reflexivity.
  - rewrite (get_not_mem k (sent_by_default x) D).
    apply get_None_not_in. intros I.
    destruct (query_keys_own x kw w p k Q I) as [[_ M] | B].
    + unfold Dict.mem in M. rewrite N in M. discriminate.
    + pose proof (builder_key_of_optional x k O B). congruence.
Qed.

(** C6, as amended.  In the query a tool builds, an optional parameter
    that the call leaves out has no entry, unless its default is a text
    the builder sends: [timeframe] and [order] of [get_balance_sheet] and
    [get_cash_flow] are then sent as quarterly and desc.  Every key of the
    query is a parameter of that tool which the caller supplied, or a key
    the tool's own builder sets. *)
Theorem omitted_parameter_not_in_query
    (x : Tool.t) (kw : kwargs) (w : world) (p : params) (k : string) :
  Call.query x kw w = Some p ->
  (In k (Tool.optional_names x) -> Dict.get k kw = None ->
   Dict.get k p = Dict.get k (sent_by_default x)) /\
  (In k (Dict.keys p) ->
   (In k (Tool.param_names x) /\ Dict.mem k kw = true) \/ In k (builder_keys x)).
Proof.
  intros Q. split; [apply (omitted_parameter x kw w p k Q) | apply (query_keys_own x kw w p k Q)].
Qed.

(** The statement on a call of [search_tickers] that gives only [search]. *)
Lemma omitted_parameter_not_in_query_example :
  (In "limit" (Tool.optional_names Tool.search_tickers) ->
   Dict.get "limit" [("search", PStr "nvidia")] = None ->
   Dict.get "limit" [("search", PStr "nvidia")]
     = Dict.get "limit" (sent_by_default Tool.search_tickers)) /\
  (In "limit" (Dict.keys [("search", PStr "nvidia")]) ->
   (In "limit" (Tool.param_names Tool.search_tickers)
    /\ Dict.mem "limit" [("search", PStr "nvidia")] = true)
   \/ In "limit" (builder_keys Tool.search_tickers)).
Proof.
  apply (omitted_parameter_not_in_query Tool.search_tickers
           [("search", PStr "nvidia")] (stub None 200 (Body_json JNull))
           [("search", PStr "nvidia")] "limit").
  reflexivity.
Defined.

(** C6 as stated fails on [get_balance_sheet]: [timeframe] and [order] are
    optional, the call leaves them out, and the query has both. *)
Lemma balance_sheet_sends_defaults :
  Tool.optional_names Tool.get_balance_sheet = ["timeframe"; "limit"; "order"] /\
  Dict.get "timeframe" [("ticker", PStr "AAPL")] = None /\
  Call.query Tool.get_balance_sheet [("ticker", PStr "AAPL")]
    (stub None 200 (Body_json JNull))
    = Some [("ticker", PStr "AAPL"); ("timeframe", PStr "quarterly");
            ("order", PStr "desc")].
Proof. repeat split. Qed.

(* ================================================================== *)
(** * The credential in the requests of the tools *)
(* ================================================================== *)

Lemma distinct_NoDup (l : list string) : distinct l = true -> NoDup l.
Proof.
  induction l as [| k r IH]; simpl; intros H; constructor.
  - apply andb_true_iff in H. destruct H as [H _].
    intros I. apply In_mem in I. rewrite I in H. discriminate.
  - apply IH. apply andb_true_iff in H. tauto.
Qed.

Lemma query_of_request x kw w path p :
  Call.request x kw w = Some (Returned (path, p)) ->
  Call.query x kw w = Some (or_empty p).
Proof. unfold Call.query. intros ->. now destruct p. Qed.

(** The query a tool builds has no key twice and no [apiKey] entry. *)
Lemma built_query_wellformed x kw w path p :
  Call.request x kw w = Some (Returned (path, p)) ->
  NoDup (Dict.keys (or_empty p)) /\ Dict.get "apiKey" (or_empty p) = None.
Proof.
  intros R. split.
  - revert R.
    destruct x; cbn [Call.request]; intros H; unfold_builders H; explore H;
      try discriminate H; injection H as <- <-;
      apply distinct_NoDup; reflexivity.
  - apply get_None_not_in. intros I.
    destruct (query_keys_own x kw w _ "apiKey" (query_of_request x kw w path p R) I)
      as [[P _] | B].
    + apply In_mem in P. destruct x; discriminate P.
    + apply In_mem in B. destruct x; discriminate B.
Qed.

(** In every request a call of any tool sends, the credential is the last
    key of the query, there once, with the configured value. *)
Lemma every_tool_request_ends_with_credential
    (x : Tool.t) (kw : kwargs) (w : world) (s : sent) :
  In s (requests_of (Call.invoke x kw w)) ->
  exists key,
    POLYGON_API_KEY w = Some key /\
    Dict.get "apiKey" (sent_params s) = Some (PStr key) /\
    Dict.count_key "apiKey" (sent_params s) = 1%nat /\
    Dict.last_key (sent_params s) = Some "apiKey".
Proof.
  intros I.
  destruct (invoke_requests x kw w s I) as (path & p & R & I').
  destruct (built_query_wellformed x kw w path p R) as [N A].
  destruct (credential_assigned path p w s I' N) as (key & K & G & C & _ & L).
  exists key. auto.
Qed.

(* ================================================================== *)
(** * When a request is built *)
(* ================================================================== *)

(** A ticker that is a string has its [.upper()]. *)
Lemma text_upper (x : Tool.t) (kw : kwargs) (k : string) (e : exn) :
  text_argument x kw k = true ->
  Py.upper (Call.req kw k) = Raised e ->
  In k (Tool.required_names x) \/ Py.truthy (Call.req kw k) = true -> False.
Proof.
  unfold text_argument, Call.req.
  destruct (Dict.get k kw) as [[| | | | s | |] |]; try discriminate.
  intros N _ [I | T]; [| discriminate T].
  apply In_mem in I. rewrite I in N. discriminate N.
Qed.

Lemma printable_str (v : pyval) (e : exn) :
  printable v = true -> Py.str v = Raised e -> False.
Proof. unfold printable. intros P E. rewrite E in P. discriminate P. Qed.

Lemma printable_date_text (v : pyval) (e : exn) :
  printable v = true -> Py.str (date_text v) = Raised e -> False.
Proof.
  unfold date_text. destruct (Py.isinstance_date v); [discriminate |].
  apply printable_str.
Qed.

(** What cannot happen while a request is built from arguments that are
    text where a ticker is due and that can be written. *)
Ltac no_failure U S :=
  exfalso;
  match goal with
  | E : Py.upper (Call.req ?kw ?k) = Raised ?e |- _ =>
      apply (text_upper _ kw k e (U k ltac:(simpl; tauto)) E);
      first [ left; simpl; tauto | right; assumption ]
  | E : Py.upper (default PNone (Call.opt ?kw ?k)) = Raised ?e |- _ =>
      apply (text_upper _ kw k e (U k ltac:(simpl; tauto)) E);
      first [ left; simpl; tauto | right; assumption ]
  | E : Py.str (date_text (Call.req ?kw ?k)) = Raised ?e |- _ =>
      apply (printable_date_text _ e (S k ltac:(simpl; tauto)) E)
  | E : Py.str (Call.req ?kw ?k) = Raised ?e |- _ =>
      apply (printable_str _ e (S k ltac:(simpl; tauto)) E)
  | E : Py.str (default PNone (Call.opt ?kw ?k)) = Raised ?e |- _ =>
      apply (printable_str _ e (S k ltac:(simpl; tauto)) E)
  end.

(** Case analysis on what a builder evaluates, in the goal, in the order
    of evaluation. *)
Ltac build U S :=
  repeat (cbv beta iota delta [obind];
          match goal with
          | |- context [Py.upper ?v] =>
              destruct (Py.upper v) eqn:?; [| no_failure U S]
          | |- context [Py.str ?v] =>
              destruct (Py.str v) eqn:?; [| no_failure U S]
          | |- context [if ?c then _ else _] =>
              lazymatch c with
              | true => fail
              | false => fail
              | _ => destruct c eqn:?
              end
          end);
  cbv beta iota delta [obind].

(** With text where a ticker is due and arguments that can be written,
    the builder of a tool returns a request. *)
Lemma request_is_built (x : Tool.t) (kw : kwargs) (w : world) (r : outcome request) :
  passes_through x = true \/ x = Tool.get_intraday_aggregates ->
  text_arguments x kw = true ->
  printable_arguments x kw = true ->
  Call.request x kw w = Some r ->
  exists req, r = Returned req.
Proof.
  intros P T F R.
  assert (U : forall k, In k (uppercased x) -> text_argument x kw k = true).
  { apply forallb_forall. exact T. }
  assert (S : forall k, In k (formatted x) -> printable (Call.req kw k) = true).
  { apply (proj1 (forallb_forall _ _)). exact F. }
  clear T F. revert R.
  destruct x; (destruct P as [P | P]; try discriminate P); clear P;
    cbn [Call.request]; intros R; injection R as <-.
  all: unfold_builders_goal; cbv zeta.
  all: build U S.
  all: eexists; reflexivity.
Qed.

Lemma request_exists (x : Tool.t) (kw : kwargs) (w : world) :
  passes_through x = true \/ x = Tool.get_intraday_aggregates ->
  exists r, Call.request x kw w = Some r.
Proof.
  intros [P | ->]; [destruct x; try discriminate P |]; eexists; reflexivity.
Qed.

(** The tools that test an optional parameter fetch and print. *)
Lemma tested_tool (x : Tool.t) (k : string) :
  In k (tested_for_truth x) \/ In k (tested_for_None x) ->
  passes_through x = true \/ x = Tool.get_intraday_aggregates.
Proof. destruct x; cbn; tauto. Qed.

(** So the call has a query. *)
Lemma query_is_built (x : Tool.t) (kw : kwargs) (w : world) :
  passes_through x = true \/ x = Tool.get_intraday_aggregates ->
  text_arguments x kw = true ->
  printable_arguments x kw = true ->
  exists p, Call.query x kw w = Some p.
Proof.
  intros P T S.
  destruct (request_exists x kw w P) as [r R].
  destruct (request_is_built x kw w r P T S R) as [[path p] ->].
  exists (or_empty p). now apply (query_of_request x kw w path p).
Qed.

(* ================================================================== *)
(** * Falsy arguments *)
(* ================================================================== *)

(** A falsy value under a parameter that is tested by truthiness builds
    the request of the call without that argument. *)
Lemma falsy_as_omitted (x : Tool.t) (k : string) (kw : kwargs) (w : world) (v : pyval) :
  In k (tested_for_truth x) -> Py.truthy v = false -> Dict.get k kw = None ->
  Call.request x (Dict.set k v kw) w = Call.request x kw w.
Proof.
  intros T F N. change (Call.opt kw k = None) in N.
  destruct x; cbn in T;
    repeat match type of T with
           | _ \/ _ => destruct T as [T | T]
           | False => contradiction
           | _ = _ => subst k
           end.
  all: cbn [Call.request]; rebind.
  all: unfold_builders_goal; rewrite N; cbn [default];
    rewrite F; cbn [Py.truthy]; cbv zeta; reflexivity.
Qed.

(** [False] under a parameter that is tested with [is not None] is sent
    as the text false. *)
Lemma explicit_False_is_sent (x : Tool.t) (k : string) (kw : kwargs) (w : world) (p : params) :
  In k (tested_for_None x) ->
  Call.query x (Dict.set k (PBool false) kw) w = Some p ->
  Dict.get k p = Some (PStr "false").
Proof.
  intros T.
  destruct x; cbn in T;
    repeat match type of T with
           | _ \/ _ => destruct T as [T | T]
           | False => contradiction
           | _ = _ => subst k
           end.
  all: unfold Call.query; cbn [Call.request]; rebind; unfold_builders_goal;
    cbn [default Py.is_not_None Py.str]; cbv zeta; intros H; explore H;
    try discriminate H; injection H as <-; reflexivity.
Qed.

(** The parameters tested by truthiness, tool by tool. *)
Example tested_for_truth_table :
  map (fun x => (Tool.name x, tested_for_truth x))
      (filter (fun x => negb (Nat.eqb (List.length (tested_for_truth x)) 0)) Tool.all)
  = [("get_aggregates", ["sort"; "limit"]);
     ("search_tickers", ["search"; "type"; "market"; "limit"; "sort"; "order"]);
     ("get_ticker_news", ["ticker"; "published_utc"; "limit"; "sort"; "order"]);
     ("get_dividends",
      ["ticker"; "ex_dividend_date"; "frequency"; "dividend_type"; "limit"]);
     ("get_splits", ["ticker"; "execution_date"; "limit"]);
     ("get_treasury_yields", ["date"; "limit"; "sort"; "order"]);
     ("get_intraday_aggregates", ["sort"; "limit"; "include_otc"]);
     ("get_earnings", ["ticker"; "date"; "limit"; "sort"; "order"]);
     ("get_analyst_ratings", ["ticker"; "date"; "limit"; "sort"; "order"]);
     ("get_short_interest", ["ticker"; "settlement_date"; "limit"; "sort"; "order"]);
     ("get_options_contracts",
      ["contract_type"; "strike_price"; "expiration_date"; "limit"]);
     ("get_options_snapshot", ["strike_price"; "expiration_date"; "contract_type"]);
     ("get_balance_sheet", ["limit"]);
     ("get_cash_flow", ["limit"]);
     ("get_market_gainers_losers", ["include_otc"; "limit"]);
     ("get_inflation_data", ["date"; "limit"; "sort"])].
Proof. reflexivity. Qed.

(** A parameter tested by truthiness that the call leaves out has no
    entry in the query. *)
Lemma falsy_not_in_query (x : Tool.t) (k : string) (kw : kwargs) (w : world) (p : params) :
  In k (tested_for_truth x) -> Dict.get k kw = None ->
  Call.query x kw w = Some p -> Dict.get k p = None.
Proof.
  intros T N Q.
  unfold tested_for_truth in T. apply filter_In in T. destruct T as [O T].
  apply andb_true_iff in T. destruct T as [_ D]. apply negb_true_iff in D.
  rewrite (omitted_parameter x kw w p k Q O N).
  now apply get_not_mem.
Qed.

(** C9.  For every tool and every optional parameter it tests by
    truthiness, a falsy value (0, 0.0, the empty string, False, or any
    other) builds exactly the request that the call without the parameter
    builds; and when the arguments of that call are text where a ticker is
    due and can be written, this request is built, and its query has no
    entry for the parameter.  A parameter tested with [is not None]
    ([adjusted], [active], [reverse_split]) that is given as False is in
    the query as the text false, and the query is built under the same
    conditions on the arguments. *)
Theorem falsy_argument_builds_the_same_request
    (x : Tool.t) (k : string) (kw : kwargs) (w : world) :
  (forall v, In k (tested_for_truth x) -> Py.truthy v = false ->
             Dict.get k kw = None ->
             Call.request x (Dict.set k v kw) w = Call.request x kw w /\
             (text_arguments x kw = true -> printable_arguments x kw = true ->
              exists p, Call.query x (Dict.set k v kw) w = Some p /\
                        Call.query x kw w = Some p /\
                        Dict.get k p = None)) /\
  (In k (tested_for_None x) ->
   (forall p, Call.query x (Dict.set k (PBool false) kw) w = Some p ->
              Dict.get k p = Some (PStr "false")) /\
   (text_arguments x (Dict.set k (PBool false) kw) = true ->
    printable_arguments x (Dict.set k (PBool false) kw) = true ->
    exists p, Call.query x (Dict.set k (PBool false) kw) w = Some p)) /\
  map Py.truthy [PInt 0; PFloat "0.0"; PStr ""; PBool false]
    = [false; false; false; false].
Proof.
  split; [| split; [| reflexivity]].
  - intros v T F N.
    pose proof (falsy_as_omitted x k kw w v T F N) as E.
    split; [exact E |]. intros A S.
    destruct (query_is_built x kw w (tested_tool x k (or_introl T)) A S) as [p Q].
    exists p. unfold Call.query in *. rewrite E.
    split; [exact Q |]. split; [exact Q |].
    apply (falsy_not_in_query x k kw w p T N). exact Q.
  - intros T. split.
    + intros p Q. now apply (explicit_False_is_sent x k kw w p).
    + intros A S. apply (query_is_built x _ w (tested_tool x k (or_intror T)) A S).
Qed.

(** The statement on [get_dividends], where [limit = 0] is the call
    without [limit], and on [get_splits], where [reverse_split = False] is
    sent. *)
Lemma falsy_argument_builds_the_same_request_example :
  (exists p,
     Call.query Tool.get_dividends
       [("ticker", PStr "aapl"); ("limit", PInt 0)] (stub None 200 (Body_json JNull))
     = Some p /\
     Call.query Tool.get_dividends
       [("ticker", PStr "aapl")] (stub None 200 (Body_json JNull)) = Some p /\
     Dict.get "limit" p = None) /\
  (exists p,
     Call.query Tool.get_splits
       [("ticker", PStr "aapl"); ("reverse_split", PBool false)]
       (stub None 200 (Body_json JNull)) = Some p /\
     Dict.get "reverse_split" p = Some (PStr "false")).
Proof.
  split.
  - apply (proj2 (proj1 (falsy_argument_builds_the_same_request Tool.get_dividends "limit"
                           [("ticker", PStr "aapl")] (stub None 200 (Body_json JNull)))
                    (PInt 0) ltac:(simpl; tauto) eq_refl eq_refl));
      reflexivity.
  - destruct (proj1 (proj2 (falsy_argument_builds_the_same_request Tool.get_splits
                              "reverse_split" [("ticker", PStr "aapl")]
                              (stub None 200 (Body_json JNull))))
                ltac:(simpl; tauto)) as [V B].
    destruct (B eq_refl eq_refl) as [p Q].
    exists p. split; [exact Q | exact (V p Q)].
Defined.

(* ================================================================== *)
(** * Date arguments *)
(* ================================================================== *)

(** A property checked on every integer of a range holds on the range. *)
Lemma range_check (f : Z -> bool) (lo hi : Z) :
  forallb (fun i => f (lo + Z.of_nat i)) (seq 0 (Z.to_nat (hi - lo))) = true ->
  forall z, lo <= z < hi -> f z = true.
Proof.
  intros H z R. rewrite forallb_forall in H.
  specialize (H (Z.to_nat (z - lo))).
  replace (lo + Z.of_nat (Z.to_nat (z - lo))) with z in H by lia.
  apply H. apply in_seq. lia.
Qed.

Lemma year_text y : 1000 <= y <= 9999 -> all_digits_of_length 4 (Text.of_Z y) = true.
Proof.
  intros R.
  apply (range_check (fun y => all_digits_of_length 4 (Text.of_Z y)) 1000 10000).
  - vm_compute. reflexivity.
  - lia.
Qed.

Lemma two_digits_text n : 0 <= n <= 99 -> all_digits_of_length 2 (Text.digits 2 n) = true.
Proof.
  intros R.
  apply (range_check (fun n => all_digits_of_length 2 (Text.digits 2 n)) 0 100).
  - vm_compute. reflexivity.
  - lia.
Qed.

Lemma fmt_Ymd_shape y m d :
  four_digit_day (y, m, d) -> is_YYYY_MM_DD (Datetime.fmt_Ymd y m d) = true.
Proof.
  intros (Y & M & D). unfold Datetime.fmt_Ymd.
  pose proof (year_text y Y) as HY.
  pose proof (two_digits_text m ltac:(lia)) as HM.
  pose proof (two_digits_text d ltac:(lia)) as HD.
  unfold all_digits_of_length in *.
  destruct (Text.of_Z y) as [| y1 [| y2 [| y3 [| y4 [| ? ?]]]]]; try discriminate HY.
  destruct (Text.digits 2 m) as [| m1 [| m2 [| ? ?]]]; try discriminate HM.
  destruct (Text.digits 2 d) as [| d1 [| d2 [| ? ?]]]; try discriminate HD.
  cbn [String.length forallb list_ascii_of_string Nat.eqb andb] in HY, HM, HD.
  repeat match goal with
         | H : _ && _ = true |- _ => apply andb_true_iff in H; destruct H
         end.
  cbn [append is_YYYY_MM_DD].
  repeat match goal with
         | H : is_digit _ = true |- _ => rewrite H; clear H
         end.
  reflexivity.
Qed.

(** A date or datetime object under a date parameter builds the request
    of its [%Y-%m-%d] text. *)
Lemma date_object_as_text (x : Tool.t) (k : string) (v : pyval) (kw : kwargs) (w : world) :
  takes_dates x = true -> In k date_parameters -> Py.isinstance_date v = true ->
  Call.request x (Dict.set k v kw) w
    = Call.request x (Dict.set k (PStr (Py.strftime_Ymd v)) kw) w.
Proof.
  intros T K D.
  assert (E : date_text v = PStr (Py.strftime_Ymd v)).
  { unfold date_text. now rewrite D. }
  destruct x; try discriminate T;
    (destruct K as [<- | [<- | []]]);
    cbn [Call.request]; rebind;
    unfold get_aggregates_request, get_intraday_aggregates_request;
    rewrite E; reflexivity.
Qed.

(** C4, as amended.  For the date arguments of [get_aggregates] and
    [get_intraday_aggregates], a [date] or [datetime] object builds exactly
    the request (path and query) that its [%Y-%m-%d] text builds; for a
    calendar day with a four-digit year that text has the form YYYY-MM-DD;
    and for a datetime made from an epoch value it is the UTC day of that
    instant.  (An argument that is an [int] or a [str] goes into the path
    as it is.) *)
Theorem date_object_builds_the_request_of_its_iso_text
    (x : Tool.t) (k : string) (v : pyval) (kw : kwargs) (w : world) :
  takes_dates x = true -> In k date_parameters -> Py.isinstance_date v = true ->
  Call.request x (Dict.set k v kw) w
    = Call.request x (Dict.set k (PStr (Py.strftime_Ymd v)) kw) w /\
  (four_digit_day (ymd_of v) -> is_YYYY_MM_DD (Py.strftime_Ymd v) = true) /\
  (forall dt, v = PDatetime (Datetime.fields dt) ->
              Py.strftime_Ymd v = Datetime.strftime_Ymd dt).
Proof.
  intros T K D. repeat split.
  - now apply date_object_as_text.
  - destruct v; try discriminate D; simpl; apply fmt_Ymd_shape.
  - intros dt ->. reflexivity.
Qed.

(** The statement on a call of [get_aggregates] from 1 January 2024, given
    as a date object. *)
Lemma date_object_builds_the_request_of_its_iso_text_example :
  Call.request Tool.get_aggregates
    [("ticker", PStr "nvda"); ("multiplier", PInt 1); ("timespan", PStr "day");
     ("to_date", PStr "2024-01-31"); ("from_date", PDate (Date 2024 1 1))]
    (stub None 200 (Body_json JNull))
  = Call.request Tool.get_aggregates
      [("ticker", PStr "nvda"); ("multiplier", PInt 1); ("timespan", PStr "day");
       ("to_date", PStr "2024-01-31"); ("from_date", PStr "2024-01-01")]
      (stub None 200 (Body_json JNull)) /\
  is_YYYY_MM_DD (Py.strftime_Ymd (PDate (Date 2024 1 1))) = true.
Proof.
  destruct (date_object_builds_the_request_of_its_iso_text Tool.get_aggregates
              "from_date" (PDate (Date 2024 1 1))
              [("ticker", PStr "nvda"); ("multiplier", PInt 1); ("timespan", PStr "day");
               ("to_date", PStr "2024-01-31")]
              (stub None 200 (Body_json JNull)))
    as (R & S & _);
    [reflexivity | simpl; tauto | reflexivity |].
  split; [exact R | apply S; simpl; lia].
Defined.

(** C4 as stated fails on an epoch given as an [int]: 1704067200000 ms is
    1 January 2024 (UTC), and the path carries the number, not the day. *)
Lemma epoch_int_goes_into_the_path_unchanged :
  Op.fromtimestamp_ms (JInt 1704067200000) = Returned (Datetime.At 1704067200 0) /\
  Datetime.strftime_Ymd (Datetime.At 1704067200 0) = "2024-01-01" /\
  Call.path Tool.get_aggregates
    [("ticker", PStr "nvda"); ("multiplier", PInt 1); ("timespan", PStr "day");
     ("from_date", PInt 1704067200000); ("to_date", PStr "2024-01-31")]
    (stub None 200 (Body_json JNull))
  = Some "/v2/aggs/ticker/NVDA/range/1/day/1704067200000/2024-01-31" /\
  Call.path Tool.get_aggregates
    [("ticker", PStr "nvda"); ("multiplier", PInt 1); ("timespan", PStr "day");
     ("from_date", PStr "2024-01-01"); ("to_date", PStr "2024-01-31")]
    (stub None 200 (Body_json JNull))
  = Some "/v2/aggs/ticker/NVDA/range/1/day/2024-01-01/2024-01-31".
Proof. repeat split; vm_compute; reflexivity. Qed.

(* ================================================================== *)
(** * What a tool returns for a body *)
(* ================================================================== *)

(** Fetch-then-print against an upstream that answers. *)
Lemma fetch_and_dump_answered (r : outcome request) (req : request)
      (w : world) (key : string) (b : json) :
  r = Returned req -> has_key w key -> answers w b ->
  result_of (or_error (fetch_and_dump r) w) = Returned (Json.dumps b).
Proof.
  intros -> K A. destruct req as [path p].
  unfold fetch_and_dump. erewrite or_error_returned; [reflexivity |].
  unfold bind at 1. unfold lift at 1. cbn [fst snd app].
  unfold bind. rewrite (polygon_get_answered w key b path p K A).
  reflexivity.
Qed.

Lemma body_of_pass_through (x : Tool.t) (kw : kwargs) (w : world) (r : outcome request) :
  passes_through x = true ->
  Call.request x kw w = Some r ->
  Call.body x kw = or_error (fetch_and_dump r).
Proof.
  intros P R. destruct x; try discriminate P;
    cbn [Call.request] in R; injection R as <-; reflexivity.
Qed.

Lemma invoke_checked (x : Tool.t) (kw : kwargs) (w : world) :
  Call.check_args x kw = Returned tt ->
  result_of (Call.invoke x kw w) = result_of (Call.body x kw w).
Proof.
  intros C. unfold Call.invoke, bind, lift, result_of. rewrite C.
  now destruct (Call.body x kw w).
Qed.

Lemma intraday_answered (r : outcome request) (req : request)
      (w : world) (key : string) (b : json) :
  r = Returned req -> has_key w key -> answers w b ->
  result_of (or_error
               (req <- lift r ;;
                data <- _polygon_get (fst req) (snd req) ;;
                data <- lift (add_sessions data) ;;
                ret (Json.dumps data))%M w)
  = Returned (printed (add_sessions b)).
Proof.
  intros -> K A. destruct req as [path p].
  unfold printed.
  destruct (add_sessions b) as [b' | e] eqn:S.
  - erewrite or_error_returned; [reflexivity |].
    unfold bind at 1. unfold lift at 1. cbn [fst snd app].
    unfold bind at 1. rewrite (polygon_get_answered w key b path p K A).
    unfold bind, lift, ret. rewrite S. reflexivity.
  - erewrite or_error_raised; [reflexivity |].
    unfold bind at 1. unfold lift at 1. cbn [fst snd app].
    unfold bind at 1. rewrite (polygon_get_answered w key b path p K A).
    unfold bind, lift, ret. rewrite S. reflexivity.
Qed.

(** C3, as amended.  A tool whose body is build, fetch, print (twenty-one
    of the tools), called with all required arguments, its ticker argument
    a string, no [int] of more than 4300 digits among the arguments it
    writes into the path or into a flag, a configured credential and an
    upstream that answers every request with a status that is no error and
    the JSON body [b], returns [json.dumps(b, indent=2)].
    [get_intraday_aggregates] returns the print of [b] with the session
    augmentation applied, or the error text when the augmentation
    raises. *)
Theorem tool_returns_the_printed_body
    (x : Tool.t) (kw : kwargs) (w : world) (key : string) (b : json)
    (f : json -> outcome json) :
  body_pass x = Some f ->
  Call.check_args x kw = Returned tt ->
  text_arguments x kw = true ->
  printable_arguments x kw = true ->
  has_key w key ->
  answers w b ->
  result_of (Call.invoke x kw w) = Returned (printed (f b)) /\
  (passes_through x = true -> printed (f b) = Json.dumps b).
Proof.
  intros F C T S K A.
  rewrite (invoke_checked x kw w C).
  unfold body_pass in F.
  destruct (passes_through x) eqn:P.
  - injection F as <-. split; [| reflexivity].
    destruct (request_exists x kw w (or_introl P)) as [r R].
    destruct (request_is_built x kw w r (or_introl P) T S R) as [req E].
    rewrite (body_of_pass_through x kw w r P R).
    apply (fetch_and_dump_answered r req w key b E K A).
  - split; [| discriminate].
    destruct x; try discriminate F. injection F as <-.
    destruct (request_is_built Tool.get_intraday_aggregates kw w _
                (or_intror eq_refl) T S eq_refl) as [req E].
    cbn [Call.body]. unfold get_intraday_aggregates.
    apply (intraday_answered _ req w key b E K A).
Qed.

(** The statement on [get_last_trade]. *)
Lemma tool_returns_the_printed_body_example :
  result_of (Call.invoke Tool.get_last_trade [("ticker", PStr "nvda")]
               (stub (Some "KEY") 200
                  (Body_json (JDict [("status", JStr "OK"); ("price", JFloat "481.5")]))))
  = Returned (Json.dumps (JDict [("status", JStr "OK"); ("price", JFloat "481.5")])).
Proof.
  destruct (tool_returns_the_printed_body Tool.get_last_trade [("ticker", PStr "nvda")]
              (stub (Some "KEY") 200
                 (Body_json (JDict [("status", JStr "OK"); ("price", JFloat "481.5")])))
              "KEY" (JDict [("status", JStr "OK"); ("price", JFloat "481.5")]) Returned)
    as [R _].
  - reflexivity.
  - reflexivity.
  - reflexivity.
  - reflexivity.
  - apply stub_has_key. discriminate.
  - apply stub_answers.
  - exact R.
Defined.

(** C3 as stated fails on [stock_price]: with its required argument and an
    upstream that returns a fixed body, it returns a sentence about the
    closing prices, not the body. *)
Lemma stock_price_returns_a_sentence :
  Call.check_args Tool.stock_price [("stock_ticker", PStr "NVDA")] = Returned tt /\
  result_of
    (Call.invoke Tool.stock_price [("stock_ticker", PStr "NVDA")]
       (stub (Some "KEY") 200
          (Body_json (JDict [("ticker", JStr "NVDA");
                             ("results", JList [JDict [("t", JInt 1704171600000);
                                                       ("c", JFloat "481.5")]])]))))
  = Returned "Stock price over the last month for NVDA: [{'date': '2024-01-02', 'close': 481.5}]" /\
  String.eqb
    "Stock price over the last month for NVDA: [{'date': '2024-01-02', 'close': 481.5}]"
    (Json.dumps (JDict [("ticker", JStr "NVDA");
                        ("results", JList [JDict [("t", JInt 1704171600000);
                                                  ("c", JFloat "481.5")]])]))
  = false.
Proof. repeat split; vm_compute; reflexivity. Qed.

(* ================================================================== *)
(** * The session augmentation *)
(* ================================================================== *)

(** [timedelta(hours=h)] moves the instant by [h] hours. *)
Lemma add_hours_seconds (utc et : Datetime.t) (h : Z) :
  Datetime.add_hours utc h = Returned et ->
  Datetime.seconds et = Datetime.seconds utc + h * 3600 /\
  Datetime.microsecond et = Datetime.microsecond utc.
Proof.
  unfold Datetime.add_hours, Datetime.add_seconds.
  destruct (Datetime.year_ok _); [| discriminate].
  intros E. injection E as <-. split; reflexivity.
Qed.

Lemma for_each_Forall2 {A B} (f : A -> outcome B) (l : list A) (l' : list B) :
  Op.for_each f l = Returned l' ->
  Forall2 (fun a b => f a = Returned b) l l'.
Proof.
  revert l'. induction l as [| a r IH]; simpl; intros l' H.
  - injection H as <-. constructor.
  - destruct (f a) as [b |] eqn:E; [| discriminate]. simpl in H.
    destruct (Op.for_each f r) as [bs |]; [| discriminate]. simpl in H.
    injection H as <-. constructor; auto.
Qed.

(** What [add_session] returns: the bar itself, or the bar with the two
    keys set. *)
Lemma add_session_cases (bar bar' : json) :
  add_session bar = Returned bar' ->
  (field "t" bar = None /\ bar' = bar) \/
  exists d t utc et,
    bar = JDict d /\ Dict.get "t" d = Some t /\
    Op.fromtimestamp_ms t = Returned utc /\
    Datetime.add_hours utc (-5) = Returned et /\
    bar' = JDict (Dict.set "et_time" (et_text et)
                    (Dict.set "market_session" (session_of et) d)).
Proof.
  unfold add_session.
  destruct bar as [| b | n | r | s | l | d]; cbn [Op.contains raise_ obind];
    try discriminate.
  - destruct (Text.is_substring "t" s); cbn [Op.subscript raise_ obind].
    + discriminate.
    + intros E. injection E as <-. left. split; reflexivity.
  - destruct (existsb (Op.is_str "t") l); cbn [Op.subscript raise_ obind].
    + discriminate.
    + intros E. injection E as <-. left. split; reflexivity.
  - unfold Dict.mem. cbn [Op.subscript field].
    destruct (Dict.get "t" d) as [t |] eqn:G; cbn [obind].
    + destruct (Op.fromtimestamp_ms t) as [utc |] eqn:U; cbn [obind]; [| discriminate].
      destruct (Datetime.add_hours utc (-5)) as [et |] eqn:E; cbn [obind Op.setitem];
        [| discriminate].
      intros H. injection H as <-. right. exists d, t, utc, et. auto.
    + intros E. injection E as <-. left. split; reflexivity.
Qed.

Lemma add_session_augments (bar bar' : json) :
  add_session bar = Returned bar' -> bar_augmented bar bar'.
Proof.
  intros H. destruct (add_session_cases bar bar' H)
    as [[N ->] | (d & t & utc & et & -> & G & U & E & ->)].
  - repeat split; auto. intros t T. congruence.
  - apply add_hours_seconds in E. destruct E as [S M].
    repeat split.
    + intros k K1 K2. cbn [field].
      rewrite get_set_other by congruence. rewrite get_set_other by congruence.
      reflexivity.
    + cbn [field]. intros t' T. rewrite G in T. injection T as <-.
      exists utc, et.
      split; [exact U |]. split; [lia |]. split; [exact M |]. split.
      * rewrite get_set_other by discriminate. apply get_set_same.
      * apply get_set_same.
    + cbn [field]. congruence.
Qed.

Lemma add_sessions_cases (data data' : json) :
  add_sessions data = Returned data' ->
  (data' = data /\
   forall items, field "results" data = Some (JList items) -> items = []) \/
  exists d items items',
    data = JDict d /\ Dict.get "results" d = Some (JList items) /\
    Op.for_each add_session items = Returned items' /\
    data' = JDict (Dict.set "results" (JList items') d).
Proof.
  unfold add_sessions.
  destruct data as [| b | n | r | s | l | d]; cbn [Op.contains raise_ obind];
    try discriminate.
  - destruct (Text.is_substring "results" s); cbn [Op.subscript raise_ obind].
    + discriminate.
    + intros E. injection E as <-. left. split; [reflexivity | discriminate].
  - destruct (existsb (Op.is_str "results") l); cbn [Op.subscript raise_ obind].
    + discriminate.
    + intros E. injection E as <-. left. split; [reflexivity | discriminate].
  - unfold Dict.mem. cbn [Op.subscript field].
    destruct (Dict.get "results" d) as [results |] eqn:G; cbn [obind].
    + destruct (Json.truthy results) eqn:T.
      * destruct (Op.iterate results) as [items |] eqn:I; cbn [obind]; [| discriminate].
        destruct (Op.for_each add_session items) as [items' |] eqn:F; cbn [obind];
          [| discriminate].
        destruct results;
          try (intros E; injection E as <-; left; split; [reflexivity | discriminate]).
        cbn [Op.iterate] in I. injection I as ->. cbn [Op.setitem].
        intros E. injection E as <-. right. exists d, items, items'. auto.
      * intros E. injection E as <-. left. split; [reflexivity |].
        intros items E. injection E as ->. now destruct items.
    + intros E. injection E as <-. left. split; [reflexivity | discriminate].
Qed.

Lemma keys_set_existing {V} (k : string) (v v0 : V) (d : Dict.t V) :
  Dict.get k d = Some v0 -> Dict.keys (Dict.set k v d) = Dict.keys d.
Proof. intros G. apply keys_set_present. congruence. Qed.

(** What [convert_utc_to_et] puts into its document. *)
Lemma convert_utc_to_et_document (v : pyval) (doc : json) :
  convert_utc_to_et_result v = Returned doc ->
  exists utc et ts,
    Op.fromtimestamp v = Returned utc /\
    Datetime.seconds et = Datetime.seconds utc - 5 * 3600 /\
    Datetime.microsecond et = Datetime.microsecond utc /\
    doc = JDict [("utc_timestamp", ts);
                 ("utc_datetime", JStr (Datetime.strftime_Ymd_HMS "UTC" utc));
                 ("et_datetime", et_text et);
                 ("market_session", session_of et)].
Proof.
  unfold convert_utc_to_et_result.
  destruct (Op.fromtimestamp v) as [utc |] eqn:U; cbn [obind]; [| discriminate].
  destruct (Datetime.add_hours utc et_offset_hours) as [et |] eqn:E; cbn [obind];
    [| discriminate].
  destruct (Py.to_json v) as [ts |]; cbn [obind]; [| discriminate].
  intros H. injection H as <-.
  apply add_hours_seconds in E. destruct E as [S M]. unfold et_offset_hours in S.
  exists utc, et, ts. split; [reflexivity |]. split; [lia |]. split; [exact M |].
  reflexivity.
Qed.

(** The loop returns when its body returns on every item. *)
Lemma for_each_returns {A B} (f : A -> outcome B) (l : list A) :
  Forall (fun a => exists b, f a = Returned b) l ->
  exists l', Op.for_each f l = Returned l'.
Proof.
  induction 1 as [| a r [b E] _ [bs IH]]; simpl.
  - eexists. reflexivity.
  - rewrite E. cbn [obind]. rewrite IH. eexists. reflexivity.
Qed.

(** So does the body of the loop on a bar it can work on. *)
Lemma add_session_accepted (bar : json) :
  bar_accepted bar -> exists bar', add_session bar = Returned bar'.
Proof.
  intros (b & -> & [N | (t & utc & et & G & U & E)]);
    unfold add_session; cbn [Op.contains Op.subscript obind]; unfold Dict.mem.
  - rewrite N. eexists. reflexivity.
  - rewrite G. cbn [obind]. rewrite U. cbn [obind]. rewrite E. cbn [obind Op.setitem].
    eexists. reflexivity.
Qed.

(** The augmentation returns on a body whose bars it can work on. *)
Lemma add_sessions_returns (data : json) (items : list json) :
  field "results" data = Some (JList items) ->
  Forall bar_accepted items ->
  exists data', add_sessions data = Returned data'.
Proof.
  intros G F. destruct data as [| | | | | | d]; try discriminate G. cbn [field] in G.
  unfold add_sessions. cbn [Op.contains Op.subscript obind]. unfold Dict.mem.
  rewrite G. cbn [obind].
  destruct items as [| bar r]; [eexists; reflexivity |].
  cbn [Json.truthy Op.iterate obind].
  destruct (for_each_returns add_session (bar :: r)) as [items' E].
  { revert F. apply Forall_impl. exact add_session_accepted. }
  rewrite E. cbn [obind Op.setitem]. eexists. reflexivity.
Qed.

(** It returns a body without [results], or with an empty one, as it
    is. *)
Lemma add_sessions_without_results (data : json) (d : list (string * json)) :
  data = JDict d ->
  (forall v, Dict.get "results" d = Some v -> Json.truthy v = false) ->
  add_sessions data = Returned data.
Proof.
  intros -> F. unfold add_sessions. cbn [Op.contains Op.subscript obind].
  unfold Dict.mem. destruct (Dict.get "results" d) as [v |]; [| reflexivity].
  cbn [obind]. now rewrite (F v eq_refl).
Qed.

(** C8, as amended.  When the augmentation of [get_intraday_aggregates]
    returns, it has left every top-level entry but [results] as it is and
    kept the keys of the body in place; where [results] is a list it has
    changed it bar by bar: in a bar, every field other than
    [market_session] and [et_time] keeps its upstream value; a bar with a
    timestamp [t] has these two keys set, computed at the fixed offset of
    five hours behind the UTC instant of [t]; a bar without [t] is
    unchanged; and where [results] is no list the body is unchanged.  It
    returns whenever every bar is an object without [t], or with a [t]
    that is the timestamp of an instant [datetime] holds five hours
    earlier too; and it returns an object without [results], or with a
    falsy one, as it is.  [convert_utc_to_et] applies the same offset and
    classifier and returns a new document with the keys [utc_timestamp],
    [utc_datetime], [et_datetime] and [market_session]. *)
Theorem session_augmentation_keeps_other_fields (data : json) :
  (forall data', add_sessions data = Returned data' ->
     (forall k, k <> "results" -> field k data' = field k data) /\
     (forall d, data = JDict d ->
        exists d', data' = JDict d' /\ Dict.keys d' = Dict.keys d) /\
     (forall items, field "results" data = Some (JList items) ->
        exists items',
          field "results" data' = Some (JList items') /\
          Forall2 bar_augmented items items') /\
     ((forall items, field "results" data <> Some (JList items)) -> data' = data)) /\
  (forall items, field "results" data = Some (JList items) ->
     Forall bar_accepted items ->
     exists data', add_sessions data = Returned data') /\
  (forall d, data = JDict d ->
     (forall v, Dict.get "results" d = Some v -> Json.truthy v = false) ->
     add_sessions data = Returned data) /\
  (forall v doc, convert_utc_to_et_result v = Returned doc ->
     exists utc et ts,
       Op.fromtimestamp v = Returned utc /\
       Datetime.seconds et = Datetime.seconds utc - 5 * 3600 /\
       Datetime.microsecond et = Datetime.microsecond utc /\
       doc = JDict [("utc_timestamp", ts);
                    ("utc_datetime", JStr (Datetime.strftime_Ymd_HMS "UTC" utc));
                    ("et_datetime", et_text et);
                    ("market_session", session_of et)]).
Proof.
  split; [| split; [apply add_sessions_returns
                   | split; [apply add_sessions_without_results
                            | apply convert_utc_to_et_document]]].
  intros data' H.
  destruct (add_sessions_cases data data' H)
    as [[-> E] | (d & items & items' & -> & G & F & ->)].
  - split; [auto | split; [| split]].
    + intros d ->. eexists. split; reflexivity.
    + intros items G. exists items. split; [exact G |].
      rewrite (E items G). constructor.
    + auto.
  - split; [| split; [| split]].
    + intros k K. cbn [field]. apply get_set_other. congruence.
    + intros d0 E. injection E as <-. eexists. split; [reflexivity |].
      now apply keys_set_existing with (v0 := JList items).
    + intros items0 G0. cbn [field] in G0. rewrite G in G0. injection G0 as <-.
      exists items'. cbn [field]. split; [apply get_set_same |].
      apply for_each_Forall2 in F.
      revert F. apply Forall2_impl. exact add_session_augments.
    + intros N. exfalso. apply (N items). exact G.
Qed.

(** The statement on a body with one bar, whose [ticker] entry is kept,
    and on a body with two bars, one of them without [t]. *)
Lemma session_augmentation_keeps_other_fields_example :
  field "ticker"
    (JDict [("ticker", JStr "NVDA");
            ("results", JList [JDict [("t", JInt 1704119400000);
                                      ("market_session", JStr "regular_market");
                                      ("et_time", JStr "2024-01-01 09:30:00 ET")]])])
  = field "ticker"
      (JDict [("ticker", JStr "NVDA");
              ("results", JList [JDict [("t", JInt 1704119400000)]])]) /\
  exists data',
    add_sessions (JDict [("ticker", JStr "NVDA");
                         ("results", JList [JDict [("t", JInt 1704119400000)];
                                            JDict [("c", JFloat "481.5")]])])
    = Returned data'.
Proof.
  split.
  - apply (proj1 (proj1 (session_augmentation_keeps_other_fields
                    (JDict [("ticker", JStr "NVDA");
                            ("results", JList [JDict [("t", JInt 1704119400000)]])]))
                    (JDict [("ticker", JStr "NVDA");
                            ("results",
                             JList [JDict [("t", JInt 1704119400000);
                                           ("market_session", JStr "regular_market");
                                           ("et_time", JStr "2024-01-01 09:30:00 ET")]])])
                    eq_refl)).
    discriminate.
  - apply (proj1 (proj2 (session_augmentation_keeps_other_fields
                    (JDict [("ticker", JStr "NVDA");
                            ("results", JList [JDict [("t", JInt 1704119400000)];
                                               JDict [("c", JFloat "481.5")]])])))
             [JDict [("t", JInt 1704119400000)]; JDict [("c", JFloat "481.5")]] eq_refl).
    repeat constructor.
    + eexists. split; [reflexivity |]. right.
      exists (JInt 1704119400000), (Datetime.At 1704119400 0), (Datetime.At 1704101400 0).
      repeat split.
    + eexists. split; [reflexivity |]. left. reflexivity.
Defined.

(** C8 as stated fails on a bar that already has a [market_session] field:
    the upstream value is replaced. *)
Lemma upstream_session_field_is_overwritten :
  field "market_session"
    (JDict [("t", JInt 1704119400000); ("market_session", JStr "upstream")])
  = Some (JStr "upstream") /\
  add_sessions
    (JDict [("results",
             JList [JDict [("t", JInt 1704119400000);
                           ("market_session", JStr "upstream")]])])
  = Returned
      (JDict [("results",
               JList [JDict [("t", JInt 1704119400000);
                             ("market_session", JStr "regular_market");
                             ("et_time", JStr "2024-01-01 09:30:00 ET")]])]) /\
  result_of
    (Call.invoke Tool.get_intraday_aggregates
       [("ticker", PStr "nvda"); ("multiplier", PInt 5); ("timespan", PStr "minute");
        ("from_date", PStr "2024-01-01"); ("to_date", PStr "2024-01-01")]
       (stub (Some "KEY") 200
          (Body_json
             (JDict [("results",
                      JList [JDict [("t", JInt 1704119400000);
                                    ("market_session", JStr "upstream")]])]))))
  = Returned
      (Json.dumps
         (JDict [("results",
                  JList [JDict [("t", JInt 1704119400000);
                                ("market_session", JStr "regular_market");
                                ("et_time", JStr "2024-01-01 09:30:00 ET")]])])).
Proof. repeat split; vm_compute; reflexivity. Qed.

(* ================================================================== *)
(** * The requests of a call *)
(* ================================================================== *)

Lemma some_inj {A} (a b : A) : Some a = Some b -> a = b.
Proof. congruence. Qed.

Lemma or_empty_copy (p : option params) :
  Dict.copy match p with
            | Some d => match d with [] => [] | _ => d end
            | None => []
            end = or_empty p.
Proof. destruct p as [[|]|]; reflexivity. Qed.

Lemma credential_None (w : world) :
  POLYGON_API_KEY w = None \/ POLYGON_API_KEY w = Some "" -> credential w = None.
Proof. unfold credential. now intros [-> | ->]. Qed.

Lemma credential_has_key (w : world) (key : string) :
  has_key w key -> credential w = Some key.
Proof.
  intros [K N]. unfold credential. rewrite K.
  destruct (String.eqb_spec key ""); [contradiction | reflexivity].
Qed.

Lemma credential_Some (w : world) (key : string) :
  credential w = Some key -> has_key w key.
Proof.
  unfold credential, has_key. destruct (POLYGON_API_KEY w) as [k |]; [| discriminate].
  destruct (String.eqb_spec k ""); [discriminate |].
  intros E. injection E as <-. auto.
Qed.

(** What [_polygon_get] sends: one request when there is a credential,
    whatever the upstream then does. *)
Lemma polygon_get_sends (path : string) (p : option params) (w : world) :
  requests_of (_polygon_get path p w) =
  match credential w with
  | Some key => [Sent (base_url ++ path) (Dict.set "apiKey" (PStr key) (or_empty p)) 20]
  | None => []
  end.
Proof.
  unfold _polygon_get, bind, _require_polygon_api_key, http_get, requests_of, credential.
  destruct (POLYGON_API_KEY w) as [key |]; [| reflexivity].
  destruct (String.eqb key ""); cbn [negb]; [reflexivity |].
  rewrite or_empty_copy. cbn [app].
  destruct (requests_get w _ _ _) as [r | e]; cbn [lift fst snd]; [| reflexivity].
  destruct (raise_for_status r) as [[] | e]; cbn [app snd]; [| reflexivity].
  destruct (response_json r); reflexivity.
Qed.

Lemma polygon_get_no_credential (path : string) (p : option params) (w : world) :
  credential w = None ->
  _polygon_get path p w =
    (Raised (Exn RuntimeError "POLYGON_API_KEY environment variable is not set"), []).
Proof.
  unfold credential, _polygon_get, bind, _require_polygon_api_key.
  destruct (POLYGON_API_KEY w) as [key |]; [| reflexivity].
  destruct (String.eqb key ""); [reflexivity | discriminate].
Qed.

Lemma polygon_get_failed (path : string) (p : option params) (w : world)
      (key : string) (e : exn) :
  has_key w key ->
  fetch_error (requests_get w (base_url ++ path)
                 (Dict.set "apiKey" (PStr key) (or_empty p)) 20) = Some e ->
  _polygon_get path p w =
    (Raised e, [Sent (base_url ++ path) (Dict.set "apiKey" (PStr key) (or_empty p)) 20]).
Proof.
  intros [K NE] F.
  unfold _polygon_get, bind, _require_polygon_api_key, http_get, lift. rewrite K.
  destruct (String.eqb_spec key ""); [contradiction |]. cbn [negb].
  rewrite or_empty_copy. unfold fetch_error in F.
  destruct (requests_get w _ _ _) as [r | e'].
  - destruct (raise_for_status r) as [[] | e'].
    + destruct (response_json r) as [v | e']; [discriminate |].
      injection F as ->. reflexivity.
    + injection F as ->. reflexivity.
  - injection F as ->. reflexivity.
Qed.

(** A tool fetches once, then works on the body without sending. *)
Lemma fetch_then_sends (r : outcome request) (k : json -> M string) (w : world) :
  (forall data, silent (k data)) ->
  requests_of ((req <- lift r ;;
                data <- _polygon_get (fst req) (snd req) ;;
                k data)%M w)
  = match r with
    | Returned (path, p) => requests_of (_polygon_get path p w)
    | Raised _ => []
    end.
Proof.
  intros P. unfold bind at 1. unfold lift at 1.
  destruct r as [[path p] | e]; [| reflexivity].
  cbn [fst snd]. unfold bind.
  destruct (_polygon_get path p w) as [[data | e] l] eqn:G.
  - specialize (P data w). unfold requests_of in *.
    destruct (k data w) as [o l']. simpl in P. subst l'. simpl.
    now rewrite app_nil_r.
  - reflexivity.
Qed.

Ltac sends :=
  rewrite fetch_then_sends by silence;
  match goal with
  | |- context [match ?r with Returned _ => _ | Raised _ => _ end] =>
      destruct r as [[? ?] | ?]; reflexivity
  end.

Ltac sends_nothing :=
  match goal with
  | |- requests_of (?m ?w) = _ =>
      let H := fresh "H" in
      assert (H : silent m) by silence;
      rewrite (H w); reflexivity
  end.

Ltac unfold_tools :=
  unfold stock_info, income_statement,
    get_aggregates, get_previous_close, get_last_trade,
    get_last_quote, get_snapshot_ticker, get_market_status,
    search_tickers, get_ticker_news, get_dividends, get_splits,
    get_treasury_yields, get_earnings, get_analyst_ratings,
    get_short_interest, get_options_contracts, get_options_snapshot,
    get_balance_sheet, get_cash_flow, get_market_gainers_losers,
    get_market_holidays, get_inflation_data,
    get_intraday_aggregates, get_ticker_exchange_info,
    convert_utc_to_et, fetch_and_dump.

(** The requests of a call: those of the fetch of the request its tool
    built, once the arguments are bound. *)
Lemma invoke_sends (x : Tool.t) (kw : kwargs) (w : world) :
  requests_of (Call.invoke x kw w) =
  match Call.check_args x kw, Call.request x kw w with
  | Returned _, Some (Returned (path, p)) => requests_of (_polygon_get path p w)
  | _, _ => []
  end.
Proof.
  unfold Call.invoke. rewrite requests_bind. unfold lift at 1 2.
  unfold requests_of at 1, result_of. cbn [fst snd app].
  destruct (Call.check_args x kw) as [[] | e]; [| reflexivity].
  destruct x; cbn [Call.body Call.request]; unfold_tools;
    try rewrite requests_or_error.
  1: { (* stock_price reads the clock first *)
    unfold stock_price, datetime_now. rewrite requests_bind.
    unfold requests_of at 1, result_of. cbn [fst snd app].
    rewrite requests_bind. unfold lift at 1 2.
    unfold requests_of at 1, result_of. cbn [fst snd app].
    destruct (Datetime.add_days _ _) as [start_dt | e]; [| reflexivity].
    cbn [obind]. sends. }
  all: try solve [sends].
  all: sends_nothing.
Qed.

(** A tool whose fetch raises. *)
Lemma fetch_raises (r : outcome request) (k : json -> M string) (w : world)
      (path : string) (p : option params) (e : exn) (l : list sent) :
  r = Returned (path, p) ->
  _polygon_get path p w = (Raised e, l) ->
  (req <- lift r ;; data <- _polygon_get (fst req) (snd req) ;; k data)%M w
  = (Raised e, l).
Proof.
  intros -> G. unfold bind at 1. unfold lift at 1. cbn [fst snd app].
  unfold bind. rewrite G. reflexivity.
Qed.

(** A tool whose builder raises. *)
Lemma build_raises (r : outcome request) (k : json -> M string) (w : world) (e : exn) :
  r = Raised e ->
  (req <- lift r ;; data <- _polygon_get (fst req) (snd req) ;; k data)%M w
  = (Raised e, []).
Proof. intros ->. reflexivity. Qed.

(** The exception of the fetch leaves an unguarded tool and becomes the
    text of a guarded one. *)
Lemma invoke_fetch_raises (x : Tool.t) (kw : kwargs) (w : world)
      (path : string) (p : option params) (e : exn) (l : list sent) :
  Call.check_args x kw = Returned tt ->
  Call.request x kw w = Some (Returned (path, p)) ->
  _polygon_get path p w = (Raised e, l) ->
  Call.invoke x kw w
  = (if guarded x then Returned ("Error: " ++ str_exn e) else Raised e, l).
Proof.
  intros C R G.
  unfold Call.invoke. unfold bind at 1. unfold lift at 1. rewrite C.
  destruct x; cbn [Call.request] in R; try discriminate R;
    apply some_inj in R; cbn [Call.body guarded]; unfold_tools.
  1: { unfold stock_price, datetime_now. unfold bind at 1.
       unfold bind at 1. unfold lift at 1.
       destruct (Datetime.add_days _ _) as [start_dt | e']; [| discriminate R].
       cbn [obind] in R.
       rewrite (fetch_raises _ _ w path p e l R G). reflexivity. }
  all: try (rewrite (fetch_raises _ _ w path p e l R G); reflexivity).
  all: erewrite or_error_raised by (apply (fetch_raises _ _ w path p e l R G));
    reflexivity.
Qed.

(** So does the exception of the builder, and nothing is sent. *)
Lemma invoke_build_raises (x : Tool.t) (kw : kwargs) (w : world) (e : exn) :
  Call.check_args x kw = Returned tt ->
  Call.request x kw w = Some (Raised e) ->
  Call.invoke x kw w
  = (if guarded x then Returned ("Error: " ++ str_exn e) else Raised e, []).
Proof.
  intros C R.
  unfold Call.invoke. unfold bind at 1. unfold lift at 1. rewrite C.
  destruct x; cbn [Call.request] in R; try discriminate R;
    apply some_inj in R; cbn [Call.body guarded]; unfold_tools.
  1: { unfold stock_price, datetime_now. unfold bind at 1.
       unfold bind at 1. unfold lift at 1.
       destruct (Datetime.add_days _ _) as [start_dt | e'].
       - cbn [obind] in R. rewrite (build_raises _ _ w e R). reflexivity.
       - cbn [obind] in R. injection R as ->. reflexivity. }
  all: try (rewrite (build_raises _ _ w e R); reflexivity).
  all: erewrite or_error_raised by (apply (build_raises _ _ w e R));
    reflexivity.
Qed.

(** X1.  While [POLYGON_API_KEY] is unset or empty, no call of any tool
    sends a request, whatever its arguments; a tool that has bound its
    arguments and built its request then reports that the variable is not
    set: a guarded tool in its error text, [stock_price], [stock_info] and
    [income_statement] by the [RuntimeError] itself. *)
Theorem no_credential_no_request (x : Tool.t) (kw : kwargs) (w : world) :
  POLYGON_API_KEY w = None \/ POLYGON_API_KEY w = Some "" ->
  requests_of (Call.invoke x kw w) = [] /\
  (forall path p,
     Call.check_args x kw = Returned tt ->
     Call.request x kw w = Some (Returned (path, p)) ->
     result_of (Call.invoke x kw w)
     = if guarded x
       then Returned "Error: POLYGON_API_KEY environment variable is not set"
       else Raised (Exn RuntimeError "POLYGON_API_KEY environment variable is not set")).
Proof.
  intros K. apply credential_None in K. split.
  - rewrite invoke_sends.
    destruct (Call.check_args x kw); [| reflexivity].
    destruct (Call.request x kw w) as [[[path p] |] |]; try reflexivity.
    rewrite polygon_get_sends, K. reflexivity.
  - intros path p C R.
    rewrite (invoke_fetch_raises x kw w path p _ _ C R (polygon_get_no_credential path p w K)).
    unfold result_of. cbn [fst]. now destruct (guarded x).
Qed.

(** The statement on [get_last_trade] with an empty credential. *)
Lemma no_credential_no_request_example :
  requests_of (Call.invoke Tool.get_last_trade [("ticker", PStr "nvda")]
                 (stub (Some "") 200 (Body_json JNull))) = [] /\
  result_of (Call.invoke Tool.get_last_trade [("ticker", PStr "nvda")]
               (stub (Some "") 200 (Body_json JNull)))
  = Returned "Error: POLYGON_API_KEY environment variable is not set".
Proof.
  destruct (no_credential_no_request Tool.get_last_trade [("ticker", PStr "nvda")]
              (stub (Some "") 200 (Body_json JNull))) as [S R].
  - right. reflexivity.
  - split; [exact S |].
    apply (R "/v2/last/trade/NVDA" None); reflexivity.
Defined.

(** X2.  A call of a tool sends at most one request.  A request that is
    sent goes to the base URL followed by the path the tool built, with a
    timeout of 20 seconds and the built query plus the credential; and
    with a credential, bound arguments and a built request exactly this
    one request is sent, whatever the upstream answers. *)
Theorem a_call_sends_at_most_one_request (x : Tool.t) (kw : kwargs) (w : world) :
  (List.length (requests_of (Call.invoke x kw w)) <= 1)%nat /\
  (forall s, In s (requests_of (Call.invoke x kw w)) ->
     exists key path p,
       has_key w key /\
       Call.check_args x kw = Returned tt /\
       Call.request x kw w = Some (Returned (path, p)) /\
       s = Sent (base_url ++ path) (Dict.set "apiKey" (PStr key) (or_empty p)) 20) /\
  (forall key path p,
     has_key w key ->
     Call.check_args x kw = Returned tt ->
     Call.request x kw w = Some (Returned (path, p)) ->
     requests_of (Call.invoke x kw w)
     = [Sent (base_url ++ path) (Dict.set "apiKey" (PStr key) (or_empty p)) 20]).
Proof.
  rewrite invoke_sends. split; [| split].
  - destruct (Call.check_args x kw); [| simpl; lia].
    destruct (Call.request x kw w) as [[[path p] |] |]; try (simpl; lia).
    rewrite polygon_get_sends. destruct (credential w); simpl; lia.
  - intros s.
    destruct (Call.check_args x kw) as [[] |]; [| simpl; tauto].
    destruct (Call.request x kw w) as [[[path p] |] |]; try (simpl; tauto).
    rewrite polygon_get_sends. destruct (credential w) as [key |] eqn:K; [| simpl; tauto].
    intros [<- | []]. exists key, path, p. auto using credential_Some.
  - intros key path p K -> ->. rewrite polygon_get_sends.
    now rewrite (credential_has_key w key K).
Qed.

(* ================================================================== *)
(** * Failures of the upstream service *)
(* ================================================================== *)

(** X3.  When the one request of a call fails - [requests.get] raises
    (no connection, timeout), the status is an error for
    [raise_for_status], or the body is no JSON - a guarded tool returns
    the text Error: followed by the message of the exception, and
    [stock_price], [stock_info] and [income_statement] raise the
    exception; the request has been sent. *)
Theorem upstream_failure_reaches_the_caller
    (x : Tool.t) (kw : kwargs) (w : world) (key path : string) (p : option params)
    (e : exn) :
  Call.check_args x kw = Returned tt ->
  Call.request x kw w = Some (Returned (path, p)) ->
  has_key w key ->
  fetch_error (requests_get w (base_url ++ path)
                 (Dict.set "apiKey" (PStr key) (or_empty p)) 20) = Some e ->
  Call.invoke x kw w
  = (if guarded x then Returned ("Error: " ++ exn_msg e) else Raised e,
     [Sent (base_url ++ path) (Dict.set "apiKey" (PStr key) (or_empty p)) 20]).
Proof.
  intros C R K F.
  apply (invoke_fetch_raises x kw w path p e _ C R (polygon_get_failed path p w key e K F)).
Qed.

(** The statement on [get_market_status] with an upstream that times
    out. *)
Lemma upstream_failure_reaches_the_caller_example :
  Call.invoke Tool.get_market_status []
    (World (Some "KEY") 0
       (fun _ _ _ => Failed (Exn Timeout "Read timed out. (read timeout=20)")))
  = (Returned "Error: Read timed out. (read timeout=20)",
     [Sent "https://api.polygon.io/v1/marketstatus/now" [("apiKey", PStr "KEY")] 20]).
Proof.
  apply (upstream_failure_reaches_the_caller Tool.get_market_status []
           (World (Some "KEY") 0
              (fun _ _ _ => Failed (Exn Timeout "Read timed out. (read timeout=20)")))
           "KEY" "/v1/marketstatus/now" None
           (Exn Timeout "Read timed out. (read timeout=20)")).
  - reflexivity.
  - reflexivity.
  - split; [reflexivity | discriminate].
  - reflexivity.
Defined.

(** X4.  When the upstream answers with a status from 400 to 599, a
    guarded tool returns Error: followed by the status, Client Error (below
    500) or Server Error, the reason phrase, and the URL as the response
    reports it. *)
Theorem http_error_is_reported_with_its_url
    (x : Tool.t) (kw : kwargs) (w : world) (key path : string) (p : option params)
    (r : response) :
  guarded x = true ->
  Call.check_args x kw = Returned tt ->
  Call.request x kw w = Some (Returned (path, p)) ->
  has_key w key ->
  requests_get w (base_url ++ path) (Dict.set "apiKey" (PStr key) (or_empty p)) 20
    = Reply r ->
  400 <= status_code r < 600 ->
  result_of (Call.invoke x kw w)
  = Returned ("Error: " ++ Text.of_Z (status_code r)
                ++ (if status_code r <? 500 then " Client Error" else " Server Error")
                ++ ": " ++ reason r ++ " for url: " ++ url r).
Proof.
  intros G C R K Q S.
  assert (F : fetch_error (requests_get w (base_url ++ path)
                             (Dict.set "apiKey" (PStr key) (or_empty p)) 20)
              = Some (Exn HTTPError
                        (Text.of_Z (status_code r)
                           ++ (if status_code r <? 500 then " Client Error"
                               else " Server Error")
                           ++ ": " ++ reason r ++ " for url: " ++ url r))).
  { rewrite Q. unfold fetch_error, raise_for_status.
    destruct (Z.leb_spec 400 (status_code r)); [| lia].
    destruct (Z.ltb_spec (status_code r) 500); cbn [andb]; [reflexivity |].
    destruct (Z.leb_spec 500 (status_code r)); [| lia].
    destruct (Z.ltb_spec (status_code r) 600); [| lia]. reflexivity. }
  rewrite (invoke_fetch_raises x kw w path p _ _ C R (polygon_get_failed path p w key _ K F)).
  rewrite G. reflexivity.
Qed.

(** The statement on [get_last_quote] and a 404. *)
Lemma http_error_is_reported_with_its_url_example :
  result_of
    (Call.invoke Tool.get_last_quote [("ticker", PStr "nope")]
       (World (Some "KEY") 0
          (fun u _ _ => Reply (Response 404 "Not Found" (u ++ "?apiKey=KEY") (Body_json JNull)))))
  = Returned "Error: 404 Client Error: Not Found for url: https://api.polygon.io/v2/last/quote/NOPE?apiKey=KEY".
Proof.
  apply (http_error_is_reported_with_its_url Tool.get_last_quote [("ticker", PStr "nope")]
           (World (Some "KEY") 0
              (fun u _ _ => Reply (Response 404 "Not Found" (u ++ "?apiKey=KEY")
                                     (Body_json JNull))))
           "KEY" "/v2/last/quote/NOPE" None
           (Response 404 "Not Found" "https://api.polygon.io/v2/last/quote/NOPE?apiKey=KEY"
              (Body_json JNull))).
  - reflexivity.
  - reflexivity.
  - reflexivity.
  - split; [reflexivity | discriminate].
  - reflexivity.
  - simpl. lia.
Defined.

(** X5.  A guarded tool never raises: once its arguments are bound it
    returns a string, whatever the environment, the clock and the upstream
    service do. *)
Theorem guarded_tool_never_raises (x : Tool.t) (kw : kwargs) (w : world) :
  guarded x = true ->
  Call.check_args x kw = Returned tt ->
  exists s, result_of (Call.invoke x kw w) = Returned s.
Proof. apply guarded_tool_returns. Qed.

(** The statement on [get_aggregates] with a ticker that is no string and
    an upstream that is down. *)
Lemma guarded_tool_never_raises_example :
  exists s,
    result_of
      (Call.invoke Tool.get_aggregates
         [("ticker", PNone); ("multiplier", PInt 1); ("timespan", PStr "day");
          ("from_date", PStr "2024-01-01"); ("to_date", PStr "2024-01-31")]
         (World None 0 (fun _ _ _ => Failed (Exn ConnectionError "unreachable"))))
    = Returned s.
Proof.
  apply (guarded_tool_never_raises Tool.get_aggregates
           [("ticker", PNone); ("multiplier", PInt 1); ("timespan", PStr "day");
            ("from_date", PStr "2024-01-01"); ("to_date", PStr "2024-01-31")]
           (World None 0 (fun _ _ _ => Failed (Exn ConnectionError "unreachable"))));
    reflexivity.
Defined.

(* ================================================================== *)
(** * The digits of an integer *)
(* ================================================================== *)

Section Digits.
Import DecimalPos.Unsigned.

Lemma of_lu_bound (d : Decimal.uint) : (of_lu d < 10 ^ usize d)%N.
Proof.
  induction d; cbn [of_lu usize]; rewrite ?N.pow_succ_r'; lia.
Qed.

Lemma usize_revapp (d d' : Decimal.uint) :
  usize (Decimal.revapp d d') = (usize d + usize d')%N.
Proof.
  revert d'. induction d; intros d'; cbn [Decimal.revapp usize];
    rewrite ?IHd; cbn [usize]; lia.
Qed.

Lemma usize_rev (d : Decimal.uint) : usize (Decimal.rev d) = usize d.
Proof. unfold Decimal.rev. rewrite usize_revapp. cbn [usize]. lia. Qed.

Lemma length_string_of_uint (d : Decimal.uint) :
  N.of_nat (String.length (NilEmpty.string_of_uint d)) = usize d.
Proof.
  induction d; cbn [NilEmpty.string_of_uint String.length usize];
    lia.
Qed.

Lemma of_uint_lower (d : Decimal.uint) :
  leading d = true -> (10 ^ (usize d - 1) <= Pos.of_uint d)%N.
Proof.
  intros L. rewrite of_uint_alt.
  destruct d; try discriminate L; unfold Decimal.rev; cbn [Decimal.revapp];
    rewrite of_lu_revapp; cbn [usize];
    replace (N.succ (usize d) - 1)%N with (usize d) by lia;
    cbn [of_lu]; rewrite N.mul_0_r, N.add_0_r;
    pose proof (N.pow_nonzero 10 (usize d) ltac:(discriminate)); nia.
Qed.

Lemma to_uint_leading (p : positive) : leading (Pos.to_uint p) = true.
Proof.
  pose proof (to_of (Pos.to_uint p)) as E. rewrite of_to in E.
  cbn [N.to_uint] in E.
  pose proof (to_uint_nonzero p) as NZ.
  pose proof (to_uint_nonnil p) as NN.
  destruct (Pos.to_uint p) as [| d | | | | | | | | |]; try reflexivity.
  - now destruct NN.
  - exfalso. unfold Decimal.unorm in E. cbn [Decimal.nzhead] in E.
    pose proof (DecimalFacts.nb_digits_nzhead d) as H.
    destruct (Decimal.nzhead d) as [| u | | | | | | | | |]; try discriminate E.
    + injection E as E. subst d. now destruct NZ.
    + injection E as E. subst u. cbn [Decimal.nb_digits] in H. lia.
Qed.
End Digits.

Lemma digits_of_pos (p : positive) :
  10 ^ (digits_of (Zpos p) - 1) <= Zpos p < 10 ^ digits_of (Zpos p) /\ 0 < digits_of (Zpos p).
Proof.
  unfold digits_of, Text.of_Z. cbn [Z.abs Z.to_int NilZero.string_of_int].
  pose proof (DecimalPos.Unsigned.to_uint_nonnil p) as NN.
  pose proof (to_uint_leading p) as L.
  pose proof (of_uint_lower _ L) as LO.
  pose proof (of_lu_bound (Decimal.rev (Pos.to_uint p))) as HI.
  rewrite <- DecimalPos.Unsigned.of_uint_alt, usize_rev in HI.
  rewrite DecimalPos.Unsigned.of_to in LO, HI.
  assert (E : NilZero.string_of_uint (Pos.to_uint p)
              = NilEmpty.string_of_uint (Pos.to_uint p)).
  { destruct (Pos.to_uint p); try reflexivity. now destruct NN. }
  rewrite E.
  pose proof (length_string_of_uint (Pos.to_uint p)) as S.
  set (u := DecimalPos.Unsigned.usize (Pos.to_uint p)) in *.
  set (l := String.length _) in *.
  assert (U : (0 < u)%N).
  { subst u. destruct (Pos.to_uint p); cbn; try lia. now destruct NN. }
  assert (Z.of_nat l = Z.of_N u) by lia.
  rewrite H.
  replace (Z.of_N u - 1) with (Z.of_N (u - 1)) by lia.
  change 10 with (Z.of_N 10). rewrite <- !N2Z.inj_pow.
  change (Zpos p) with (Z.of_N (Npos p)). lia.
Qed.

(** The digits of an integer against the powers of ten. *)
Lemma digits_of_spec (n k : Z) : 0 <= k -> (k < digits_of n <-> 10 ^ k <= Z.abs n \/ k = 0).
Proof.
  intros K.
  destruct n as [| p | p].
  - change (digits_of 0) with 1. cbn [Z.abs].
    pose proof (Z.pow_pos_nonneg 10 k ltac:(lia) K). lia.
  - cbn [Z.abs]. destruct (digits_of_pos p) as [[LO HI] P].
    split.
    + intros L. destruct (Z.eq_dec k 0) as [-> | N]; [now right | left].
      apply Z.le_trans with (2 := LO). apply Z.pow_le_mono_r; lia.
    + intros [L | ->]; [| exact P].
      apply (Z.pow_lt_mono_r_iff 10); lia.
  - change (digits_of (Zneg p)) with (digits_of (Zpos p)). cbn [Z.abs].
    destruct (digits_of_pos p) as [[LO HI] P].
    split.
    + intros L. destruct (Z.eq_dec k 0) as [-> | N]; [now right | left].
      apply Z.le_trans with (2 := LO). apply Z.pow_le_mono_r; lia.
    + intros [L | ->]; [| exact P].
      apply (Z.pow_lt_mono_r_iff 10); lia.
Qed.

(** [str] of an [int] raises from ten to the power 4300 on, in absolute
    value, and below it gives the digits. *)
Lemma int_str_cases (n : Z) :
  (Z.abs n < 10 ^ Py.max_str_digits -> Py.int_str n = Returned (Text.of_Z n)) /\
  (10 ^ Py.max_str_digits <= Z.abs n -> Py.int_str n = Raised int_too_long).
Proof.
  unfold Py.int_str. fold (digits_of n).
  pose proof (digits_of_spec n Py.max_str_digits ltac:(discriminate)) as D.
  assert (Py.max_str_digits <> 0) by discriminate.
  destruct (Z.ltb_spec Py.max_str_digits (digits_of n)); split; intros B;
    try reflexivity; lia.
Qed.

Lemma long_int_raises (n : Z) :
  10 ^ Py.max_str_digits <= Z.abs n -> Py.str (PInt n) = Raised int_too_long.
Proof. apply int_str_cases. Qed.

(* ================================================================== *)
(** * The ticker argument *)
(* ================================================================== *)

Lemma upper_char_idem (c : ascii) :
  Text.upper_char (Text.upper_char c) = Text.upper_char c.
Proof. destruct c as [[] [] [] [] [] [] [] []]; reflexivity. Qed.

Lemma upper_idem (s : string) : Text.upper (Text.upper s) = Text.upper s.
Proof.
  unfold Text.upper. induction s as [| c r IH]; simpl; [reflexivity |].
  now rewrite upper_char_idem, IH.
Qed.

Lemma upper_truthy (s : string) : Py.truthy (PStr (Text.upper s)) = Py.truthy (PStr s).
Proof. destruct s; reflexivity. Qed.

(** The cases of a parameter taken from a list of names. *)
Ltac pick T k :=
  repeat match type of T with
         | _ \/ _ => destruct T as [T | T]
         | False => contradiction
         | _ = _ => subst k
         end.

Lemma ticker_case_request (x : Tool.t) (k s : string) (kw : kwargs) (w : world) :
  In k (uppercased x) ->
  Call.request x (Dict.set k (PStr s) kw) w
  = Call.request x (Dict.set k (PStr (Text.upper s)) kw) w.
Proof.
  intros U.
  destruct x; cbn in U; pick U k.
  all: cbn [Call.request]; rebind.
  all: unfold_builders_goal; cbn [default Py.upper obind];
    rewrite ?upper_truthy, ?upper_idem; reflexivity.
Qed.

Section SameKeys.
Context {V : Type}.
Implicit Types (d : Dict.t V) (k : string) (v : V).

Lemma keys_set_any k v v' d : Dict.keys (Dict.set k v d) = Dict.keys (Dict.set k v' d).
Proof. now rewrite !keys_set. Qed.

Lemma mem_set_any k n v v' d : Dict.mem n (Dict.set k v d) = Dict.mem n (Dict.set k v' d).
Proof.
  unfold Dict.mem. destruct (String.eqb_spec k n).
  - subst. now rewrite !get_set_same.
  - now rewrite !get_set_other by assumption.
Qed.

Lemma get_if_set_other (c : bool) k k' v d :
  k' <> k -> Dict.get k (if c then Dict.set k' v d else d) = Dict.get k d.
Proof. intros N. destruct c; [now apply get_set_other | reflexivity]. Qed.
End SameKeys.

(** Binding depends on the names given, not on the values. *)
Lemma check_args_set (x : Tool.t) (k : string) (v v' : pyval) (kw : kwargs) :
  Call.check_args x (Dict.set k v kw) = Call.check_args x (Dict.set k v' kw).
Proof.
  unfold Call.check_args. rewrite (keys_set_any k v v').
  assert (E : filter (fun n => negb (Dict.mem n (Dict.set k v kw))) (Tool.required_names x)
            = filter (fun n => negb (Dict.mem n (Dict.set k v' kw))) (Tool.required_names x)).
  { apply filter_ext. intros n. now rewrite (mem_set_any k n v v'). }
  now rewrite E.
Qed.

(** X6.  The letter case of a ticker argument plays no part in the
    request: a ticker and its upper-case form build the same path and
    query, for every tool and every parameter on which the tool calls
    [.upper()]; a tool that fetches and prints then behaves the same on
    both, result and requests. *)
Theorem ticker_case_is_ignored (x : Tool.t) (k s : string) (kw : kwargs) (w : world) :
  In k (uppercased x) ->
  Call.request x (Dict.set k (PStr s) kw) w
  = Call.request x (Dict.set k (PStr (Text.upper s)) kw) w /\
  (passes_through x = true ->
   Call.invoke x (Dict.set k (PStr s) kw) w
   = Call.invoke x (Dict.set k (PStr (Text.upper s)) kw) w).
Proof.
  intros U. pose proof (ticker_case_request x k s kw w U) as R.
  split; [exact R |].
  intros P. unfold Call.invoke.
  rewrite (check_args_set x k (PStr s) (PStr (Text.upper s))).
  destruct (request_exists x (Dict.set k (PStr s) kw) w (or_introl P)) as [r E].
  rewrite (body_of_pass_through x _ w r P E).
  rewrite R in E.
  rewrite (body_of_pass_through x _ w r P E).
  reflexivity.
Qed.

(** The statement on [get_dividends] for Aapl. *)
Lemma ticker_case_is_ignored_example :
  Call.request Tool.get_dividends [("limit", PInt 5); ("ticker", PStr "Aapl")]
    (stub None 200 (Body_json JNull))
  = Call.request Tool.get_dividends [("limit", PInt 5); ("ticker", PStr "AAPL")]
      (stub None 200 (Body_json JNull)).
Proof.
  apply (proj1 (ticker_case_is_ignored Tool.get_dividends "ticker" "Aapl"
                  [("limit", PInt 5)] (stub None 200 (Body_json JNull))
                  (or_introl eq_refl))).
Defined.

(** Some values of [str], as CPython 3.11 computes them. *)
Example str_of_values :
  Py.str (PInt (-42)) = Returned "-42" /\
  Py.str (PBool true) = Returned "True" /\
  Py.str PNone = Returned "None" /\
  Py.str (PFloat "1.5") = Returned "1.5" /\
  Py.str (PDate (Date 2024 1 2)) = Returned "2024-01-02" /\
  Py.str (PDatetime (Datetime_ 2024 1 2 3 4 5 0)) = Returned "2024-01-02 03:04:05".
Proof. repeat split. Qed.

Lemma upper_of_other (v : pyval) :
  (forall s, v <> PStr s) -> Py.upper v = Raised (no_upper v).
Proof. intros N. destruct v; try reflexivity. now destruct (N s). Qed.

(** What [str] raises, and on what. *)
Lemma str_raises (v : pyval) (e : exn) :
  Py.str v = Raised e ->
  exists n, v = PInt n /\ 10 ^ Py.max_str_digits <= Z.abs n /\ e = int_too_long.
Proof.
  destruct v as [| [|] | n | | | |]; cbn [Py.str]; try discriminate.
  destruct (int_str_cases n) as [LO HI].
  destruct (Z.lt_ge_cases (Z.abs n) (10 ^ Py.max_str_digits)) as [B | B].
  - rewrite (LO B). discriminate.
  - rewrite (HI B). intros E. injection E as <-. exists n. auto.
Qed.

Lemma str_date_text_raises (v : pyval) (e : exn) :
  Py.str (date_text v) = Raised e -> Py.str v = Raised e.
Proof. unfold date_text. destruct (Py.isinstance_date v); [discriminate | auto]. Qed.

Lemma non_text_ticker_request (x : Tool.t) (k : string) (v : pyval) (kw : kwargs) (w : world) :
  guarded x = true ->
  In k (uppercased x) ->
  (forall s, v <> PStr s) ->
  Py.truthy v = true \/ In k (Tool.required_names x) ->
  (forall k', In k' (formatted_before_upper x) -> printable (Call.req kw k') = true) ->
  Call.request x (Dict.set k v kw) w = Some (Raised (no_upper v)).
Proof.
  intros G U N T S. pose proof (upper_of_other v N) as E.
  destruct x; try discriminate G; cbn in U; pick U k.
  all: cbn [Call.request]; rebind.
  all: unfold_builders_goal; cbn [default].
  all: try match goal with
       | |- context [Py.str ?a] =>
           destruct (Py.str a) eqn:?; [| no_failure S S]
       end.
  all: first [ rewrite E; reflexivity
             | destruct T as [T | T];
               [ rewrite T, E; reflexivity
               | cbn in T; repeat (destruct T as [T | T]; try discriminate T);
                 contradiction ] ].
Qed.

(** An argument written before [.upper()] is called, when it cannot be
    written. *)
Lemma unwritten_before_upper
    (x : Tool.t) (k k' : string) (v : pyval) (kw : kwargs) (w : world) (e : exn) :
  In k (uppercased x) -> In k' (formatted_before_upper x) ->
  Py.str (Call.req kw k') = Raised e ->
  Call.request x (Dict.set k v kw) w = Some (Raised e).
Proof.
  intros U F E.
  destruct x; try contradiction F; cbn in U, F; pick U k; pick F k'.
  cbn [Call.request]; rebind. unfold get_snapshot_ticker_request.
  rewrite E. reflexivity.
Qed.

(** X7.  A ticker argument that is no string - a number, a date, [None]
    under a required parameter - makes a guarded tool return the text of
    the [AttributeError] of [.upper()], and nothing is sent.  (Under an
    optional [ticker] a falsy value counts as left out.)  In the path of
    [get_snapshot_ticker] the [market_type] is written before [.upper()]
    is called: when it cannot be written, the tool returns the text of
    that exception instead. *)
Theorem ticker_that_is_no_string_is_rejected
    (x : Tool.t) (k : string) (v : pyval) (kw : kwargs) (w : world) :
  guarded x = true ->
  In k (uppercased x) ->
  (forall s, v <> PStr s) ->
  Py.truthy v = true \/ In k (Tool.required_names x) ->
  Call.check_args x (Dict.set k v kw) = Returned tt ->
  ((forall k', In k' (formatted_before_upper x) -> printable (Call.req kw k') = true) ->
   Call.invoke x (Dict.set k v kw) w
   = (Returned ("Error: '" ++ Py.type_name v ++ "' object has no attribute 'upper'"), [])) /\
  (forall k' n,
     In k' (formatted_before_upper x) ->
     Call.req kw k' = PInt n -> 10 ^ Py.max_str_digits <= Z.abs n ->
     Call.invoke x (Dict.set k v kw) w
     = (Returned ("Error: " ++ exn_msg int_too_long), [])).
Proof.
  intros G U N T C. split.
  - intros S.
    rewrite (invoke_build_raises x _ w (no_upper v) C
               (non_text_ticker_request x k v kw w G U N T S)).
    rewrite G. reflexivity.
  - intros k' n F V L.
    assert (E : Py.str (Call.req kw k') = Raised int_too_long).
    { rewrite V. now apply long_int_raises. }
    rewrite (invoke_build_raises x _ w _ C (unwritten_before_upper x k k' v kw w _ U F E)).
    rewrite G. reflexivity.
Qed.

(** The statement on [get_last_quote] with the ticker 7, and on
    [get_snapshot_ticker] with the same ticker and ten to the power 4300
    for the market type. *)
Lemma ticker_that_is_no_string_is_rejected_example :
  Call.invoke Tool.get_last_quote [("ticker", PInt 7)] (stub (Some "KEY") 200 (Body_json JNull))
  = (Returned "Error: 'int' object has no attribute 'upper'", []) /\
  Call.invoke Tool.get_snapshot_ticker
    [("market_type", PInt (10 ^ Py.max_str_digits)); ("ticker", PInt 7)]
    (stub (Some "KEY") 200 (Body_json JNull))
  = (Returned ("Error: " ++ exn_msg int_too_long), []).
Proof.
  split.
  - apply (proj1 (ticker_that_is_no_string_is_rejected Tool.get_last_quote "ticker" (PInt 7) []
                    (stub (Some "KEY") 200 (Body_json JNull))
                    eq_refl (or_introl eq_refl) ltac:(discriminate) (or_introl eq_refl)
                    eq_refl)).
    intros k' [].
  - apply (proj2 (ticker_that_is_no_string_is_rejected Tool.get_snapshot_ticker "ticker"
                    (PInt 7) [("market_type", PInt (10 ^ Py.max_str_digits))]
                    (stub (Some "KEY") 200 (Body_json JNull))
                    eq_refl (or_introl eq_refl) ltac:(discriminate) (or_introl eq_refl)
                    eq_refl)
             "market_type" (10 ^ Py.max_str_digits) (or_introl eq_refl) eq_refl).
    rewrite Z.abs_eq; [apply Z.le_refl | now apply Z.pow_nonneg].
Defined.

(** Case analysis on what may raise while a request is built. *)
Ltac open_request H :=
  repeat (cbv beta iota delta [obind] in H;
          match type of H with
          | context [match (if ?c then _ else _) with Returned _ => _ | Raised _ => _ end] =>
              destruct c eqn:?
          | context [Py.upper ?v] => destruct (Py.upper v) eqn:?
          | context [Py.str ?v] => destruct (Py.str v) eqn:?
          | context [Datetime.add_days ?a ?b] => destruct (Datetime.add_days a b) eqn:?
          end);
  cbv beta iota delta [obind fst snd] in H.

Lemma upper_raises (v : pyval) (e : exn) :
  Py.upper v = Raised e -> e = no_upper v /\ forall s, v <> PStr s.
Proof.
  destruct v; cbn; intros H; try discriminate H; injection H as <-;
    (split; [reflexivity | discriminate]).
Qed.

Lemma req_default (kw : kwargs) (k : string) :
  default PNone (Call.opt kw k) = Call.req kw k.
Proof. reflexivity. Qed.

(** X8.  When a tool raises while it builds its request, the exception
    is the [AttributeError] of [.upper()] on a ticker argument that is no
    string, or the [ValueError] of [str] on an [int] of more than 4300
    digits among the arguments the builder writes into the path or into a
    flag - or, for [stock_price], the clock is too close to the year 1 for
    a window of thirty days.  No value of an argument that the builder
    passes on as it is (a limit, a sort order, a search text) does. *)
Theorem builder_fails_on_a_ticker_or_a_long_int
    (x : Tool.t) (kw : kwargs) (w : world) (e : exn) :
  Call.request x kw w = Some (Raised e) ->
  (exists k,
     In k (uppercased x) /\ (forall s, Call.req kw k <> PStr s) /\
     e = Exn AttributeError
           ("'" ++ Py.type_name (Call.req kw k) ++ "' object has no attribute 'upper'")) \/
  (exists k n,
     In k (formatted x) /\ Call.req kw k = PInt n /\
     10 ^ Py.max_str_digits <= Z.abs n /\ e = int_too_long) \/
  (x = Tool.stock_price /\ Datetime.add_days (Datetime.At (now w) 0) (-30) = Raised e).
Proof.
  destruct x; cbn [Call.request]; intros H; try discriminate H; apply some_inj in H;
    unfold_builders H; rewrite ?req_default in H.
  all: open_request H; try discriminate H;
    try (injection H as <-).
  all: try match goal with
       | U : Py.upper (Call.req ?d ?k) = Raised ?e0 |- _ =>
           left; exists k; destruct (upper_raises _ _ U) as [-> N];
           split; [simpl; tauto | split; [exact N | reflexivity]]
       end.
  all: try match goal with
       | S : Py.str (date_text (Call.req ?d ?k)) = Raised ?e0 |- _ =>
           right; left; apply str_date_text_raises in S;
           destruct (str_raises _ _ S) as (n & V & D & ->);
           exists k, n; (split; [simpl; tauto | auto])
       | S : Py.str (Call.req ?d ?k) = Raised ?e0 |- _ =>
           right; left; destruct (str_raises _ _ S) as (n & V & D & ->);
           exists k, n; (split; [simpl; tauto | auto])
       end.
  all: right; right; split; reflexivity.
Qed.

(** The statement on [get_options_snapshot] with a number for the
    underlying asset. *)
Lemma builder_fails_on_a_ticker_or_a_long_int_example :
  (exists k,
     In k (uppercased Tool.get_options_snapshot) /\
     (forall s, Call.req [("underlying_asset", PInt 7)] k <> PStr s) /\
     Exn AttributeError "'int' object has no attribute 'upper'"
     = Exn AttributeError
         ("'" ++ Py.type_name (Call.req [("underlying_asset", PInt 7)] k)
            ++ "' object has no attribute 'upper'")) \/
  (exists k n,
     In k (formatted Tool.get_options_snapshot) /\
     Call.req [("underlying_asset", PInt 7)] k = PInt n /\
     10 ^ Py.max_str_digits <= Z.abs n /\
     Exn AttributeError "'int' object has no attribute 'upper'" = int_too_long) \/
  (Tool.get_options_snapshot = Tool.stock_price /\
   Datetime.add_days (Datetime.At 1704067200 0) (-30)
   = Raised (Exn AttributeError "'int' object has no attribute 'upper'")).
Proof.
  apply (builder_fails_on_a_ticker_or_a_long_int Tool.get_options_snapshot
           [("underlying_asset", PInt 7)] (stub None 200 (Body_json JNull))
           (Exn AttributeError "'int' object has no attribute 'upper'")).
  reflexivity.
Defined.

Lemma repeated_segment_is_not_us_stocks (m rest : string) :
  Text.contains_char "/" m = false ->
  prefix "us/markets/stocks/" (m ++ "/markets/" ++ m ++ rest) = false.
Proof.
  intros S.
  destruct m as [| c1 m]; [reflexivity |].
  cbn [append prefix].
  destruct (ascii_dec "u" c1) as [<- | N]; [| reflexivity].
  destruct m as [| c2 m]; [reflexivity |].
  cbn [append prefix].
  destruct (ascii_dec "s" c2) as [<- | N]; [| reflexivity].
  destruct m as [| c3 m]; [reflexivity |].
  cbn [append prefix].
  destruct (ascii_dec "/" c3) as [<- | N]; [| reflexivity].
  cbn in S. discriminate S.
Qed.

(** X9.  [get_snapshot_ticker] puts its [market_type] into the path
    twice, as the locale and as the market: the path is
    /v2/snapshot/locale/<m>/markets/<m>/tickers/<TICKER>.  So for no
    [market_type] without a slash does the tool ask under
    /v2/snapshot/locale/us/markets/stocks/, the prefix under which
    [get_market_gainers_losers] asks for its snapshots. *)
Theorem snapshot_ticker_never_asks_under_the_us_stocks_prefix
    (market_type ticker direction : string) (w : world) :
  Text.contains_char "/" market_type = false ->
  exists path path',
    Call.path Tool.get_snapshot_ticker
      [("market_type", PStr market_type); ("ticker", PStr ticker)] w = Some path /\
    Call.path Tool.get_market_gainers_losers [("direction", PStr direction)] w = Some path' /\
    path = "/v2/snapshot/locale/" ++ market_type ++ "/markets/" ++ market_type
             ++ "/tickers/" ++ Text.upper ticker /\
    Text.startswith us_stocks_snapshots path = false /\
    Text.startswith us_stocks_snapshots path' = true.
Proof.
  intros S. eexists. eexists.
  split; [reflexivity |]. split; [reflexivity |]. split; [reflexivity |].
  split.
  - unfold Text.startswith, us_stocks_snapshots.
    change (prefix "/v2/snapshot/locale/us/markets/stocks/"
              ("/v2/snapshot/locale/" ++ market_type ++ "/markets/" ++ market_type
                 ++ "/tickers/" ++ Text.upper ticker))
      with (prefix "us/markets/stocks/"
              (market_type ++ "/markets/" ++ market_type
                 ++ "/tickers/" ++ Text.upper ticker)).
    now apply repeated_segment_is_not_us_stocks.
  - unfold Text.startswith, us_stocks_snapshots. cbn [append prefix].
    now destruct direction.
Qed.

(** The statement on the snapshot of aapl among the stocks. *)
Lemma snapshot_ticker_never_asks_under_the_us_stocks_prefix_example :
  exists path path',
    Call.path Tool.get_snapshot_ticker
      [("market_type", PStr "stocks"); ("ticker", PStr "aapl")]
      (stub None 200 (Body_json JNull)) = Some path /\
    Call.path Tool.get_market_gainers_losers [("direction", PStr "gainers")]
      (stub None 200 (Body_json JNull)) = Some path' /\
    path = "/v2/snapshot/locale/" ++ "stocks" ++ "/markets/" ++ "stocks"
             ++ "/tickers/" ++ Text.upper "aapl" /\
    Text.startswith us_stocks_snapshots path = false /\
    Text.startswith us_stocks_snapshots path' = true.
Proof.
  apply (snapshot_ticker_never_asks_under_the_us_stocks_prefix "stocks" "aapl" "gainers"
           (stub None 200 (Body_json JNull))).
  reflexivity.
Defined.

(* ================================================================== *)
(** * Arguments that are given *)
(* ================================================================== *)

(** A truthy argument in the query that is built. *)
Lemma truthy_argument_in_query
    (x : Tool.t) (k : string) (v : pyval) (kw : kwargs) (w : world) (p : params) :
  In k (tested_for_truth x) ->
  Py.truthy v = true ->
  Call.query x (Dict.set k v kw) w = Some p ->
  (k <> "ticker" -> k <> "include_otc" -> Dict.get k p = Some v) /\
  (k = "include_otc" -> Dict.get k p = Some (PStr "true")) /\
  (k = "ticker" -> exists s, v = PStr s /\ Dict.get k p = Some (PStr (Text.upper s))).
Proof.
  intros T V.
  destruct x; cbn in T; pick T k.
  all: unfold Call.query; cbn [Call.request]; rebind; unfold_builders_goal;
    cbn [default]; cbv zeta; rewrite ?V; cbv beta iota; intros H; open_request H;
    try discriminate H; apply some_inj in H; subst p.
  all: (split; [| split]); try (intros ?; discriminate); try congruence; intros.
  all: repeat first [ rewrite get_if_set_other by discriminate
                    | rewrite get_set_other by discriminate ].
  all: try apply get_set_same.
  all: match goal with
       | U : Py.upper ?v0 = Returned ?t |- _ =>
           destruct v0; try discriminate U; injection U as <-;
           eexists; split; [reflexivity |]
       end.
  all: repeat first [ rewrite get_if_set_other by discriminate
                    | rewrite get_set_other by discriminate ]; reflexivity.
Qed.

(** X10.  An optional argument that a builder tests by truthiness and that
    is truthy is sent: with text where a ticker is due and arguments that
    can be written, the query is built; and in the built query the
    argument is under its own name with the value given, unchanged - but
    [include_otc] is sent as the text true, and an optional [ticker] must
    be a string and is sent in upper case. *)
Theorem truthy_argument_is_sent
    (x : Tool.t) (k : string) (v : pyval) (kw : kwargs) (w : world) :
  In k (tested_for_truth x) ->
  Py.truthy v = true ->
  (text_arguments x (Dict.set k v kw) = true ->
   printable_arguments x (Dict.set k v kw) = true ->
   exists p, Call.query x (Dict.set k v kw) w = Some p) /\
  (forall p, Call.query x (Dict.set k v kw) w = Some p ->
     (k <> "ticker" -> k <> "include_otc" -> Dict.get k p = Some v) /\
     (k = "include_otc" -> Dict.get k p = Some (PStr "true")) /\
     (k = "ticker" ->
      exists s, v = PStr s /\ Dict.get k p = Some (PStr (Text.upper s)))).
Proof.
  intros T V. split.
  - intros A S. apply (query_is_built x _ w (tested_tool x k (or_introl T)) A S).
  - intros p Q. now apply (truthy_argument_in_query x k v kw w p).
Qed.

(** The statement on [search_tickers] with [limit = 25]. *)
Lemma truthy_argument_is_sent_example :
  exists p,
    Call.query Tool.search_tickers [("search", PStr "nvidia"); ("limit", PInt 25)]
      (stub None 200 (Body_json JNull)) = Some p /\
    Dict.get "limit" p = Some (PInt 25).
Proof.
  destruct (truthy_argument_is_sent Tool.search_tickers "limit" (PInt 25)
              [("search", PStr "nvidia")] (stub None 200 (Body_json JNull))
              ltac:(simpl; tauto) eq_refl) as [B V].
  destruct (B eq_refl eq_refl) as [p Q].
  exists p. split; [exact Q |].
  apply (proj1 (V p Q)); discriminate.
Defined.

(** A flag in the query that is built. *)
Lemma flag_in_query
    (x : Tool.t) (k : string) (v : pyval) (kw : kwargs) (w : world) (p : params) :
  In k (tested_for_None x) ->
  v <> PNone ->
  Call.query x (Dict.set k v kw) w = Some p ->
  exists s, Py.str v = Returned s /\ Dict.get k p = Some (PStr (Text.lower s)).
Proof.
  intros T N.
  assert (V : Py.is_not_None v = true) by (destruct v; try reflexivity; now destruct N).
  destruct x; cbn in T; pick T k.
  all: unfold Call.query; cbn [Call.request]; rebind; unfold_builders_goal;
    cbn [default]; cbv zeta; rewrite ?V; cbv beta iota; intros H; open_request H;
    try discriminate H; apply some_inj in H; subst p.
  all: eexists; split; [reflexivity |].
  all: repeat first [ rewrite get_if_set_other by discriminate
                    | rewrite get_set_other by discriminate ].
  all: apply get_set_same.
Qed.

(** A flag that cannot be written makes the builder raise. *)
Lemma flag_unwritten
    (x : Tool.t) (k : string) (v : pyval) (kw : kwargs) (w : world) (e : exn) :
  In k (tested_for_None x) ->
  Py.str v = Raised e ->
  text_arguments x (Dict.set k v kw) = true ->
  (forall k', In k' (formatted x) -> k' <> k -> printable (Call.req kw k') = true) ->
  Call.request x (Dict.set k v kw) w = Some (Raised e).
Proof.
  intros T E A S.
  assert (V : Py.is_not_None v = true) by (destruct v; try reflexivity; discriminate E).
  assert (U : forall k', In k' (uppercased x) ->
                         text_argument x (Dict.set k v kw) k' = true).
  { apply forallb_forall. exact A. }
  assert (S' : forall k', In k' (formatted x) -> k' <> k ->
                          printable (Call.req (Dict.set k v kw) k') = true).
  { intros k' F D. rewrite req_set_other by congruence. now apply S. }
  clear A S.
  destruct x; cbn in T; pick T k.
  all: cbn [Call.request]; unfold_builders_goal; cbn [default]; cbv zeta.
  all: rewrite ?req_default.
  all: repeat (cbv beta iota delta [obind];
          match goal with
          | |- context [Py.upper ?a] =>
              destruct (Py.upper a) eqn:?; [| no_failure U U]
          | |- context [Py.str (Call.req (Dict.set ?k0 ?v0 ?d) ?k0)] =>
              rewrite (req_set_same d k0 v0), ?V, E
          | |- context [Py.is_not_None (Call.req (Dict.set ?k0 ?v0 ?d) ?k0)] =>
              rewrite (req_set_same d k0 v0), ?V, ?E
          | |- context [Py.str (date_text (Call.req ?d ?k'))] =>
              let X := fresh in
              destruct (Py.str (date_text (Call.req d k'))) eqn:X;
              [| exfalso;
                 apply (printable_date_text _ _ (S' k' ltac:(simpl; tauto) ltac:(discriminate)) X)]
          | |- context [Py.str (Call.req ?d ?k')] =>
              let X := fresh in
              destruct (Py.str (Call.req d k')) eqn:X;
              [| exfalso;
                 apply (printable_str _ _ (S' k' ltac:(simpl; tauto) ltac:(discriminate)) X)]
          | |- context [if ?c then _ else _] =>
              lazymatch c with
              | true => fail
              | false => fail
              | _ => destruct c eqn:?
              end
          end).
  all: reflexivity.
Qed.

(** X11.  [adjusted], [active] and [reverse_split] are sent whenever they
    are given, not [None], and [str] can write them, as the lower-case
    text of [str(value)]: [True] as true, and also a falsy 0 as the text
    0.  With text where a ticker is due and arguments that can be written
    the query is built; and a flag that [str] cannot write (an [int] of
    more than 4300 digits) makes the builder raise that exception. *)
Theorem given_flag_is_sent_as_text
    (x : Tool.t) (k : string) (v : pyval) (kw : kwargs) (w : world) :
  In k (tested_for_None x) ->
  v <> PNone ->
  (text_arguments x (Dict.set k v kw) = true ->
   printable_arguments x (Dict.set k v kw) = true ->
   exists p, Call.query x (Dict.set k v kw) w = Some p) /\
  (forall p, Call.query x (Dict.set k v kw) w = Some p ->
     exists s, Py.str v = Returned s /\ Dict.get k p = Some (PStr (Text.lower s))) /\
  (forall n, v = PInt n -> 10 ^ Py.max_str_digits <= Z.abs n ->
     text_arguments x (Dict.set k v kw) = true ->
     (forall k', In k' (formatted x) -> k' <> k -> printable (Call.req kw k') = true) ->
     Call.request x (Dict.set k v kw) w = Some (Raised int_too_long)).
Proof.
  intros T N. split; [| split].
  - intros A S. apply (query_is_built x _ w (tested_tool x k (or_intror T)) A S).
  - intros p Q. now apply (flag_in_query x k v kw w p).
  - intros n -> L A S. apply flag_unwritten; auto using long_int_raises.
Qed.

(** The statement on [get_previous_close] with [adjusted = 0]. *)
Lemma given_flag_is_sent_as_text_example :
  exists p,
    Call.query Tool.get_previous_close [("ticker", PStr "nvda"); ("adjusted", PInt 0)]
      (stub None 200 (Body_json JNull)) = Some p /\
    Dict.get "adjusted" p = Some (PStr "0").
Proof.
  destruct (given_flag_is_sent_as_text Tool.get_previous_close "adjusted" (PInt 0)
              [("ticker", PStr "nvda")] (stub None 200 (Body_json JNull))
              ltac:(simpl; tauto) ltac:(discriminate)) as (B & V & _).
  destruct (B eq_refl eq_refl) as [p Q].
  exists p. split; [exact Q |].
  destruct (V p Q) as (s & E & G). injection E as <-. exact G.
Defined.

(** A flag leaves the other entries of the query as they are. *)
Lemma set_flag_other (k : string) (v : pyval) (p q : params) (k' : string) :
  set_flag k v p = Returned q -> k <> k' -> Dict.get k' q = Dict.get k' p.
Proof.
  unfold set_flag. destruct (Py.is_not_None v).
  - destruct (Py.str v) as [s |]; cbn [obind]; [| discriminate].
    intros E N. injection E as <-. now apply get_set_other.
  - intros E N. now injection E as <-.
Qed.

(** X12.  [get_intraday_aggregates] builds the request of
    [get_aggregates] from the same arguments: the same one while
    [include_otc] is left out or falsy, and otherwise the same path and
    query with the entry [include_otc = true] added at the end. *)
Theorem intraday_builds_the_aggregates_request (kw : kwargs) (w : world) :
  (Py.truthy (default (PBool false) (Call.opt kw "include_otc")) = false ->
   Call.request Tool.get_intraday_aggregates kw w
   = Call.request Tool.get_aggregates kw w) /\
  (Py.truthy (default (PBool false) (Call.opt kw "include_otc")) = true ->
   forall path p,
     Call.request Tool.get_aggregates kw w = Some (Returned (path, Some p)) ->
     Call.request Tool.get_intraday_aggregates kw w
     = Some (Returned (path, Some (p ++ [("include_otc", PStr "true")])%list))).
Proof.
  split; intros O.
  - cbn [Call.request].
    unfold get_intraday_aggregates_request, get_aggregates_request.
    cbv zeta. rewrite O. reflexivity.
  - intros path p. cbn [Call.request].
    unfold get_intraday_aggregates_request, get_aggregates_request.
    cbv zeta. rewrite O.
    destruct (aggregates_path _ _ _ _ _) as [pa | e]; cbn [obind]; [| discriminate].
    destruct (set_flag _ _ _) as [q | e] eqn:F; cbn [obind]; [| discriminate].
    intros H. apply some_inj in H. injection H as <- <-.
    rewrite set_absent; [reflexivity |].
    rewrite !get_if_set_other by discriminate.
    now rewrite (set_flag_other _ _ _ _ "include_otc" F) by discriminate.
Qed.

(** X13.  [get_cash_flow] is [get_balance_sheet] under another name: the
    two bind the same arguments, build the same request to
    [/vX/reference/financials], and a call that binds gives the same
    result and sends the same request. *)
Theorem cash_flow_is_balance_sheet (kw : kwargs) (w : world) :
  Call.request Tool.get_cash_flow kw w = Call.request Tool.get_balance_sheet kw w /\
  (Call.check_args Tool.get_cash_flow kw = Returned tt <->
   Call.check_args Tool.get_balance_sheet kw = Returned tt) /\
  (Call.check_args Tool.get_balance_sheet kw = Returned tt ->
   Call.invoke Tool.get_cash_flow kw w = Call.invoke Tool.get_balance_sheet kw w).
Proof.
  assert (E : forall c, (Call.check_args Tool.get_cash_flow kw = Returned c <->
                         Call.check_args Tool.get_balance_sheet kw = Returned c)).
  { intros c. unfold Call.check_args.
    change (Tool.param_names Tool.get_cash_flow)
      with (Tool.param_names Tool.get_balance_sheet).
    change (Tool.required_names Tool.get_cash_flow)
      with (Tool.required_names Tool.get_balance_sheet).
    destruct (filter _ (Dict.keys kw)); [| split; discriminate].
    destruct (filter _ (Tool.required_names _)); [tauto | split; discriminate]. }
  split; [reflexivity |]. split; [apply E |].
  intros C. unfold Call.invoke. rewrite C, (proj2 (E tt) C). reflexivity.
Qed.

(* ================================================================== *)
(** * The years of the calendar *)
(* ================================================================== *)

Lemma all_from_spec (f : Z -> bool) (n : nat) (lo : Z) :
  all_from f lo n = true -> forall z, lo <= z < lo + Z.of_nat n -> f z = true.
Proof.
  revert lo. induction n as [| n IH]; intros lo H z R.
  - lia.
  - cbn [all_from] in H. apply andb_true_iff in H. destruct H as [H0 H1].
    destruct (Z.eq_dec z lo) as [-> | N]; [exact H0 |].
    apply (IH (lo + 1) H1). lia.
Qed.

Lemma era_days_ok (doe : Z) : 0 <= doe < 146097 -> era_day_ok doe = true.
Proof.
  intros R. apply (all_from_spec era_day_ok (Z.to_nat 146097) 0).
  - vm_compute. reflexivity.
  - lia.
Qed.

Lemma civil_of_day (z : Z) :
  Datetime.civil_from_days z
  = let '(y, m, d) := civil_of_era_day ((z + 719468) mod 146097) in
    (y + (z + 719468) / 146097 * 400, m, d).
Proof.
  unfold Datetime.civil_from_days, civil_of_era_day. cbv zeta.
  rewrite Z.mod_eq by lia.
  replace (z + 719468 - (z + 719468) / 146097 * 146097)
    with (z + 719468 - 146097 * ((z + 719468) / 146097)) by lia.
  match goal with |- context [if ?c then _ else _] => destruct c end;
    f_equal; f_equal; lia.
Qed.

(** The calendar day of [z], by its era and its day of the era. *)
Lemma day_facts (z : Z) :
  exists y m d era doe,
    Datetime.civil_from_days z = (y + era * 400, m, d) /\
    z + 719468 = 146097 * era + doe /\ 0 <= doe < 146097 /\
    0 <= y <= 400 /\ (1 <= y <-> 306 <= doe) /\ (200 <= y <-> 72989 <= doe) /\
    (y <= 399 <-> doe <= 146036) /\ 1 <= m <= 12 /\ 1 <= d <= 31.
Proof.
  pose proof (era_days_ok ((z + 719468) mod 146097)
                (Z.mod_pos_bound _ 146097 ltac:(lia))) as E.
  pose proof (civil_of_day z) as C.
  pose proof (Z.div_mod (z + 719468) 146097 ltac:(lia)) as D.
  pose proof (Z.mod_pos_bound (z + 719468) 146097 ltac:(lia)) as B.
  unfold era_day_ok in E.
  destruct (civil_of_era_day _) as [[y m] d].
  exists y, m, d, ((z + 719468) / 146097), ((z + 719468) mod 146097).
  rewrite !andb_true_iff in E.
  destruct E as [[[[[[[[E0 E1] E2] E3] E4] E5] E6] E7] E8].
  apply Z.leb_le in E0, E1, E5, E6, E7, E8.
  apply Bool.eqb_prop in E2, E3, E4.
  rewrite <- !Z.leb_le. rewrite E2, E3, E4. rewrite !Z.leb_le.
  repeat split; try assumption; try lia; try tauto.
Qed.

(** The days whose year [datetime] accepts: 0001-01-01 to 9999-12-31. *)
Lemma year_ok_days (z : Z) :
  Datetime.year_ok (fst (fst (Datetime.civil_from_days z))) = true
  <-> -719162 <= z <= 2932896.
Proof.
  destruct (day_facts z)
    as (y & m & d & era & doe & -> & Z' & B & Y & Y1 & Y2 & Y3 & M & D).
  cbn [fst]. unfold Datetime.year_ok, Datetime.MINYEAR, Datetime.MAXYEAR.
  rewrite andb_true_iff, !Z.leb_le. lia.
Qed.

(** The days of the years 1000 to 9999. *)
Lemma four_digit_days (z : Z) :
  -354285 <= z <= 2932896 -> four_digit_day (Datetime.civil_from_days z).
Proof.
  intros R. destruct (day_facts z)
    as (y & m & d & era & doe & -> & Z' & B & Y & Y1 & Y2 & Y3 & M & D).
  unfold four_digit_day. repeat split; lia.
Qed.

(** The instants [datetime] accepts. *)
Lemma year_ok_seconds (s us : Z) :
  Datetime.year_ok (Datetime.year (Datetime.At s us)) = true
  <-> -62135596800 <= s <= 253402300799.
Proof.
  unfold Datetime.year. cbn [Datetime.seconds]. rewrite year_ok_days.
  pose proof (Z.div_mod s 86400 ltac:(lia)).
  pose proof (Z.mod_pos_bound s 86400 ltac:(lia)).
  lia.
Qed.

Lemma year_ok_false (s us : Z) :
  s < -62135596800 \/ 253402300799 < s ->
  Datetime.year_ok (Datetime.year (Datetime.At s us)) = false.
Proof.
  intros R. destruct (Datetime.year_ok _) eqn:E; [| reflexivity].
  apply year_ok_seconds in E. lia.
Qed.

Lemma fromtimestamp_int_cases (n : Z) :
  (-62135596800 <= n <= 253402300799 ->
   Datetime.fromtimestamp_int n = Returned (Datetime.At n 0)) /\
  (n < -62135596800 \/ 253402300799 < n ->
   exists e, Datetime.fromtimestamp_int n = Raised e).
Proof.
  unfold Datetime.fromtimestamp_int, Datetime.of_time_t, Datetime.time_t_overflow.
  split; intros R.
  - destruct (Z.ltb_spec n (- 2 ^ 63)); [lia |].
    destruct (Z.leb_spec (2 ^ 63) n); [lia |]. cbn [orb].
    destruct (Z.ltb_spec n (-67768040609740800)); [lia |].
    destruct (Z.ltb_spec 67768036191676799 n); [lia |]. cbn [orb].
    now rewrite (proj2 (year_ok_seconds n 0) R).
  - destruct (_ || _); [eexists; reflexivity |].
    destruct (_ || _); [eexists; reflexivity |].
    rewrite (year_ok_false n 0 R). eexists; reflexivity.
Qed.

Lemma add_days_back (s : Z) :
  -62133004800 <= s <= 253402300799 ->
  Datetime.add_days (Datetime.At s 0) (-30) = Returned (Datetime.At (s - 2592000) 0).
Proof.
  intros R. unfold Datetime.add_days, Datetime.add_seconds.
  cbn [Datetime.seconds Datetime.microsecond].
  replace (s + -30 * 86400) with (s - 2592000) by lia.
  now rewrite (proj2 (year_ok_seconds (s - 2592000) 0)) by lia.
Qed.

(* ================================================================== *)
(** * Sessions and Eastern time *)
(* ================================================================== *)

(** The minute of the day, five hours behind. *)
Lemma minute_of_day_shifted (s : Z) :
  let m := (s mod 86400) / 3600 * 60 + ((s mod 86400) mod 3600) / 60 in
  let m' := ((s - 18000) mod 86400) / 3600 * 60
            + (((s - 18000) mod 86400) mod 3600) / 60 in
  0 <= m < 1440 /\ m' = (m - 300) mod 1440.
Proof.
  cbv zeta.
  pose proof (Z.div_mod s 86400 ltac:(lia)).
  pose proof (Z.mod_pos_bound s 86400 ltac:(lia)).
  pose proof (Z.div_mod (s - 18000) 86400 ltac:(lia)).
  pose proof (Z.mod_pos_bound (s - 18000) 86400 ltac:(lia)).
  set (a := s mod 86400) in *. set (b := (s - 18000) mod 86400) in *.
  assert (B : b = if 18000 <=? a then a - 18000 else a + 68400).
  { destruct (Z.leb_spec 18000 a); lia. }
  clearbody a b.
  Z.div_mod_to_equations. destruct (Z.leb_spec 18000 a); lia.
Qed.

(** X14.  The session that [convert_utc_to_et] and
    [get_intraday_aggregates] give an instant depends on its UTC clock
    time alone, not on the date (week day, holiday, summer time): with
    [m] the UTC minute of the day, it is pre_market for [m] in
    [540, 870) (09:00 to 14:30 UTC), regular_market for [m] in
    [870, 1260), after_hours from 1260 to midnight and on to 01:00 UTC,
    and market_closed for [m] in [60, 540). *)
Theorem session_by_utc_clock (utc et : Datetime.t) :
  Datetime.add_hours utc (-5) = Returned et ->
  let m := Datetime.hour utc * 60 + Datetime.minute utc in
  let session := _determine_market_session (Datetime.hour et) (Datetime.minute et) in
  0 <= m < 1440 /\
  (540 <= m < 870 -> session = "pre_market") /\
  (870 <= m < 1260 -> session = "regular_market") /\
  (1260 <= m \/ m < 60 -> session = "after_hours") /\
  (60 <= m < 540 -> session = "market_closed").
Proof.
  intros E m session. apply add_hours_seconds in E. destruct E as [S _].
  subst m session. unfold _determine_market_session, Datetime.hour, Datetime.minute.
  cbv zeta. rewrite S.
  replace (Datetime.seconds utc + -5 * 3600) with (Datetime.seconds utc - 18000) by lia.
  destruct (minute_of_day_shifted (Datetime.seconds utc)) as [R ->].
  set (m := _ * 60 + _) in *. clearbody m.
  split; [exact R |].
  assert (M : (m - 300) mod 1440 = if 300 <=? m then m - 300 else m + 1140).
  { destruct (Z.leb_spec 300 m); Z.div_mod_to_equations; lia. }
  rewrite M. clear M.
  repeat split; intros H;
    destruct (Z.leb_spec 300 m);
    repeat match goal with
    | |- context [?a <=? ?b] => destruct (Z.leb_spec a b); cbn [andb]
    | |- context [?a <? ?b] => destruct (Z.ltb_spec a b); cbn [andb]
    end; try reflexivity; lia.
Qed.

(** The statement on Saturday 6 July 2024, 14:30 UTC (10:30 in New York,
    where summer time is four hours behind): the regular session. *)
Lemma session_by_utc_clock_example :
  _determine_market_session (Datetime.hour (Datetime.At 1720258200 0))
    (Datetime.minute (Datetime.At 1720258200 0)) = "regular_market".
Proof.
  apply (proj1 (proj2 (proj2 (session_by_utc_clock (Datetime.At 1720276200 0)
                                (Datetime.At 1720258200 0) eq_refl)))).
  unfold Datetime.hour, Datetime.minute. simpl. lia.
Defined.

(** X15.  [convert_utc_to_et] on an [int]: for a count of seconds from
    0001-01-01 05:00:00 to 9999-12-31 23:59:59 UTC it returns the document
    with the number itself, the UTC text of the instant, the text of the
    instant five hours earlier and the session of that; for every other
    integer it returns an error text; it never sends a request. *)
Theorem convert_utc_to_et_of_int (n : Z) (w : world) :
  let call := Call.invoke Tool.convert_utc_to_et [("utc_timestamp", PInt n)] w in
  (-62135578800 <= n <= 253402300799 ->
   result_of call
   = Returned (Json.dumps (JDict [
       ("utc_timestamp", JInt n);
       ("utc_datetime", JStr (Datetime.strftime_Ymd_HMS "UTC" (Datetime.At n 0)));
       ("et_datetime", JStr (Datetime.strftime_Ymd_HMS "ET" (Datetime.At (n - 18000) 0)));
       ("market_session", session_of (Datetime.At (n - 18000) 0))]))) /\
  (n < -62135578800 \/ 253402300799 < n ->
   exists e, result_of call = Returned ("Error: " ++ exn_msg e)) /\
  requests_of call = [].
Proof.
  intros call. subst call.
  unfold Call.invoke, bind, lift.
  change (Call.check_args Tool.convert_utc_to_et [("utc_timestamp", PInt n)])
    with (@Returned unit tt).
  cbn [Call.body Call.req Dict.get String.eqb Ascii.eqb Bool.eqb].
  unfold convert_utc_to_et, convert_utc_to_et_result, session_of.
  cbn [Op.fromtimestamp Py.to_json].
  unfold or_error, try_except, bind, lift, ret, result_of, requests_of.
  unfold Datetime.add_hours, Datetime.add_seconds, et_offset_hours.
  destruct (fromtimestamp_int_cases n) as [IN OUT].
  split; [| split].
  - intros R. rewrite IN by lia. cbn [obind Datetime.seconds Datetime.microsecond].
    replace (n + -5 * 3600) with (n - 18000) by lia.
    rewrite (proj2 (year_ok_seconds (n - 18000) 0)) by lia.
    reflexivity.
  - intros R.
    destruct (Z_lt_le_dec n (-62135596800)) as [L | L];
      [| destruct (Z_lt_le_dec 253402300799 n) as [U | U]].
    + destruct OUT as [e E]; [lia |]. rewrite E. exists e. reflexivity.
    + destruct OUT as [e E]; [lia |]. rewrite E. exists e. reflexivity.
    + rewrite IN by lia. cbn [obind Datetime.seconds Datetime.microsecond].
      replace (n + -5 * 3600) with (n - 18000) by lia.
      rewrite (year_ok_false (n - 18000) 0) by lia.
      eexists. reflexivity.
  - destruct (Datetime.fromtimestamp_int n) as [utc | e]; cbn [obind]; [| reflexivity].
    destruct (Datetime.year_ok _); reflexivity.
Qed.

(** The loop ends at the first item on which its body raises. *)
Lemma for_each_raises {A B} (f : A -> outcome B) (good : list A) (a : A) (rest : list A)
      (e : exn) :
  Forall (fun g => exists b, f g = Returned b) good ->
  f a = Raised e ->
  Op.for_each f (good ++ a :: rest) = Raised e.
Proof.
  intros G E. induction G as [| g r [b R] _ IH]; cbn [app Op.for_each].
  - rewrite E. reflexivity.
  - rewrite R. cbn [obind]. rewrite IH. reflexivity.
Qed.

(** X16.  One bar that cannot be augmented fails the whole response of
    [get_intraday_aggregates]: when the augmentation raises on a bar of
    [results] (a timestamp [t] that is no number, or one that is out of
    range) and on no bar before it, the tool returns the error text of
    that bar, the first that fails, and none of the data. *)
Theorem one_bad_bar_fails_the_whole_response
    (kw : kwargs) (w : world) (key : string) (d : list (string * json))
    (good : list json) (bar : json) (rest : list json) (e : exn) :
  Call.check_args Tool.get_intraday_aggregates kw = Returned tt ->
  text_arguments Tool.get_intraday_aggregates kw = true ->
  printable_arguments Tool.get_intraday_aggregates kw = true ->
  has_key w key ->
  answers w (JDict d) ->
  Dict.get "results" d = Some (JList (good ++ bar :: rest)) ->
  Forall (fun g => exists g', add_session g = Returned g') good ->
  add_session bar = Raised e ->
  result_of (Call.invoke Tool.get_intraday_aggregates kw w)
  = Returned ("Error: " ++ exn_msg e).
Proof.
  intros C T S K A G F E.
  rewrite (invoke_checked _ kw w C).
  destruct (request_is_built Tool.get_intraday_aggregates kw w _
              (or_intror eq_refl) T S eq_refl) as [req R].
  cbn [Call.body]. unfold get_intraday_aggregates.
  rewrite (intraday_answered _ req w key (JDict d) R K A).
  unfold add_sessions, Op.contains, Op.subscript, Dict.mem. rewrite G.
  cbn [obind].
  assert (T' : Json.truthy (JList (good ++ bar :: rest)) = true) by now destruct good.
  rewrite T'. cbn [Op.iterate obind].
  rewrite (for_each_raises add_session good bar rest e F E). reflexivity.
Qed.

(** The statement on a response whose second bar has a null timestamp
    and whose third has a text for one. *)
Lemma one_bad_bar_fails_the_whole_response_example :
  result_of
    (Call.invoke Tool.get_intraday_aggregates
       [("ticker", PStr "nvda"); ("multiplier", PInt 5); ("timespan", PStr "minute");
        ("from_date", PStr "2024-01-01"); ("to_date", PStr "2024-01-01")]
       (stub (Some "KEY") 200
          (Body_json (JDict [("results", JList [JDict [("t", JInt 1704119400000)];
                                                JDict [("t", JNull)];
                                                JDict [("t", JStr "noon")]])]))))
  = Returned "Error: unsupported operand type(s) for /: 'NoneType' and 'int'".
Proof.
  apply (one_bad_bar_fails_the_whole_response
           [("ticker", PStr "nvda"); ("multiplier", PInt 5); ("timespan", PStr "minute");
            ("from_date", PStr "2024-01-01"); ("to_date", PStr "2024-01-01")]
           (stub (Some "KEY") 200 _) "KEY"
           [("results", JList [JDict [("t", JInt 1704119400000)]; JDict [("t", JNull)];
                               JDict [("t", JStr "noon")]])]
           [JDict [("t", JInt 1704119400000)]]
           (JDict [("t", JNull)])
           [JDict [("t", JStr "noon")]]
           (Exn TypeError "unsupported operand type(s) for /: 'NoneType' and 'int'")).
  - reflexivity.
  - reflexivity.
  - reflexivity.
  - apply stub_has_key. discriminate.
  - apply stub_answers.
  - reflexivity.
  - constructor; [eexists; vm_compute; reflexivity | constructor].
  - reflexivity.
Defined.

(** Assigning the value a key already has changes nothing. *)
Lemma set_get_same {V} (k : string) (v : V) (d : Dict.t V) :
  Dict.get k d = Some v -> Dict.set k v d = d.
Proof.
  induction d as [| [k' v'] r IH]; simpl; [discriminate |].
  destruct (String.eqb_spec k k') as [-> | N].
  - intros E. injection E as ->. reflexivity.
  - intros E. now rewrite IH.
Qed.

Lemma add_session_again (bar bar' : json) :
  add_session bar = Returned bar' -> add_session bar' = Returned bar'.
Proof.
  intros H. destruct (add_session_cases bar bar' H)
    as [[N ->] | (d & t & utc & et & -> & G & U & E & ->)]; [exact H |].
  unfold add_session. cbn [Op.contains Op.subscript obind].
  unfold Dict.mem.
  rewrite !get_set_other by discriminate. rewrite G. cbn [obind].
  rewrite U. cbn [obind]. rewrite E. cbn [obind Op.setitem].
  fold (session_of et). fold (et_text et).
  rewrite (set_get_same "market_session" (session_of et)).
  - rewrite (set_get_same "et_time" (et_text et)); [reflexivity |].
    apply get_set_same.
  - rewrite get_set_other by discriminate. apply get_set_same.
Qed.

Lemma for_each_again {A} (f : A -> outcome A) (l l' : list A) :
  (forall a a', f a = Returned a' -> f a' = Returned a') ->
  Op.for_each f l = Returned l' -> Op.for_each f l' = Returned l'.
Proof.
  intros I. revert l'. induction l as [| a r IH]; simpl; intros l' H.
  - injection H as <-. reflexivity.
  - destruct (f a) as [b |] eqn:E; [| discriminate]. cbn [obind] in H.
    destruct (Op.for_each f r) as [bs |]; [| discriminate]. cbn [obind] in H.
    injection H as <-. simpl. rewrite (I a b E). cbn [obind].
    rewrite (IH bs eq_refl). reflexivity.
Qed.

(** X17.  The session augmentation is idempotent: applied to a body it
    has augmented, it returns that body unchanged.  (A response whose bars
    already carry the [market_session] and [et_time] the tool computes is
    printed as it is.) *)
Theorem session_augmentation_is_idempotent (data data' : json) :
  add_sessions data = Returned data' -> add_sessions data' = Returned data'.
Proof.
  intros H. destruct (add_sessions_cases data data' H)
    as [[-> _] | (d & items & items' & -> & G & F & ->)]; [exact H |].
  unfold add_sessions. cbn [Op.contains Op.subscript obind]. unfold Dict.mem.
  rewrite get_set_same. cbn [obind].
  destruct items' as [| b r] eqn:I; [reflexivity |]. rewrite <- I in *.
  assert (T : Json.truthy (JList items') = true) by (rewrite I; reflexivity).
  rewrite T. cbn [Op.iterate obind].
  rewrite (for_each_again add_session items items' add_session_again F).
  cbn [obind Op.setitem].
  rewrite (set_get_same "results" (JList items')); [reflexivity | apply get_set_same].
Qed.

(** The statement on a body with one augmented bar. *)
Lemma session_augmentation_is_idempotent_example :
  add_sessions
    (JDict [("results", JList [JDict [("t", JInt 1704119400000);
                                      ("market_session", JStr "regular_market");
                                      ("et_time", JStr "2024-01-01 09:30:00 ET")]])])
  = Returned
      (JDict [("results", JList [JDict [("t", JInt 1704119400000);
                                        ("market_session", JStr "regular_market");
                                        ("et_time", JStr "2024-01-01 09:30:00 ET")]])]).
Proof.
  apply (session_augmentation_is_idempotent
           (JDict [("results", JList [JDict [("t", JInt 1704119400000)]])])).
  reflexivity.
Defined.

(* ================================================================== *)
(** * The tools that return a sentence *)
(* ================================================================== *)

(** X18.  On a body without a [results] entry the three tools that
    return a sentence name the ticker as the caller wrote it and report
    nothing: [stock_price] an empty list, [stock_info] and
    [income_statement] an empty dict.  ([stock_price] needs a clock
    between 0001-01-31 and the end of the year 9999 for its window of
    thirty days.) *)
Theorem sentence_tools_without_results
    (ticker : string) (d : list (string * json)) (w : world) (key : string) :
  has_key w key ->
  answers w (JDict d) ->
  Dict.get "results" d = None ->
  -62133004800 <= now w <= 253402300799 ->
  let kw := [("stock_ticker", PStr ticker)] in
  result_of (Call.invoke Tool.stock_price kw w)
    = Returned ("Stock price over the last month for " ++ ticker ++ ": []") /\
  result_of (Call.invoke Tool.stock_info kw w)
    = Returned ("Background information for " ++ ticker ++ ": {}") /\
  result_of (Call.invoke Tool.income_statement kw w)
    = Returned ("Income statement for " ++ ticker ++ ": {}").
Proof.
  intros K A N R kw. subst kw.
  repeat split.
  - rewrite invoke_checked by reflexivity.
    cbn [Call.body Call.req Dict.get String.eqb Ascii.eqb Bool.eqb].
    unfold stock_price, datetime_now, bind, lift, ret, result_of.
    rewrite (add_days_back (now w) R).
    cbn [stock_price_request Py.upper obind fst snd].
    rewrite (polygon_get_answered w key (JDict d) _ _ K A).
    cbn [Op.as_dict]. rewrite N. reflexivity.
  - rewrite invoke_checked by reflexivity.
    cbn [Call.body Call.req Dict.get String.eqb Ascii.eqb Bool.eqb].
    unfold stock_info, bind, lift, ret, result_of.
    cbn [stock_info_request Py.upper obind fst snd].
    rewrite (polygon_get_answered w key (JDict d) _ _ K A).
    cbn [Op.as_dict]. rewrite N. reflexivity.
  - rewrite invoke_checked by reflexivity.
    cbn [Call.body Call.req Dict.get String.eqb Ascii.eqb Bool.eqb].
    unfold income_statement, bind, lift, ret, result_of.
    cbn [income_statement_request Py.upper obind fst snd].
    rewrite (polygon_get_answered w key (JDict d) _ _ K A).
    cbn [Op.as_dict]. unfold Json.get. rewrite N. reflexivity.
Qed.

(** The statement on [stock_price] for nvda and a body that only reports
    a status. *)
Lemma sentence_tools_without_results_example :
  result_of (Call.invoke Tool.stock_price [("stock_ticker", PStr "nvda")]
               (stub (Some "KEY") 200 (Body_json (JDict [("status", JStr "OK")]))))
  = Returned "Stock price over the last month for nvda: []".
Proof.
  apply (proj1 (sentence_tools_without_results "nvda" [("status", JStr "OK")]
                  (stub (Some "KEY") 200 (Body_json (JDict [("status", JStr "OK")])))
                  "KEY"
                  (stub_has_key "KEY" 200 _ ltac:(discriminate))
                  (stub_answers (Some "KEY") _)
                  eq_refl
                  ltac:(simpl; lia))).
Defined.

(** X19.  [stock_price], [stock_info] and [income_statement] need an
    object for a body: when the upstream answers with JSON that is no
    object (a list, a string, a number, null), they raise the
    [AttributeError] of [.get] on it. *)
Theorem sentence_tools_need_an_object
    (x : Tool.t) (ticker : string) (b : json) (w : world) (key : string) :
  guarded x = false ->
  has_key w key ->
  answers w b ->
  (forall d, b <> JDict d) ->
  -62133004800 <= now w <= 253402300799 ->
  result_of (Call.invoke x [("stock_ticker", PStr ticker)] w)
  = Raised (Exn AttributeError
              ("'" ++ Json.type_name b ++ "' object has no attribute 'get'")).
Proof.
  intros G K A N R.
  assert (E : Op.as_dict b
              = Raised (Exn AttributeError
                          ("'" ++ Json.type_name b ++ "' object has no attribute 'get'"))).
  { destruct b; try reflexivity. now destruct (N entries). }
  destruct x; try discriminate G.
  - rewrite invoke_checked by reflexivity.
    cbn [Call.body Call.req Dict.get String.eqb Ascii.eqb Bool.eqb].
    unfold stock_price, datetime_now, bind, lift, ret, result_of.
    rewrite (add_days_back (now w) R).
    cbn [stock_price_request Py.upper obind fst snd].
    rewrite (polygon_get_answered w key b _ _ K A).
    rewrite E. reflexivity.
  - rewrite invoke_checked by reflexivity.
    cbn [Call.body Call.req Dict.get String.eqb Ascii.eqb Bool.eqb].
    unfold stock_info, bind, lift, ret, result_of.
    cbn [stock_info_request Py.upper obind fst snd].
    rewrite (polygon_get_answered w key b _ _ K A).
    rewrite E. reflexivity.
  - rewrite invoke_checked by reflexivity.
    cbn [Call.body Call.req Dict.get String.eqb Ascii.eqb Bool.eqb].
    unfold income_statement, bind, lift, ret, result_of.
    cbn [income_statement_request Py.upper obind fst snd].
    rewrite (polygon_get_answered w key b _ _ K A).
    rewrite E. reflexivity.
Qed.

(** The statement on [stock_info] and an empty list. *)
Lemma sentence_tools_need_an_object_example :
  result_of (Call.invoke Tool.stock_info [("stock_ticker", PStr "ibm")]
               (stub (Some "KEY") 200 (Body_json (JList []))))
  = Raised (Exn AttributeError
              ("'" ++ Json.type_name (JList []) ++ "' object has no attribute 'get'")).
Proof.
  apply (sentence_tools_need_an_object Tool.stock_info "ibm" (JList [])
           (stub (Some "KEY") 200 (Body_json (JList []))) "KEY").
  - reflexivity.
  - apply stub_has_key. discriminate.
  - apply stub_answers.
  - discriminate.
  - simpl. lia.
Defined.

(** X20.  [income_statement] reports the first entry of [results] and no
    other, as Python prints it, after one request for the quarterly
    financials of the upper-case ticker with [limit = 1] and
    [order = desc]. *)
Theorem income_statement_reports_the_first_result
    (ticker : string) (d : list (string * json)) (first : json) (rest : list json)
    (w : world) (key : string) :
  has_key w key ->
  answers w (JDict d) ->
  Dict.get "results" d = Some (JList (first :: rest)) ->
  Call.invoke Tool.income_statement [("stock_ticker", PStr ticker)] w
  = (Returned ("Income statement for " ++ ticker ++ ": " ++ Json.str first),
     [Sent "https://api.polygon.io/vX/reference/financials"
        [("ticker", PStr (Text.upper ticker)); ("timeframe", PStr "quarterly");
         ("limit", PInt 1); ("order", PStr "desc"); ("apiKey", PStr key)] 20]).
Proof.
  intros K A G.
  unfold Call.invoke. unfold bind at 1. unfold lift at 1.
  change (Call.check_args Tool.income_statement [("stock_ticker", PStr ticker)])
    with (@Returned unit tt).
  cbn [Call.body Call.req Dict.get String.eqb Ascii.eqb Bool.eqb].
  unfold income_statement, bind, lift, ret.
  cbn [income_statement_request Py.upper obind fst snd].
  rewrite (polygon_get_answered w key (JDict d) _ _ K A).
  cbn [Op.as_dict]. unfold Json.get. rewrite G. reflexivity.
Qed.

(** The statement on a body with two quarters. *)
Lemma income_statement_reports_the_first_result_example :
  Call.invoke Tool.income_statement [("stock_ticker", PStr "ibm")]
    (stub (Some "KEY") 200
       (Body_json (JDict [("results", JList [JDict [("fiscal_period", JStr "Q1")];
                                             JDict [("fiscal_period", JStr "Q4")]])])))
  = (Returned "Income statement for ibm: {'fiscal_period': 'Q1'}",
     [Sent "https://api.polygon.io/vX/reference/financials"
        [("ticker", PStr "IBM"); ("timeframe", PStr "quarterly");
         ("limit", PInt 1); ("order", PStr "desc"); ("apiKey", PStr "KEY")] 20]).
Proof.
  apply (income_statement_reports_the_first_result "ibm"
           [("results", JList [JDict [("fiscal_period", JStr "Q1")];
                               JDict [("fiscal_period", JStr "Q4")]])]
           (JDict [("fiscal_period", JStr "Q1")])
           [JDict [("fiscal_period", JStr "Q4")]]
           (stub (Some "KEY") 200 _) "KEY").
  - apply stub_has_key. discriminate.
  - apply stub_answers.
  - reflexivity.
Defined.

(* ================================================================== *)
(** * get_ticker_exchange_info with results *)
(* ================================================================== *)

(** X21.  When [results] of the upstream body is a record that is not
    empty, [get_ticker_exchange_info] prints a document of eleven entries
    in a fixed order: [ticker] in upper case, nine fields copied from the
    record ([null] where the record has none), and the fixed
    [polygon_coverage]; no other field of the record is passed on. *)
Theorem ticker_exchange_info_with_results
    (ticker : string) (d info : list (string * json)) (w : world) (key : string) :
  has_key w key ->
  answers w (JDict d) ->
  Dict.get "results" d = Some (JDict info) ->
  info <> [] ->
  exists doc,
    result_of (Call.invoke Tool.get_ticker_exchange_info [("ticker", PStr ticker)] w)
      = Returned (Json.dumps (JDict doc)) /\
    Dict.keys doc = ("ticker" :: copied_fields ++ ["polygon_coverage"])%list /\
    Dict.get "ticker" doc = Some (JStr (Text.upper ticker)) /\
    (forall k, In k copied_fields -> Dict.get k doc = Some (Json.get k info)) /\
    Dict.get "polygon_coverage" doc = Some polygon_coverage.
Proof.
  intros K A G NE.
  eexists. split; [| split; [| split; [| split]]].
  - rewrite invoke_checked by reflexivity.
    cbn [Call.body Call.req Dict.get String.eqb Ascii.eqb Bool.eqb].
    unfold get_ticker_exchange_info.
    erewrite or_error_returned; [reflexivity |].
    unfold bind, lift, ret.
    cbn [get_ticker_exchange_info_request Py.upper obind fst snd].
    rewrite (polygon_get_answered w key (JDict d) _ None K A).
    unfold ticker_exchange_document, Op.contains, Op.subscript, Dict.mem.
    rewrite G. cbn [obind Json.truthy].
    destruct info as [| e r]; [contradiction |].
    unfold exchange_coverage. cbn [Py.upper Op.as_dict obind].
    reflexivity.
  - reflexivity.
  - reflexivity.
  - intros k I. cbn in I.
    repeat (destruct I as [<- | I]; [reflexivity |]). contradiction.
  - reflexivity.
Qed.

(** The statement on a record with a name and an exchange: the name is
    not passed on. *)
Lemma ticker_exchange_info_with_results_example :
  exists doc,
    result_of
      (Call.invoke Tool.get_ticker_exchange_info [("ticker", PStr "nvda")]
         (stub (Some "KEY") 200
            (Body_json (JDict [("results", JDict [("name", JStr "Nvidia");
                                                  ("primary_exchange", JStr "XNAS")])]))))
      = Returned (Json.dumps (JDict doc)) /\
    Dict.keys doc = ("ticker" :: copied_fields ++ ["polygon_coverage"])%list /\
    Dict.get "ticker" doc = Some (JStr (Text.upper "nvda")) /\
    (forall k, In k copied_fields ->
       Dict.get k doc
       = Some (Json.get k [("name", JStr "Nvidia"); ("primary_exchange", JStr "XNAS")])) /\
    Dict.get "polygon_coverage" doc = Some polygon_coverage.
Proof.
  apply (ticker_exchange_info_with_results "nvda"
           [("results", JDict [("name", JStr "Nvidia"); ("primary_exchange", JStr "XNAS")])]
           [("name", JStr "Nvidia"); ("primary_exchange", JStr "XNAS")]
           (stub (Some "KEY") 200 _) "KEY").
  - apply stub_has_key. discriminate.
  - apply stub_answers.
  - reflexivity.
  - discriminate.
Defined.

(* ================================================================== *)
(** * The window of stock_price *)
(* ================================================================== *)

(** [_iso_date] writes an instant of the years 1000 to 9999 as
    YYYY-MM-DD. *)
Lemma iso_date_shape (s us : Z) :
  -30610224000 <= s <= 253402300799 ->
  is_YYYY_MM_DD (_iso_date (Datetime.At s us)) = true.
Proof.
  intros R. unfold _iso_date, Datetime.strftime_Ymd, Datetime.year, Datetime.month,
    Datetime.day. cbn [Datetime.seconds].
  pose proof (four_digit_days (s / 86400)) as F.
  destruct (Datetime.civil_from_days (s / 86400)) as [[y m] d]. cbn [fst snd].
  apply fmt_Ymd_shape. apply F.
  pose proof (Z.div_mod s 86400 ltac:(lia)).
  pose proof (Z.mod_pos_bound s 86400 ltac:(lia)).
  lia.
Qed.

(** X22.  [stock_price] asks for the daily bars of the thirty days that
    end today: with a clock from 1000-01-31 to the end of 9999, the path
    is /v2/aggs/ticker/<TICKER>/range/1/day/<from>/<to>, where <to> is the
    UTC date of the clock and <from> the UTC date thirty days (2592000
    seconds) earlier, both written YYYY-MM-DD, and the query is
    [adjusted = true], [sort = asc], [limit = 5000]. *)
Theorem stock_price_asks_for_the_last_thirty_days (ticker : string) (w : world) :
  -30607632000 <= now w <= 253402300799 ->
  exists from_date to_date,
    Call.request Tool.stock_price [("stock_ticker", PStr ticker)] w
    = Some (Returned
              ("/v2/aggs/ticker/" ++ Text.upper ticker ++ "/range/1/day/"
                 ++ from_date ++ "/" ++ to_date,
               Some [("adjusted", PStr "true"); ("sort", PStr "asc");
                     ("limit", PInt 5000)])) /\
    to_date = _iso_date (Datetime.At (now w) 0) /\
    from_date = _iso_date (Datetime.At (now w - 30 * 86400) 0) /\
    is_YYYY_MM_DD from_date = true /\
    is_YYYY_MM_DD to_date = true.
Proof.
  intros R.
  exists (_iso_date (Datetime.At (now w - 30 * 86400) 0)), (_iso_date (Datetime.At (now w) 0)).
  split; [| split; [reflexivity | split; [reflexivity | split]]].
  - cbn [Call.request Call.req Dict.get String.eqb Ascii.eqb Bool.eqb].
    rewrite add_days_back by lia. reflexivity.
  - apply iso_date_shape. lia.
  - apply iso_date_shape. lia.
Qed.

(** The statement at midnight of 1 January 2024 (UTC). *)
Lemma stock_price_asks_for_the_last_thirty_days_example :
  exists from_date to_date,
    Call.request Tool.stock_price [("stock_ticker", PStr "nvda")]
      (stub None 200 (Body_json JNull))
    = Some (Returned
              ("/v2/aggs/ticker/" ++ Text.upper "nvda" ++ "/range/1/day/"
                 ++ from_date ++ "/" ++ to_date,
               Some [("adjusted", PStr "true"); ("sort", PStr "asc");
                     ("limit", PInt 5000)])) /\
    to_date = _iso_date (Datetime.At 1704067200 0) /\
    from_date = _iso_date (Datetime.At (1704067200 - 30 * 86400) 0) /\
    is_YYYY_MM_DD from_date = true /\
    is_YYYY_MM_DD to_date = true.
Proof.
  apply (stock_price_asks_for_the_last_thirty_days "nvda" (stub None 200 (Body_json JNull))).
  simpl. lia.
Defined.

(* ================================================================== *)
(** * The documented market hours *)
(* ================================================================== *)

(** The classifier against one interval of minutes. *)
Ltac classify :=
  unfold _determine_market_session; cbv zeta;
  repeat match goal with
         | |- context [?a <=? ?b] => destruct (Z.leb_spec a b); cbn [andb]
         | |- context [?a <? ?b] => destruct (Z.ltb_spec a b); cbn [andb]
         end;
  split; intros Hs; try reflexivity; try discriminate Hs; lia.

(** X23.  The hours that [get_market_hours_info] documents are the hours
    of the classifier: for each session the document names, with [start]
    and [end] read as minutes of the day, [_determine_market_session]
    gives that session exactly from [start] on and before [end]. *)
Theorem documented_hours_are_those_of_the_classifier
    (name : string) (lo hi hour minute : Z) :
  documented_hours name = Some (lo, hi) ->
  (_determine_market_session hour minute = name <-> lo <= hour * 60 + minute < hi).
Proof.
  unfold documented_hours, market_hours, field.
  cbn [Dict.get].
  destruct (String.eqb_spec name "pre_market") as [-> | N1].
  { cbn. intros E. injection E as <- <-. classify. }
  destruct (String.eqb_spec name "regular_market") as [-> | N2].
  { cbn. intros E. injection E as <- <-. classify. }
  destruct (String.eqb_spec name "after_hours") as [-> | N3].
  { cbn. intros E. injection E as <- <-. classify. }
  destruct (String.eqb_spec name "important_notes") as [-> | N4].
  { cbn. discriminate. }
  discriminate.
Qed.

(** The statement on the regular session at 10:00. *)
Lemma documented_hours_are_those_of_the_classifier_example :
  _determine_market_session 10 0 = "regular_market".
Proof.
  apply (proj2 (documented_hours_are_those_of_the_classifier "regular_market" 570 960 10 0
                  eq_refl)).
  lia.
Defined.

(* ================================================================== *)
(** * The health check and the port of the server *)
(* ================================================================== *)

(** Some values of the model of [int], as CPython 3.11 computes them. *)
Example int_of_text :
  Int.of_str "8000" = Returned 8000 /\
  Int.of_str " +8_000 " = Returned 8000 /\
  Int.of_str "-08" = Returned (-8) /\
  Int.of_str "" = Raised (Exn ValueError "invalid literal for int() with base 10: ''") /\
  Int.of_str "80_" = Raised (Exn ValueError "invalid literal for int() with base 10: '80_'") /\
  Int.of_str "8 0" = Raised (Exn ValueError "invalid literal for int() with base 10: '8 0'") /\
  Int.of_str "0x50" = Raised (Exn ValueError "invalid literal for int() with base 10: '0x50'").
Proof. repeat split. Qed.

(** The number a run of digits writes is below the power of ten of their
    count. *)
Lemma scan_bound (s : string) (u : bool) (acc digits n d : Z) (rest : string) :
  Int.scan s u acc digits = Some (n, d, rest) ->
  0 <= digits -> 0 <= acc < 10 ^ digits ->
  0 <= d /\ 0 <= n < 10 ^ d.
Proof.
  revert u acc digits. induction s as [| c r IH]; intros u acc digits; cbn [Int.scan].
  - destruct u; [discriminate |]. intros E. injection E as <- <- <-. auto.
  - unfold PyFloat.digit_of.
    destruct ((48 <=? Text.code c) && (Text.code c <=? 57)) eqn:D.
    + intros E G B. apply (IH _ _ _ E); [lia |].
      apply andb_true_iff in D. destruct D as [D1 D2].
      apply Z.leb_le in D1, D2.
      rewrite Z.pow_add_r, Z.pow_1_r by lia. lia.
    + destruct (Ascii.eqb c "_").
      * destruct u; [discriminate |]. intros E G B. apply (IH _ _ _ E G B).
      * destruct u; [discriminate |]. intros E. injection E as <- <- <-. auto.
Qed.

(** An [int] read from text can be written: it has at most 4300 digits.
    So the f-strings of the main block and of the health check that write
    the port do not raise. *)
Lemma read_int_is_written (s : string) (n : Z) :
  Int.of_str s = Returned n -> Py.int_str n = Returned (Text.of_Z n).
Proof.
  unfold Int.of_str.
  destruct (PyFloat.read_sign (Int.lstrip s)) as [negative t].
  assert (H : match Int.scan t false 0 0 with
              | None => Int.invalid_literal s
              | Some (m, digits, rest) =>
                  if Int.max_str_digits <? digits then Int.too_many_digits digits
                  else if digits =? 0 then Int.invalid_literal s
                  else if Int.all_space rest
                       then Returned (if negative then - m else m)
                       else Int.invalid_literal s
              end = Returned n ->
              Py.int_str n = Returned (Text.of_Z n)).
  { destruct (Int.scan t false 0 0) as [[[m d] rest] |] eqn:E; [| discriminate].
    destruct (scan_bound t false 0 0 m d rest E ltac:(lia) ltac:(cbn; lia)) as [D B].
    destruct (Z.ltb_spec Int.max_str_digits d); [discriminate |].
    destruct (d =? 0); [discriminate |].
    destruct (Int.all_space rest); [| discriminate].
    intros R. injection R as <-.
    apply int_str_cases.
    assert (10 ^ d <= 10 ^ Py.max_str_digits).
    { apply Z.pow_le_mono_r; [lia | exact H]. }
    destruct negative; lia. }
  destruct t as [| c r]; [exact H |].
  destruct (Ascii.eqb_spec c "_") as [-> | N]; [discriminate |].
  destruct c as [[] [] [] [] [] [] [] []]; try exact H; now destruct N.
Qed.

(** X24.  [check_health] returns [True] exactly when [PORT] (8000 when
    unset) is read by [int] and the server answers the request for
    http://localhost:<port>/health, sent with a timeout of five seconds,
    with status 200; it prints the line of success then and only then, and
    the script exits with 0 then and with 1 otherwise.  It sends that one
    request whenever the port can be read, and none when it cannot. *)
Theorem check_health_succeeds_iff (w : Health.world) :
  let report := Health.check_health w in
  (Health.healthy report = true <->
   exists port response,
     Main.port (Health.env w) = Returned port /\
     Health.get w (health_url port) 5 = Reply response /\
     status_code response = 200) /\
  (Health.healthy report = true <-> Health.printed report = "✅ Server is healthy") /\
  (Health.healthy report = true <-> Health.main w = 0) /\
  (Health.healthy report = false <-> Health.main w = 1) /\
  (Health.requested report = [] <-> exists e, Main.port (Health.env w) = Raised e) /\
  (forall port, Main.port (Health.env w) = Returned port ->
                Health.requested report = [(health_url port, 5)]).
Proof.
  intros report. subst report. unfold Health.main, Health.check_health, health_url.
  destruct (Main.port (Health.env w)) as [port | e];
    cbn [Health.healthy Health.printed Health.requested].
  - destruct (Health.get w _ 5) as [r | e] eqn:G.
    + destruct (Z.eqb_spec (status_code r) 200) as [S | S];
        cbn [Health.healthy Health.printed Health.requested].
      * repeat split; try discriminate; try reflexivity.
        -- intros _. exists port, r. auto.
        -- intros [e E]. discriminate.
        -- intros p E. injection E as <-. reflexivity.
      * repeat split; try discriminate; try reflexivity.
        -- intros (p & r' & E & G' & S'). injection E as <-.
           rewrite G in G'. injection G' as <-. contradiction.
        -- intros [e E]. discriminate.
        -- intros p E. injection E as <-. reflexivity.
    + cbn [Health.healthy Health.printed Health.requested].
      repeat split; try discriminate; try reflexivity.
      * intros (p & r' & E & G' & S'). injection E as <-.
        rewrite G in G'. discriminate.
      * destruct (exn_cls e); unfold Health.failed; cbn [append]; intros H;
          discriminate H.
      * intros [e' E]. discriminate.
      * intros p E. injection E as <-. reflexivity.
  - repeat split; try discriminate; try reflexivity.
    + intros (p & r' & E & _). discriminate.
    + intros _. eauto.
Qed.

(** X25.  The health check probes the port the main block serves on:
    when the block starts the server with the HTTP transport on port [p]
    - [MCP_HTTP_TRANSPORT] is true in some letter case and [p] is [PORT]
    as [int] reads it, or 8000 - then [check_health], in the same
    environment, sends its request to http://localhost:<p>/health; and
    when the block raises on reading [PORT], [check_health] fails without
    a request and prints the message of that exception. *)
Theorem health_check_probes_the_port_of_the_server
    (e : Main.env) (get : string -> Z -> reply) :
  (forall msg p,
     Main.start e = Returned (msg, Main.Http p) ->
     (exists flag, Main.MCP_HTTP_TRANSPORT e = Some flag /\ Text.lower flag = "true") /\
     Main.port e = Returned p /\
     msg = "Starting MCP server with HTTP transport on port " ++ Text.of_Z p /\
     Health.requested (Health.check_health (Health.World e get)) = [(health_url p, 5)]) /\
  (forall x,
     Main.start e = Raised x ->
     Health.check_health (Health.World e get)
     = Health.Report false ("❌ Health check failed: " ++ exn_msg x) []) /\
  (Main.MCP_HTTP_TRANSPORT e = None ->
   Main.start e = Returned ("Starting MCP server with stdio transport", Main.Stdio)).
Proof.
  unfold Main.start, Health.check_health, health_url. cbn [Health.env Health.get].
  split; [| split].
  - intros msg p.
    destruct (Main.MCP_HTTP_TRANSPORT e) as [flag |]; [| discriminate].
    destruct (String.eqb_spec (Text.lower flag) "true") as [L | L]; [| discriminate].
    destruct (Main.port e) as [q |]; cbn [obind]; [| discriminate].
    intros H. injection H as <- <-.
    split; [eauto |]. split; [reflexivity |]. split; [reflexivity |].
    destruct (get _ 5) as [r |]; [destruct (_ =? 200) |]; reflexivity.
  - intros x. destruct (String.eqb _ "true"); [| discriminate].
    destruct (Main.port e) as [q | y]; cbn [obind]; [discriminate |].
    intros E. injection E as ->. reflexivity.
  - intros ->. reflexivity.
Qed.
